(** * golang-day-trading-signal: the signal orchestration subsystem

    A shallow embedding of the batch pipeline (fetch, infer, classify,
    report), of the cooldown cache, of the cron scheduler start-up and of
    the Telegram presentation layer, followed by the properties the
    specification states about them.  The second half of each part adds
    the rest of the program (the command texts and HTTP handlers, the
    Yahoo Finance client, the loading of the configuration) and further
    properties read off the code.

    Conventions.
    - Go's [int], [int64] and [time.Duration] are [Z]; where the source
      multiplies durations the 64-bit wrap-around is written out.
    - Go's [float64] is Rocq's primitive binary64 [float].
    - A Go [string] is a [string] of bytes.
    - A function returning [(T, error)] returns a [result T]; a run-time
      panic (slice bounds, nil dereference) is the third outcome [Panic].
    - The outside world (wall clock, calls made, log lines written) is an
      explicit [World]; the service object is threaded through every
      method next to it. *)

From Stdlib Require Import ZArith List String Ascii Bool Lia PrimFloat.
From Stdlib Require Import Permutation DecimalString Sorted.
From stdpp Require Import base option list strings gmap.

Local Open Scope string_scope.
Local Open Scope Z_scope.
Local Open Scope list_scope.

(** ** Go's [strings] package, on bytes *)

Module strings.

Definition is_lower (c : ascii) : bool :=
  let n := nat_of_ascii c in (97 <=? n)%nat && (n <=? 122)%nat.

Definition upper_byte (c : ascii) : ascii :=
  if is_lower c then ascii_of_nat (nat_of_ascii c - 32) else c.

(** [strings.ToUpper] restricted to ASCII letters: every other byte is
    kept.  The orchestration code is stated over an arbitrary upper-casing
    function (field [ToUpper] of [Env] below); this one instantiates it. *)
Fixpoint ToUpperASCII (s : string) : string :=
  match s with
  | EmptyString => EmptyString
  | String c r => String (upper_byte c) (ToUpperASCII r)
  end.

(** White space as [unicode.IsSpace] sees it, on the UTF-8 bytes of a Go
    string.  In one byte: tab, line feed, vertical tab, form feed, carriage
    return, space. *)
Definition is_space (c : ascii) : bool :=
  let n := nat_of_ascii c in
  ((9 <=? n)%nat && (n <=? 13)%nat) || (n =? 32)%nat.

(** In two bytes: U+0085 ([C2 85]) and U+00A0 ([C2 A0]). *)
Definition is_space2 (c d : ascii) : bool :=
  (nat_of_ascii c =? 194)%nat
  && ((nat_of_ascii d =? 133)%nat || (nat_of_ascii d =? 160)%nat).

(** In three bytes: U+1680 ([E1 9A 80]); U+2000 to U+200A, U+2028, U+2029
    and U+202F ([E2 80 80] to [E2 80 8A], [E2 80 A8], [E2 80 A9],
    [E2 80 AF]); U+205F ([E2 81 9F]); U+3000 ([E3 80 80]). *)
Definition is_space3 (c d e : ascii) : bool :=
  let n1 := nat_of_ascii c in
  let n2 := nat_of_ascii d in
  let n3 := nat_of_ascii e in
  ((n1 =? 225)%nat && (n2 =? 154)%nat && (n3 =? 128)%nat)
  || ((n1 =? 226)%nat && (n2 =? 128)%nat
      && (((128 <=? n3)%nat && (n3 <=? 138)%nat)
          || (n3 =? 168)%nat || (n3 =? 169)%nat || (n3 =? 175)%nat))
  || ((n1 =? 226)%nat && (n2 =? 129)%nat && (n3 =? 159)%nat)
  || ((n1 =? 227)%nat && (n2 =? 128)%nat && (n3 =? 128)%nat).

(** [strings.TrimLeftFunc(s, unicode.IsSpace)]: runes are decoded from the
    front; a byte sequence that is not the encoding of a white-space rune,
    an ill-formed one included, stops the trimming. *)
Fixpoint TrimLeftSpace (s : string) : string :=
  match s with
  | EmptyString => EmptyString
  | String c r =>
      if is_space c then TrimLeftSpace r
      else
        match r with
        | EmptyString => s
        | String d r2 =>
            if is_space2 c d then TrimLeftSpace r2
            else
              match r2 with
              | EmptyString => s
              | String e r3 => if is_space3 c d e then TrimLeftSpace r3 else s
              end
        end
  end.

Fixpoint rev_onto (s acc : string) : string :=
  match s with
  | EmptyString => acc
  | String c r => rev_onto r (String c acc)
  end.

Definition reverse (s : string) : string := rev_onto s EmptyString.

(** Trimming from the end, on the reversed string: the last rune of a
    string is a white-space rune exactly when its encoding ends the
    string, so the bytes of each encoding are met last byte first. *)
Fixpoint TrimLeftSpace_reversed (s : string) : string :=
  match s with
  | EmptyString => EmptyString
  | String c r =>
      if is_space c then TrimLeftSpace_reversed r
      else
        match r with
        | EmptyString => s
        | String d r2 =>
            if is_space2 d c then TrimLeftSpace_reversed r2
            else
              match r2 with
              | EmptyString => s
              | String e r3 =>
                  if is_space3 e d c then TrimLeftSpace_reversed r3 else s
              end
        end
  end.

(** [strings.TrimRightFunc(s, unicode.IsSpace)] *)
Definition TrimRightSpace (s : string) : string :=
  reverse (TrimLeftSpace_reversed (reverse s)).

(** [strings.TrimSpace] *)
Definition TrimSpace (s : string) : string :=
  TrimRightSpace (TrimLeftSpace s).

(** [strings.Split(s, sep)] for a one-byte separator: the pieces between
    the separators, so that a string without separator gives one piece
    and the empty string gives one empty piece. *)
Fixpoint Split (s : string) (sep : ascii) : list string :=
  match s with
  | EmptyString => [EmptyString]
  | String c r =>
      if Ascii.eqb c sep then EmptyString :: Split r sep
      else match Split r sep with
           | h :: t => String c h :: t
           | [] => [String c EmptyString]
           end
  end.

(** [strings.Index(s, sep)] for a one-byte [sep]: position of the first
    occurrence, [-1] when there is none. *)
Fixpoint Index (s : string) (sep : ascii) : Z :=
  match s with
  | EmptyString => -1
  | String c r =>
      if Ascii.eqb c sep then 0
      else let i := Index r sep in if i <? 0 then -1 else i + 1
  end.

Fixpoint last_index_from (s : string) (sep : ascii) (pos found : Z) : Z :=
  match s with
  | EmptyString => found
  | String c r =>
      last_index_from r sep (pos + 1) (if Ascii.eqb c sep then pos else found)
  end.

(** [strings.LastIndex(s, sep)] for a one-byte [sep]. *)
Definition LastIndex (s : string) (sep : ascii) : Z :=
  last_index_from s sep 0 (-1).

(** The slice expression [s[lo:hi]]: defined for [0 <= lo <= hi <= len(s)],
    a run-time panic ([None]) otherwise. *)
Definition slice (s : string) (lo hi : Z) : option string :=
  if (0 <=? lo) && (lo <=? hi) && (hi <=? Z.of_nat (String.length s))
  then Some (String.substring (Z.to_nat lo) (Z.to_nat (hi - lo)) s)
  else None.

End strings.

(** ** Go's [time] package *)

Module time.

(** An instant, in nanoseconds on the process clock. *)
Definition Time := Z.

(** [time.Duration] is an [int64] count of nanoseconds. *)
Definition Duration := Z.

Definition minDuration : Z := - 2 ^ 63.
Definition maxDuration : Z := 2 ^ 63 - 1.

(** Two's-complement wrap-around of [int64] arithmetic. *)
Definition wrap64 (z : Z) : Z := (z + 2 ^ 63) mod 2 ^ 64 - 2 ^ 63.

Definition Second : Duration := 1000000000.
Definition Minute : Duration := 60 * Second.

(** [Duration * Duration], as [int64] multiplication. *)
Definition mul (a b : Duration) : Duration := wrap64 (a * b).

(** [t.Sub(u)]: the difference, saturated at the ends of [Duration]. *)
Definition Sub (t u : Time) : Duration :=
  if t - u <? minDuration then minDuration
  else if maxDuration <? t - u then maxDuration
  else t - u.

End time.

(** ** Errors, results and log lines *)

(** A Go [error], by its message. *)
Definition error := string.

(** [fmt.Errorf("<prefix>: %w", err)] *)
Definition wrap_error (prefix : string) (err : error) : error :=
  String.append prefix (String.append ": " err).

Inductive result (A : Type) : Type :=
| Ok (a : A)
| Err (e : error)
| Panic.

Arguments Ok {A} a.
Arguments Err {A} e.
Arguments Panic {A}.

Inductive LogArg : Type :=
| ArgInt (n : Z)
| ArgStr (s : string)
| ArgFloat (x : float)
| ArgList (l : list string).

(** One call of [log.Printf] / [log.Println]: the format and its
    arguments, not rendered. *)
Record LogLine : Type := { format : string; args : list LogArg }.

(** ** package models *)

Module models.

Record OHLCData : Type := {
  Timestamp : time.Time;
  Open : float;
  High : float;
  Low : float;
  Close : float;
  Volume : Z
}.

(** The fields of [OHLCVAnalysis] carry an [A] in front: Rocq has one
    name space for the projections of a module. *)
Record OHLCVAnalysis : Type := {
  AOpen : float;
  AHigh : float;
  ALow : float;
  AClose : float;
  AVolume : Z;
  Explanation : string
}.

Record TradingSignal : Type := {
  Signal : string;
  BuyPrice : float;
  TargetPrice : float;
  StopLoss : float;
  Confidence : Z;
  NewsSummary : string;
  Reason : string;
  StockSymbol : string;
  GeneratedAt : time.Time;
  Analysis : option OHLCVAnalysis     (* [OHLCVAnalysis *OHLCVAnalysis] *)
}.

Record Config : Type := {
  GeminiAPIKey : string;
  TelegramBotToken : string;
  TelegramChatID : string;
  Port : string;
  Environment : string;
  DefaultStockSymbol : string;
  SignalCooldownMins : Z;
  MinConfidenceLevel : Z;
  StockSymbols : list string;
  WebhookURL : string
}.

Record SignalSummary : Type := {
  TotalAnalyzed : Z;
  BuySignals : list TradingSignal;
  SellSignals : list TradingSignal;
  HoldSignals : list TradingSignal;
  FailedSignals : list string;
  SummaryGeneratedAt : time.Time      (* [GeneratedAt] of the summary *)
}.

End models.

Import models.

(** ** Texts sent to Telegram

    A message is built by appending the results of [fmt.Sprintf] calls.
    Each call is kept as one [Chunk]: the template it instantiates and the
    values put into it. *)

Inductive Chunk : Type :=
| SignalTitle (emoji upper symbol : string)
| SignalPrices (buy target stop : float)
| RiskRewardAnalysis (risk reward ratio : float)
| ConfidenceAndReason (confidence : Z) (reason : string)
| CurrentOHLCV (a : OHLCVAnalysis)
| GeneratedAtFooter (t : time.Time)
| SummaryHeader (total buys sells holds failed : Z) (t : time.Time)
| BuyHeading
| BuyLine (symbol : string) (confidence : Z) (buy target stop : float)
    (rr : option float)
| SellHeading
| SellLine (symbol : string) (confidence : Z) (stop : float)
    (rr : option float)
| HoldHeading
| HoldLine (symbol : string) (confidence : Z)
| FailedHeading
| FailedLine (symbol : string)
| Rule
| RequestReceived (total minutes : Z) (t : time.Time)
| Plain (s : string).

Definition Message := list Chunk.

(** ** The outside world *)

(** The argument of [model.GenerateContent]: the prompt [buildPrompt]
    renders from the symbol and its candles. *)
Record Prompt : Type := { PromptSymbol : string; PromptData : list OHLCData }.

Inductive Event : Type :=
| EvFetch (symbol : string)
| EvGenerateContent (p : Prompt)
| EvSleep (d : time.Duration)
| EvTelegram (chat_id : string) (m : Message)
| EvLog (l : LogLine).

Record World : Type := {
  clock : time.Time;
  trace : list Event
}.

(** What an outbound call gives back, and how long it took. *)
Record Reply (A : Type) : Type := { latency : N; answer : A }.

Arguments latency {A} r.
Arguments answer {A} r.

(** [genai] response types, as far as [GenerateTradingSignal] reads them. *)
Inductive Part : Type :=
| Text (s : string)
| Blob.

Record Content : Type := { Parts : list Part }.

(** [Content] is a pointer in a [Candidate]; [None] is [nil]. *)
Record Candidate : Type := { CandidateContent : option Content }.

Record GenerateContentResponse : Type := { Candidates : list Candidate }.

(** The collaborators and library functions the code calls but the
    repository does not define.  A collaborator answers from the history
    of the world so far, so two calls with the same argument may differ. *)
Record Env : Type := {
  (** [strings.ToUpper] *)
  ToUpper : string -> string;
  (** [json.Unmarshal] into a fresh [models.TradingSignal] *)
  json_Unmarshal : string -> error + TradingSignal;
  (** [YahooFinanceService.FetchOHLCData] *)
  FetchOHLCData : World -> string -> Reply (error + list OHLCData);
  (** [GenerativeModel.GenerateContent] *)
  GenerateContent : World -> Prompt -> Reply (error + GenerateContentResponse);
  (** the HTTP round trip of [sendMessage] / [sendMessageToChat]:
      [None] is a [nil] error *)
  telegram_Do : World -> string -> Message -> Reply (option error)
}.

Definition time_Now (w : World) : time.Time := clock w.

(** [time.Since(t)] *)
Definition time_Since (w : World) (t : time.Time) : time.Duration :=
  time.Sub (time_Now w) t.

Definition record (ev : Event) (elapsed : Z) (w : World) : World :=
  {| clock := clock w + elapsed; trace := trace w ++ [ev] |}.

Definition time_Sleep (d : time.Duration) (w : World) : World :=
  record (EvSleep d) (Z.max 0 d) w.

Definition log_Printf (fmt : string) (a : list LogArg) (w : World) : World :=
  record (EvLog {| format := fmt; args := a |}) 0 w.

Definition log_all (ls : list LogLine) (w : World) : World :=
  fold_left (fun w l => record (EvLog l) 0 w) ls w.

(** ** package services: the Telegram presentation layer *)

Module services.

Record TelegramService : Type := { botToken : string; chatID : string }.

Definition no_ratio : float * float * float * option error :=
  (0%float, 0%float, 0%float, None).

(** [calculateRiskRewardRatio]: the four results, and the lines it logs. *)
Definition calculateRiskRewardRatio (signal : TradingSignal)
  : (float * float * float * option error) * list LogLine :=
  if String.eqb (Signal signal) "WAIT" then (no_ratio, [])
  else
    let levels :=
      if String.eqb (Signal signal) "BUY" then
        Some ((BuyPrice signal - StopLoss signal)%float,
              (TargetPrice signal - BuyPrice signal)%float)
      else if String.eqb (Signal signal) "SELL" then
        Some ((StopLoss signal - BuyPrice signal)%float,
              (BuyPrice signal - TargetPrice signal)%float)
      else None in
    match levels with
    | None =>
        (no_ratio,
         [{| format := "invalid signal type: %s";
             args := [ArgStr (Signal signal)] |}])
    | Some (risk, reward) =>
        if (risk <=? 0)%float then
          (no_ratio,
           [{| format := "invalid risk calculation: risk must be positive, got %.2f";
               args := [ArgFloat risk] |}])
        else if (reward <=? 0)%float then
          (no_ratio,
           [{| format := "invalid reward calculation: reward must be positive, got %.2f";
               args := [ArgFloat reward] |}])
        else ((risk, reward, (reward / risk)%float, None), [])
    end.

Definition signal_emoji (upper : string) : string :=
  if String.eqb upper "BUY" then "🟢"
  else if String.eqb upper "SELL" then "🔴"
  else if String.eqb upper "WAIT" then "🟡"
  else "⚪".

(** [formatSignalMessage] *)
Definition formatSignalMessage (env : Env) (signal : TradingSignal)
  : Message * list LogLine :=
  let upper := ToUpper env (Signal signal) in
  let message :=
    [SignalTitle (signal_emoji upper) upper (StockSymbol signal);
     SignalPrices (BuyPrice signal) (TargetPrice signal) (StopLoss signal)] in
  let '(message, logged) :=
    if negb (String.eqb (Signal signal) "WAIT") then
      let '((risk, reward, ratio, err), logged) :=
        calculateRiskRewardRatio signal in
      match err with
      | None => (message ++ [RiskRewardAnalysis risk reward ratio], logged)
      | Some _ => (message, logged)
      end
    else (message, []) in
  let message :=
    message ++ [ConfidenceAndReason (Confidence signal) (Reason signal)] in
  let message :=
    match Analysis signal with
    | Some a => message ++ [CurrentOHLCV a]
    | None => message
    end in
  (message ++ [GeneratedAtFooter (GeneratedAt signal)], logged).

Definition buy_line (signal : TradingSignal) : Chunk * list LogLine :=
  let '((_, _, ratio, err), logged) := calculateRiskRewardRatio signal in
  (BuyLine (StockSymbol signal) (Confidence signal) (BuyPrice signal)
     (TargetPrice signal) (StopLoss signal)
     (match err with None => Some ratio | Some _ => None end),
   logged).

Definition sell_line (signal : TradingSignal) : Chunk * list LogLine :=
  let '((_, _, ratio, err), logged) := calculateRiskRewardRatio signal in
  (SellLine (StockSymbol signal) (Confidence signal) (StopLoss signal)
     (match err with None => Some ratio | Some _ => None end),
   logged).

Definition len {A : Type} (l : list A) : Z := Z.of_nat (length l).

(** A heading and one line per element, when there is an element. *)
Definition section {A : Type} (heading : Chunk)
  (line : A -> Chunk * list LogLine) (l : list A) : Message * list LogLine :=
  if 0 <? len l then
    (heading :: map (fun x => fst (line x)) l,
     concat (map (fun x => snd (line x)) l))
  else ([], []).

(** [formatSummaryMessage] *)
Definition formatSummaryMessage (summary : SignalSummary)
  : Message * list LogLine :=
  let header :=
    SummaryHeader (TotalAnalyzed summary) (len (BuySignals summary))
      (len (SellSignals summary)) (len (HoldSignals summary))
      (len (FailedSignals summary)) (SummaryGeneratedAt summary) in
  let buys := section BuyHeading buy_line (BuySignals summary) in
  let sells := section SellHeading sell_line (SellSignals summary) in
  let holds :=
    section HoldHeading
      (fun s => (HoldLine (StockSymbol s) (Confidence s), []))
      (HoldSignals summary) in
  let failed :=
    section FailedHeading (fun s => (FailedLine s, []))
      (FailedSignals summary) in
  (header :: fst buys ++ fst sells ++ fst holds ++ fst failed ++ [Rule],
   snd buys ++ snd sells ++ snd holds ++ snd failed).

Section Telegram.

Variable env : Env.

(** [sendMessageToChat]: one HTTP round trip; the reply decides between
    [nil] and an error. *)
Definition sendMessageToChat (t : TelegramService) (chat_id : string)
  (message : Message) (w : World) : option error * World :=
  let r := telegram_Do env w chat_id message in
  (answer r, record (EvTelegram chat_id message) (Z.of_N (latency r)) w).

(** [sendMessage]: the same, to the configured chat. *)
Definition sendMessage (t : TelegramService) (message : Message) (w : World)
  : option error * World :=
  sendMessageToChat t (chatID t) message w.

Definition SendTradingSignal (t : TelegramService) (signal : TradingSignal)
  (w : World) : option error * World :=
  let '(message, logged) := formatSignalMessage env signal in
  sendMessage t message (log_all logged w).

Definition SendSignalSummary (t : TelegramService) (summary : SignalSummary)
  (w : World) : option error * World :=
  let '(message, logged) := formatSummaryMessage summary in
  sendMessage t message (log_all logged w).

Definition SendRequestReceivedMessage (t : TelegramService) (totalStocks : Z)
  (w : World) : option error * World :=
  sendMessage t
    [RequestReceived totalStocks (Z.quot (totalStocks * 3) 60 + 1) (time_Now w)]
    w.

Definition SendMessageToChat (t : TelegramService) (chat_id : string)
  (text : string) (w : World) : option error * World :=
  sendMessageToChat t chat_id [Plain text] w.

End Telegram.

(** ** package services: signal inference *)

Section Gemini.

Variable env : Env.

(** [parseSignalResponse]: the text between the first opening and the last
    closing brace is decoded.  When the last closing brace comes more than
    one byte before the first opening one, the slice expression panics. *)
Definition parseSignalResponse (text : string) : result TradingSignal :=
  let start := strings.Index text "{"%char in
  let end_ := strings.LastIndex text "}"%char in
  if (start =? -1) || (end_ =? -1) then Err "no JSON found in response"
  else
    match strings.slice text start (end_ + 1) with
    | None => Panic
    | Some jsonStr =>
        match json_Unmarshal env jsonStr with
        | inl err => Err (wrap_error "failed to unmarshal signal JSON" err)
        | inr signal => Ok signal
        end
    end.

Definition buildPrompt (symbol : string) (ohlcData : list OHLCData) : Prompt :=
  {| PromptSymbol := symbol; PromptData := ohlcData |}.

(** [signal.StockSymbol = symbol; signal.GeneratedAt = time.Now()] *)
Definition stamp (signal : TradingSignal) (symbol : string) (now : time.Time)
  : TradingSignal :=
  {| Signal := Signal signal;
     BuyPrice := BuyPrice signal;
     TargetPrice := TargetPrice signal;
     StopLoss := StopLoss signal;
     Confidence := Confidence signal;
     NewsSummary := NewsSummary signal;
     Reason := Reason signal;
     StockSymbol := symbol;
     GeneratedAt := now;
     Analysis := Analysis signal |}.

(** [GeminiAIService.GenerateTradingSignal] *)
Definition GenerateTradingSignal (symbol : string) (ohlcData : list OHLCData)
  (w : World) : result TradingSignal * World :=
  let prompt := buildPrompt symbol ohlcData in
  let r := GenerateContent env w prompt in
  let w := record (EvGenerateContent prompt) (Z.of_N (latency r)) w in
  match answer r with
  | inl err => (Err (wrap_error "failed to generate content" err), w)
  | inr resp =>
      match Candidates resp with
      | [] => (Err "no response generated from Gemini", w)
      | candidate :: _ =>
          match CandidateContent candidate with
          | None => (Panic, w)
          | Some content =>
              match Parts content with
              | [] => (Err "no content parts in response", w)
              | part :: _ =>
                  let text := match part with Text s => s | Blob => "" end in
                  match parseSignalResponse text with
                  | Err err =>
                      (Err (wrap_error "failed to parse signal response" err), w)
                  | Panic => (Panic, w)
                  | Ok signal => (Ok (stamp signal symbol (time_Now w)), w)
                  end
              end
          end
      end
  end.

(** [YahooFinanceService.FetchOHLCData], at its interface: one request,
    answered by the quote source. *)
Definition yahoo_FetchOHLCData (symbol : string) (w : World)
  : (error + list OHLCData) * World :=
  let r := FetchOHLCData env w symbol in
  (answer r, record (EvFetch symbol) (Z.of_N (latency r)) w).

End Gemini.

(** ** package services: the trading signal service *)

Record TradingSignalService : Type := {
  telegramService : TelegramService;
  config : Config;
  signalCache : gmap string time.Time
}.

(** What a method of the service can read and change: the service object
    behind its receiver, and the world. *)
Record State : Type := { service : TradingSignalService; world : World }.

Definition set_world (w : World) (st : State) : State :=
  {| service := service st; world := w |}.

Definition set_signalCache (c : gmap string time.Time) (st : State) : State :=
  {| service :=
       {| telegramService := telegramService (service st);
          config := config (service st);
          signalCache := c |};
     world := world st |}.

Definition logf (fmt : string) (a : list LogArg) (st : State) : State :=
  set_world (log_Printf fmt a (world st)) st.

(** The four local slices of a batch run. *)
Record Buckets : Type := {
  buySignals : list TradingSignal;
  sellSignals : list TradingSignal;
  holdSignals : list TradingSignal;
  failedSignals : list string
}.

Definition no_buckets : Buckets :=
  {| buySignals := []; sellSignals := []; holdSignals := [];
     failedSignals := [] |}.

Definition add_buy (s : TradingSignal) (b : Buckets) : Buckets :=
  {| buySignals := buySignals b ++ [s]; sellSignals := sellSignals b;
     holdSignals := holdSignals b; failedSignals := failedSignals b |}.

Definition add_sell (s : TradingSignal) (b : Buckets) : Buckets :=
  {| buySignals := buySignals b; sellSignals := sellSignals b ++ [s];
     holdSignals := holdSignals b; failedSignals := failedSignals b |}.

Definition add_hold (s : TradingSignal) (b : Buckets) : Buckets :=
  {| buySignals := buySignals b; sellSignals := sellSignals b;
     holdSignals := holdSignals b ++ [s]; failedSignals := failedSignals b |}.

Definition add_failed (symbol : string) (b : Buckets) : Buckets :=
  {| buySignals := buySignals b; sellSignals := sellSignals b;
     holdSignals := holdSignals b;
     failedSignals := failedSignals b ++ [symbol] |}.

Section TradingSignalService.

Variable env : Env.

(** [GenerateSignal] *)
Definition GenerateSignal (symbol : string) (st : State)
  : result TradingSignal * State :=
  let st := logf "Generating trading signal for %s" [ArgStr symbol] st in
  let '(fetched, w) := yahoo_FetchOHLCData env symbol (world st) in
  let st := set_world w st in
  match fetched with
  | inl err => (Err (wrap_error "failed to fetch OHLC data" err), st)
  | inr ohlcData =>
      if len ohlcData =? 0 then
        (Err (String.append "no OHLC data available for " symbol), st)
      else
        let st :=
          logf "Fetched %d OHLC data points for %s"
            [ArgInt (len ohlcData); ArgStr symbol] st in
        let '(generated, w) :=
          GenerateTradingSignal env symbol ohlcData (world st) in
        let st := set_world w st in
        match generated with
        | Err err => (Err (wrap_error "failed to generate AI signal" err), st)
        | Panic => (Panic, st)
        | Ok signal => (Ok signal, st)
        end
  end.

(** [canGenerateSignal] *)
Definition canGenerateSignal (symbol : string) (st : State) : bool :=
  match signalCache (service st) !! symbol with
  | None => true
  | Some lastSignal =>
      let cooldownDuration :=
        time.mul (SignalCooldownMins (config (service st))) time.Minute in
      cooldownDuration <=? time_Since (world st) lastSignal
  end.

(** [updateSignalCache] *)
Definition updateSignalCache (symbol : string) (st : State) : State :=
  set_signalCache
    (<[symbol := time_Now (world st)]> (signalCache (service st))) st.

(** The [switch] that files a signal under its upper-cased direction. *)
Definition categorize (signal : TradingSignal) (b : Buckets) : Buckets :=
  let direction := ToUpper env (Signal signal) in
  if String.eqb direction "BUY" then add_buy signal b
  else if String.eqb direction "SELL" then add_sell signal b
  else if String.eqb direction "WAIT" || String.eqb direction "HOLD"
       then add_hold signal b
  else add_hold signal b.

(** [time.Sleep(3 * time.Second)] unless [i] is the last index. *)
Definition pause_unless_last (i : Z) (st : State) : State :=
  if i <? len (StockSymbols (config (service st))) - 1
  then set_world (time_Sleep (3 * time.Second) (world st)) st
  else st.

Definition log_analyzing (i : Z) (symbol : string) (st : State) : State :=
  logf "Analyzing stock %d/%d: %s"
    [ArgInt (i + 1); ArgInt (len (StockSymbols (config (service st))));
     ArgStr symbol] st.

(** The [for i, symbol := range] loop of [GenerateAllSignals], from index
    [i] over the symbols still to come. *)
Fixpoint analyze_from (i : Z) (symbols : list string) (b : Buckets)
  (st : State) : result Buckets * State :=
  match symbols with
  | [] => (Ok b, st)
  | symbol :: rest =>
      let st := log_analyzing i symbol st in
      match GenerateSignal symbol st with
      | (Err err, st) =>
          let st :=
            logf "Failed to generate signal for %s: %v"
              [ArgStr symbol; ArgStr err] st in
          analyze_from (i + 1) rest (add_failed symbol b) st
      | (Panic, st) => (Panic, st)
      | (Ok signal, st) =>
          let b := categorize signal b in
          let st := pause_unless_last i st in
          analyze_from (i + 1) rest b st
      end
  end.

(** The loop of [GenerateAllSignalsSummary]: the same steps, written out
    in the loop body instead of calling [GenerateSignal]. *)
Fixpoint analyze_summary_from (i : Z) (symbols : list string) (b : Buckets)
  (st : State) : result Buckets * State :=
  match symbols with
  | [] => (Ok b, st)
  | symbol :: rest =>
      let st := log_analyzing i symbol st in
      let '(fetched, w) := yahoo_FetchOHLCData env symbol (world st) in
      let st := set_world w st in
      match fetched with
      | inl err =>
          let st :=
            logf "Failed to fetch OHLC data for %s: %v"
              [ArgStr symbol; ArgStr err] st in
          analyze_summary_from (i + 1) rest (add_failed symbol b) st
      | inr ohlcData =>
          if len ohlcData =? 0 then
            let st := logf "No OHLC data available for %s" [ArgStr symbol] st in
            analyze_summary_from (i + 1) rest (add_failed symbol b) st
          else
            let '(generated, w) :=
              GenerateTradingSignal env symbol ohlcData (world st) in
            let st := set_world w st in
            match generated with
            | Err err =>
                let st :=
                  logf "Failed to generate AI signal for %s: %v"
                    [ArgStr symbol; ArgStr err] st in
                analyze_summary_from (i + 1) rest (add_failed symbol b) st
            | Panic => (Panic, st)
            | Ok signal =>
                let b := categorize signal b in
                let st := pause_unless_last i st in
                analyze_summary_from (i + 1) rest b st
            end
      end
  end.

(** Everything after the loop: build the summary, send it, log. *)
Definition report (b : Buckets) (st : State) : SignalSummary * State :=
  let summary :=
    {| TotalAnalyzed := len (StockSymbols (config (service st)));
       BuySignals := buySignals b;
       SellSignals := sellSignals b;
       HoldSignals := holdSignals b;
       FailedSignals := failedSignals b;
       SummaryGeneratedAt := time_Now (world st) |} in
  let '(sent, w) :=
    SendSignalSummary env (telegramService (service st)) summary (world st) in
  let st := set_world w st in
  let st :=
    match sent with
    | Some err =>
        logf "Failed to send signal summary to Telegram: %v" [ArgStr err] st
    | None => logf "Signal summary sent to Telegram" [] st
    end in
  let st :=
    logf "Bulk signal analysis completed. Total: %d, Buy: %d, Sell: %d, Hold: %d, Failed: %d"
      [ArgInt (TotalAnalyzed summary); ArgInt (len (buySignals b));
       ArgInt (len (sellSignals b)); ArgInt (len (holdSignals b));
       ArgInt (len (failedSignals b))] st in
  (summary, st).

(** [GenerateAllSignals]: the body of the goroutine it starts, run to its
    end.  The Go function itself returns nothing to its caller; the value
    here is the run's local [summary]. *)
Definition GenerateAllSignals (st : State) : result SignalSummary * State :=
  let st :=
    logf "Starting bulk signal analysis for %d stocks"
      [ArgInt (len (StockSymbols (config (service st))))] st in
  match analyze_from 0 (StockSymbols (config (service st))) no_buckets st with
  | (Ok b, st) => let '(summary, st) := report b st in (Ok summary, st)
  | (Err err, st) => (Err err, st)
  | (Panic, st) => (Panic, st)
  end.

(** [GenerateAllSignalsSummary], likewise. *)
Definition GenerateAllSignalsSummary (st : State)
  : result SignalSummary * State :=
  let st :=
    logf "Starting bulk signal analysis for %d stocks (summary only)"
      [ArgInt (len (StockSymbols (config (service st))))] st in
  let '(sent, w) :=
    SendRequestReceivedMessage env (telegramService (service st))
      (len (StockSymbols (config (service st)))) (world st) in
  let st := set_world w st in
  let st :=
    match sent with
    | Some err =>
        logf "Failed to send request received message to Telegram: %v"
          [ArgStr err] st
    | None => logf "Request received message sent to Telegram" [] st
    end in
  match
    analyze_summary_from 0 (StockSymbols (config (service st))) no_buckets st
  with
  | (Ok b, st) => let '(summary, st) := report b st in (Ok summary, st)
  | (Err err, st) => (Err err, st)
  | (Panic, st) => (Panic, st)
  end.

(** [GetConfiguredStocks] *)
Definition GetConfiguredStocks (st : State) : list string :=
  StockSymbols (config (service st)).

End TradingSignalService.

(** ** package services: the cron scheduler *)

(** [robfig/cron], as far as the scheduler uses it: the list of registered
    entries.  The parser of cron expressions belongs to that library and is
    a parameter here. *)
Record Entry : Type := {
  Spec : string;                       (* the expression it was added with *)
  Schedule : time.Time -> time.Time;   (* next activation after an instant *)
  Next : time.Time
}.

Record Cron : Type := { entries : list Entry; running : bool }.

Definition cron_New : Cron := {| entries := []; running := false |}.

(** [Entries()] *)
Definition cron_Entries (c : Cron) : list Entry := entries c.

Record CronScheduler : Type := {
  cron : Cron;
  scheduleTimes : list string;
  timezone : string
}.

Record ScheduleInfo : Type := {
  info_timezone : string;
  configured_times : list string;
  active_jobs : Z;
  next_runs : list time.Time
}.

Section CronScheduler.

(** The library's parser: a schedule, or the error [AddFunc] returns. *)
Variable ParseStandard : string -> error + (time.Time -> time.Time).

(** [AddFunc(spec, cmd)]: the entry is appended when [spec] parses. *)
Definition cron_AddFunc (spec : string) (c : Cron) : option error * Cron :=
  match ParseStandard spec with
  | inl err => (Some err, c)
  | inr schedule =>
      (None,
       {| entries :=
            entries c ++ [{| Spec := spec; Schedule := schedule; Next := 0 |}];
          running := running c |})
  end.

(** [Start()]: every entry gets its next activation. *)
Definition cron_Start (now : time.Time) (c : Cron) : Cron :=
  if running c then c
  else
    {| entries :=
         map (fun e =>
                {| Spec := Spec e; Schedule := Schedule e;
                   Next := Schedule e now |}) (entries c);
       running := true |}.

(** [NewCronScheduler]; [wib_loaded] tells whether
    [time.LoadLocation("Asia/Jakarta")] succeeded. *)
Definition NewCronScheduler (wib_loaded : bool) (times : list string)
  : CronScheduler :=
  {| cron := cron_New;
     scheduleTimes := times;
     timezone := if wib_loaded then "Asia/Jakarta" else "UTC" |}.

(** [fmt.Sprintf("%s %s * * *", minute, hour)] *)
Definition cronExpr (minute hour : string) : string :=
  String.append minute (String.append " " (String.append hour " * * *")).

(** One turn of the loop of [Start] over the configured times. *)
Definition add_schedule_time (scheduleTime : string) (s : Cron * World)
  : Cron * World :=
  let '(c, w) := s in
  let scheduleTime := strings.TrimSpace scheduleTime in
  if String.eqb scheduleTime "" then (c, w)
  else
    let parts := strings.Split scheduleTime ":"%char in
    if negb (len parts =? 2) then
      (c, log_Printf "Invalid time format: %s, expected HH:MM"
            [ArgStr scheduleTime] w)
    else
      let hour := nth 0 parts "" in
      let minute := nth 1 parts "" in
      let expr := cronExpr minute hour in
      let w :=
        log_Printf "Adding cron job: %s (executes daily at %s WIB)"
          [ArgStr expr; ArgStr scheduleTime] w in
      match cron_AddFunc expr c with
      | (Some err, c) =>
          (c, log_Printf "Failed to add cron job for %s: %v"
                [ArgStr scheduleTime; ArgStr err] w)
      | (None, c) => (c, w)
      end.

(** [CronScheduler.Start]; the error it returns is always [nil]. *)
Definition Start (cs : CronScheduler) (w : World)
  : option error * CronScheduler * World :=
  let w := log_Printf "Starting cron scheduler with WIB timezone" [] w in
  let w :=
    log_Printf "Configured execution times: %v" [ArgList (scheduleTimes cs)] w in
  let '(c, w) :=
    fold_left (fun s t => add_schedule_time t s) (scheduleTimes cs)
      (cron cs, w) in
  let c := cron_Start (time_Now w) c in
  let w :=
    log_Printf "Cron scheduler started successfully with %d jobs"
      [ArgInt (len (cron_Entries c))] w in
  (None,
   {| cron := c; scheduleTimes := scheduleTimes cs; timezone := timezone cs |},
   w).

(** [GetNextRuns] *)
Definition GetNextRuns (cs : CronScheduler) : list time.Time :=
  map Next (cron_Entries (cron cs)).

(** [GetScheduleInfo] *)
Definition GetScheduleInfo (cs : CronScheduler) : ScheduleInfo :=
  {| info_timezone := timezone cs;
     configured_times := scheduleTimes cs;
     active_jobs := len (cron_Entries (cron cs));
     next_runs := GetNextRuns cs |}.

End CronScheduler.

End services.

Import services.

(** ** package handlers: the [/bulk] command *)

Module handlers.

Section SignalHandler.

Variable env : Env.

Definition bulk_started_text : string :=
  "🚀 Starting bulk analysis for all configured stocks. You will receive signals as they are generated.".

(** The [case text == "/bulk"] branch of [TelegramWebhook]: the batch run is
    started in the background and the acknowledgment is sent to the chat.
    The two proceed concurrently; this is the schedule in which the
    acknowledgment goes out first and the run then proceeds to its end.
    The first component is the HTTP status of the webhook's response. *)
Definition TelegramWebhook_bulk (chatID : string) (st : State)
  : Z * result SignalSummary * State :=
  let '(err, w) :=
    SendMessageToChat env (telegramService (service st)) chatID
      bulk_started_text (world st) in
  let status := match err with Some _ => 500 | None => 200 end in
  let '(run, st) := GenerateAllSignals env (set_world w st) in
  (status, run, st).

End SignalHandler.

End handlers.

(** ** Trace observations *)

(** The symbols a quote was requested for, in order. *)
Fixpoint fetched (tr : list Event) : list string :=
  match tr with
  | [] => []
  | EvFetch symbol :: tr => symbol :: fetched tr
  | _ :: tr => fetched tr
  end.

(** The symbols an inference was requested for, in order. *)
Fixpoint inferred (tr : list Event) : list string :=
  match tr with
  | [] => []
  | EvGenerateContent p :: tr => PromptSymbol p :: inferred tr
  | _ :: tr => inferred tr
  end.

(** The delays slept, in order. *)
Fixpoint slept (tr : list Event) : list time.Duration :=
  match tr with
  | [] => []
  | EvSleep d :: tr => d :: slept tr
  | _ :: tr => slept tr
  end.

(** The texts handed to Telegram, in order. *)
Fixpoint delivered (tr : list Event) : list Message :=
  match tr with
  | [] => []
  | EvTelegram _ m :: tr => m :: delivered tr
  | _ :: tr => delivered tr
  end.

(** The lines logged, in order. *)
Fixpoint logged (tr : list Event) : list LogLine :=
  match tr with
  | [] => []
  | EvLog l :: tr => l :: logged tr
  | _ :: tr => logged tr
  end.

Definition is_risk_reward (c : Chunk) : bool :=
  match c with RiskRewardAnalysis _ _ _ => true | _ => false end.

(** A text that renders one trading signal starts with its title. *)
Definition is_signal_message (m : Message) : bool :=
  match m with SignalTitle _ _ _ :: _ => true | _ => false end.

(** The symbols a set of buckets accounts for. *)
Definition accounted (b : Buckets) : list string :=
  map StockSymbol (buySignals b) ++ map StockSymbol (sellSignals b)
  ++ map StockSymbol (holdSignals b) ++ failedSignals b.

(** The state in which the loop of [GenerateAllSignals] starts. *)
Definition started (st : State) : State :=
  logf "Starting bulk signal analysis for %d stocks"
    [ArgInt (len (StockSymbols (config (service st))))] st.

(** The state in which the loop of [GenerateAllSignalsSummary] starts. *)
Definition started_summary (env : Env) (st : State) : State :=
  let st :=
    logf "Starting bulk signal analysis for %d stocks (summary only)"
      [ArgInt (len (StockSymbols (config (service st))))] st in
  let '(sent, w) :=
    SendRequestReceivedMessage env (telegramService (service st))
      (len (StockSymbols (config (service st)))) (world st) in
  let st := set_world w st in
  match sent with
  | Some err =>
      logf "Failed to send request received message to Telegram: %v"
        [ArgStr err] st
  | None => logf "Request received message sent to Telegram" [] st
  end.

(** The cooldown window the cache compares against. *)
Definition cooldownDuration (st : State) : time.Duration :=
  time.mul (SignalCooldownMins (config (service st))) time.Minute.

(** ** The two batch loops, side by side

    Both loops run the same turn for every symbol: analyse it, then file
    the symbol under [failedSignals] or the signal under its direction and
    pause.  They differ in the analysis only, which is factored out here. *)

Section BatchLoop.

Variable env : Env.

(** The analysis of [GenerateAllSignals], up to its [continue]. *)
Definition signal_step (symbol : string) (st : State)
  : result TradingSignal * State :=
  match GenerateSignal env symbol st with
  | (Err err, st) =>
      (Err err,
       logf "Failed to generate signal for %s: %v"
         [ArgStr symbol; ArgStr err] st)
  | other => other
  end.

(** The analysis of [GenerateAllSignalsSummary], up to its [continue]. *)
Definition summary_step (symbol : string) (st : State)
  : result TradingSignal * State :=
  let '(fetched, w) := yahoo_FetchOHLCData env symbol (world st) in
  let st := set_world w st in
  match fetched with
  | inl err =>
      (Err err,
       logf "Failed to fetch OHLC data for %s: %v"
         [ArgStr symbol; ArgStr err] st)
  | inr ohlcData =>
      if len ohlcData =? 0 then
        (* this branch has no error value in the source; the loop only
           needs to know that the analysis failed *)
        (Err (String.append "no OHLC data available for " symbol),
         logf "No OHLC data available for %s" [ArgStr symbol] st)
      else
        let '(generated, w) :=
          GenerateTradingSignal env symbol ohlcData (world st) in
        let st := set_world w st in
        match generated with
        | Err err =>
            (Err err,
             logf "Failed to generate AI signal for %s: %v"
               [ArgStr symbol; ArgStr err] st)
        | Panic => (Panic, st)
        | Ok signal => (Ok signal, st)
        end
  end.

Variable step : string -> State -> result TradingSignal * State.

Fixpoint batch_loop (i : Z) (symbols : list string) (b : Buckets)
  (st : State) : result Buckets * State :=
  match symbols with
  | [] => (Ok b, st)
  | symbol :: rest =>
      match step symbol (log_analyzing i symbol st) with
      | (Err _, st) => batch_loop (i + 1) rest (add_failed symbol b) st
      | (Panic, st) => (Panic, st)
      | (Ok signal, st) =>
          batch_loop (i + 1) rest (categorize env signal b)
            (pause_unless_last i st)
      end
  end.

End BatchLoop.

(** What the loop needs from the analysis of one symbol. *)
Record analysis (step : string -> State -> result TradingSignal * State)
  : Prop := {
  step_service : forall symbol st, service (snd (step symbol st)) = service st;
  step_fetched : forall symbol st,
    fetched (trace (world (snd (step symbol st))))
    = fetched (trace (world st)) ++ [symbol];
  step_slept : forall symbol st,
    slept (trace (world (snd (step symbol st)))) = slept (trace (world st));
  step_delivered : forall symbol st,
    delivered (trace (world (snd (step symbol st))))
    = delivered (trace (world st));
  step_clock : forall symbol st,
    clock (world st) <= clock (world (snd (step symbol st)));
  step_stamped : forall symbol st signal,
    fst (step symbol st) = Ok signal -> StockSymbol signal = symbol
}.

(** Every signal lies in the bucket of its upper-cased direction. *)
Definition well_filed (env : Env) (b : Buckets) : Prop :=
  Forall (fun s => ToUpper env (Signal s) = "BUY") (buySignals b)
  /\ Forall (fun s => ToUpper env (Signal s) = "SELL") (sellSignals b)
  /\ Forall (fun s => ToUpper env (Signal s) <> "BUY"
                     /\ ToUpper env (Signal s) <> "SELL") (holdSignals b).

Definition buckets_of (summary : SignalSummary) : Buckets :=
  {| buySignals := BuySignals summary; sellSignals := SellSignals summary;
     holdSignals := HoldSignals summary;
     failedSignals := FailedSignals summary |}.

(** A run of either variant that reached its end. *)
Definition completed (env : Env) (st : State) (summary : SignalSummary)
  (st' : State) : Prop :=
  GenerateAllSignals env st = (Ok summary, st')
  \/ GenerateAllSignalsSummary env st = (Ok summary, st').

(** The cron expression [Start] builds for a configured time: none for a
    blank entry, none when the entry does not split into two fields. *)
Definition cron_spec_of (scheduleTime : string) : option string :=
  let t := strings.TrimSpace scheduleTime in
  if String.eqb t "" then None
  else match strings.Split t ":"%char with
       | [hour; minute] => Some (cronExpr minute hour)
       | _ => None
       end.

Definition accepted (ParseStandard : string -> error + (time.Time -> time.Time))
  (expr : string) : bool :=
  match ParseStandard expr with inr _ => true | inl _ => false end.

(** What one configured time adds to the registered expressions. *)
Definition registered_by
  (ParseStandard : string -> error + (time.Time -> time.Time))
  (scheduleTime : string) : list string :=
  match cron_spec_of scheduleTime with
  | Some expr => if accepted ParseStandard expr then [expr] else []
  | None => []
  end.

(** The diagnostic [Start] writes for an entry it cannot split. *)
Definition invalid_time_format (scheduleTime : string) : LogLine :=
  {| format := "Invalid time format: %s, expected HH:MM";
     args := [ArgStr (strings.TrimSpace scheduleTime)] |}.

(** The lines [Start] logs for one configured time: none for a blank entry,
    the diagnostic for an entry that does not split into two fields, and
    for the others the announcement of the job, followed by the library's
    error when it refuses the expression. *)
Definition schedule_lines
  (ParseStandard : string -> error + (time.Time -> time.Time))
  (scheduleTime : string) : list LogLine :=
  let t := strings.TrimSpace scheduleTime in
  if String.eqb t "" then []
  else match strings.Split t ":"%char with
       | [hour; minute] =>
           {| format := "Adding cron job: %s (executes daily at %s WIB)";
              args := [ArgStr (cronExpr minute hour); ArgStr t] |}
           :: match ParseStandard (cronExpr minute hour) with
              | inl err =>
                  [{| format := "Failed to add cron job for %s: %v";
                      args := [ArgStr t; ArgStr err] |}]
              | inr _ => []
              end
       | _ => [invalid_time_format scheduleTime]
       end.

(** The lines [Start] logs before and after its loop. *)
Definition start_lines (times : list string) : list LogLine :=
  [{| format := "Starting cron scheduler with WIB timezone"; args := [] |};
   {| format := "Configured execution times: %v"; args := [ArgList times] |}].

Definition started_line (jobs : Z) : LogLine :=
  {| format := "Cron scheduler started successfully with %d jobs";
     args := [ArgInt jobs] |}.

(** The inference never ends in a run-time panic. *)
Definition never_panics (env : Env) : Prop :=
  forall symbol bars w, fst (GenerateTradingSignal env symbol bars w) <> Panic.

(** ** A concrete scenario

    Quotes exist for every symbol but ["B"]; the inference answers by
    symbol; Telegram accepts every text; every call returns at once. *)

Module Scenario.

Definition bar : OHLCData :=
  {| Timestamp := 0; Open := 1000%float; High := 1015%float;
     Low := 995%float; Close := 1010%float; Volume := 100000 |}.

Definition decoded (direction : string) (buy target stop : float)
  : TradingSignal :=
  {| Signal := direction; BuyPrice := buy; TargetPrice := target;
     StopLoss := stop; Confidence := 80; NewsSummary := "";
     Reason := "breakout"; StockSymbol := ""; GeneratedAt := 0;
     Analysis := None |}.

Definition decode (json : string) : error + TradingSignal :=
  if String.eqb json "{signal:BUY}" then
    inr (decoded "BUY" 1000%float 1100%float 950%float)
  else if String.eqb json "{signal:sell}" then
    inr (decoded "sell" 1000%float 900%float 1050%float)
  else if String.eqb json "{signal:WAIT}" then
    inr (decoded "WAIT" 0%float 0%float 0%float)
  else if String.eqb json "{signal:STRONG}" then
    inr (decoded "STRONG" 1000%float 1100%float 950%float)
  else inl "invalid character".

Definition reply_text (symbol : string) : string :=
  if String.eqb symbol "A" then "Here it is: {signal:BUY}"
  else if String.eqb symbol "C" then "{signal:sell}"
  else if String.eqb symbol "D" then "{signal:WAIT}"
  else if String.eqb symbol "E" then "{signal:STRONG}"
  else "I cannot analyse this symbol".

Definition env : Env :=
  {| ToUpper := strings.ToUpperASCII;
     json_Unmarshal := decode;
     FetchOHLCData := fun _ symbol =>
       {| latency := 0%N;
          answer := if String.eqb symbol "B"
                    then inl "Yahoo Finance API returned status: 404"
                    else inr [bar] |};
     GenerateContent := fun _ p =>
       {| latency := 0%N;
          answer :=
            inr {| Candidates :=
                     [{| CandidateContent :=
                           Some {| Parts := [Text (reply_text (PromptSymbol p))] |} |}] |} |};
     telegram_Do := fun _ _ _ => {| latency := 0%N; answer := None |} |}.

Definition cfg (symbols : list string) (cooldown : Z) : Config :=
  {| GeminiAPIKey := "key"; TelegramBotToken := "token";
     TelegramChatID := "42"; Port := "8080"; Environment := "development";
     DefaultStockSymbol := "INDY.JK"; SignalCooldownMins := cooldown;
     MinConfidenceLevel := 70; StockSymbols := symbols; WebhookURL := "" |}.

Definition state (symbols : list string) (cooldown : Z) (now : time.Time)
  : State :=
  {| service :=
       {| telegramService := {| botToken := "token"; chatID := "42" |};
          config := cfg symbols cooldown;
          signalCache := ∅ |};
     world := {| clock := now; trace := [] |} |}.

(** A BUY whose stop lies above its entry. *)
Definition incoherent_buy : TradingSignal :=
  {| Signal := "BUY"; BuyPrice := 100%float; TargetPrice := 120%float;
     StopLoss := 110%float; Confidence := 80; NewsSummary := "";
     Reason := "breakout"; StockSymbol := "A"; GeneratedAt := 0;
     Analysis := None |}.

Definition digit (c : ascii) : option Z :=
  let n := nat_of_ascii c in
  if (48 <=? n)%nat && (n <=? 57)%nat then Some (Z.of_nat n - 48) else None.

Fixpoint number_from (s : string) (acc : Z) : option Z :=
  match s with
  | EmptyString => Some acc
  | String c r =>
      match digit c with
      | Some d => number_from r (10 * acc + d)
      | None => None
      end
  end.

Definition field_ok (lo hi : Z) (f : string) : bool :=
  if String.eqb f "*" then true
  else if String.eqb f "" then false
  else match number_from f 0 with
       | Some n => (lo <=? n) && (n <=? hi)
       | None => false
       end.

(** A stand-in for the library's parser: five fields separated by one
    space, each a star or a number within the bounds of its position. *)
Definition parse (spec : string) : error + (time.Time -> time.Time) :=
  match strings.Split spec " "%char with
  | [minute; hour; dom; month; dow] =>
      if field_ok 0 59 minute && field_ok 0 23 hour && field_ok 1 31 dom
         && field_ok 1 12 month && field_ok 0 6 dow
      then inr (fun t => t + 1)
      else inl "failed to parse"
  | _ => inl "expected exactly 5 fields"
  end.


(** The end-to-end scenario of the specification: quotes for ["A"], none
    for ["B"], and a third symbol after the failing one. *)
Definition st_ABC : State := state ["A"; "B"; "C"] 15 1000.

Definition bulk_ABC : result SignalSummary * State :=
  GenerateAllSignals env st_ABC.

Definition summary_run_ABC : result SignalSummary * State :=
  GenerateAllSignalsSummary env st_ABC.

Definition summary_of (r : result SignalSummary * State) : SignalSummary :=
  match fst r with
  | Ok summary => summary
  | _ =>
      {| TotalAnalyzed := 0; BuySignals := []; SellSignals := [];
         HoldSignals := []; FailedSignals := []; SummaryGeneratedAt := 0 |}
  end.

Definition buckets_in (r : result Buckets * State) : Buckets :=
  match fst r with Ok b => b | _ => no_buckets end.

(** The loops of the two variants when the turn of ["B"] comes. *)
Definition before_B : result Buckets * State :=
  analyze_from env 0 (take 1 ["A"; "B"; "C"]) no_buckets (started st_ABC).

Definition before_B_summary : result Buckets * State :=
  analyze_summary_from env 0 (take 1 ["A"; "B"; "C"]) no_buckets
    (started_summary env st_ABC).

Definition fetch_error : error := "Yahoo Finance API returned status: 404".

End Scenario.

(** * The rest of the program *)

(** ** package services, continued: the texts of the Telegram commands *)

(** [fmt.Sprintf("%d", n)] *)
Definition Sprintf_d (n : Z) : string := NilZero.string_of_int (Z.to_int n).

Definition welcome_text : string :=
"🤖 <b>Welcome to Trading Signal Bot!</b> 🤖

📈 <b>Available Commands:</b>

🔍 <b>Single Stock Analysis:</b>
   Send a stock symbol (e.g., BBCA, BBRI, ANTM)
   Example: <code>ANTM</code>

📊 <b>Bulk Analysis:</b>
   /bulk - Analyze all configured stocks
   /summary - Get summary of all stocks
   /stocks - Show all configured stocks

❓ <b>Help:</b>
   /help - Show this help message
   /start - Start the bot


━━━━━━━━━━━━━━━━━━━━━━━━━━━━━━━━━━━━━━━━".

Definition help_text : string :=
"📚 <b>Help & Instructions</b> 📚

🔍 <b>How to use:</b>
   1. Send a stock symbol to get trading signal
   2. Wait for analysis to complete
   3. Receive detailed signal with buy/sell recommendations

📊 <b>Available Commands:</b>
   /stocks - Show all configured stocks
   /bulk - Analyze all configured stocks (individual signals)
   /summary - Analyze all configured stocks (summary only)
   /help - Show this help message
   /start - Start the bot

📊 <b>Signal Types:</b>
   🟢 BUY - Good opportunity to buy
   🔴 SELL - Consider selling
   🟡 WAIT - Hold current position

💰 <b>Signal Information:</b>
   • Buy Price: Recommended entry price
   • Target Price: Profit target
   • Stop Loss: Risk management level
   • Confidence: AI confidence level (0-100%)
   • Risk-Reward Ratio: Risk vs potential reward

⚠️ <b>Disclaimer:</b>
   This is for educational purposes only.
   Always do your own research before trading.

━━━━━━━━━━━━━━━━━━━━━━━━━━━━━━━━━━━━━━━━".

(** The slice expression [l[lo:hi]] on a list, for [0 <= lo <= hi <= len(l)]. *)
Definition list_slice {A : Type} (l : list A) (lo hi : Z) : list A :=
  take (Z.to_nat (hi - lo)) (drop (Z.to_nat lo) l).

(** The loop [for i := 0; i < len(stockSymbols); i += 5] of
    [SendStocksListMessage], from index [i]: the rows it cuts.  [fuel]
    bounds the number of turns. *)
Fixpoint stock_rows_from (fuel : nat) (i : Z) (stockSymbols : list string)
  : list (list string) :=
  match fuel with
  | O => []
  | S fuel =>
      if i <? len stockSymbols then
        let end_ := i + 5 in
        let end_ := if len stockSymbols <? end_ then len stockSymbols else end_ in
        list_slice stockSymbols i end_
        :: stock_rows_from fuel (i + 5) stockSymbols
      else []
  end.

(** One turn for every symbol is more than the loop ever takes. *)
Definition stock_rows (stockSymbols : list string) : list (list string) :=
  stock_rows_from (length stockSymbols) 0 stockSymbols.

(** What the inner loop appends for one row. *)
Fixpoint row_symbols (j : Z) (row : list string) : Message :=
  match row with
  | [] => []
  | symbol :: row =>
      (if 0 <? j then [Plain " • "] else [])
      ++ Plain (String.append "<code>" (String.append symbol "</code>"))
         :: row_symbols (j + 1) row
  end.

Definition row_text (row : list string) : Message :=
  Plain "
   " :: row_symbols 0 row.

Section Commands.

Variable env : Env.

(** [time.Now().Format("2006-01-02 15:04:05")] *)
Variable time_Format : time.Time -> string.

Definition SendTradingSignalToChat (t : TelegramService) (chat_id : string)
  (signal : TradingSignal) (w : World) : option error * World :=
  let '(message, logged) := formatSignalMessage env signal in
  sendMessageToChat env t chat_id message (log_all logged w).

Definition SendWelcomeMessage (t : TelegramService) (chat_id : string)
  (w : World) : option error * World :=
  sendMessageToChat env t chat_id [Plain welcome_text] w.

Definition SendHelpMessage (t : TelegramService) (chat_id : string)
  (w : World) : option error * World :=
  sendMessageToChat env t chat_id [Plain help_text] w.

Definition stocks_header (n : Z) : string :=
  String.append "📋 <b>CONFIGURED STOCKS LIST</b> 📋

📈 <b>Total Stocks:</b> " (String.append (Sprintf_d n) "

📊 <b>Stock Symbols:</b>").

Definition stocks_footer (now : time.Time) : string :=
  String.append "

💡 <b>Usage:</b>
   • Send any symbol above to get trading signal
   • Use /bulk to analyze all stocks
   • Use /summary for bulk analysis summary

⏰ <b>Last Updated:</b> " (String.append (time_Format now) "

━━━━━━━━━━━━━━━━━━━━━━━━━━━━━━━━━━━━━━━━").

(** [SendStocksListMessage] *)
Definition stocks_message (stockSymbols : list string) (now : time.Time)
  : Message :=
  Plain (stocks_header (len stockSymbols))
  :: concat (map row_text (stock_rows stockSymbols))
  ++ [Plain (stocks_footer now)].

Definition SendStocksListMessage (t : TelegramService) (chat_id : string)
  (stockSymbols : list string) (w : World) : option error * World :=
  sendMessageToChat env t chat_id (stocks_message stockSymbols (time_Now w)) w.

(** ** package handlers, continued *)

Definition analyzing_text (symbol : string) : string :=
  String.append "🔍 Analyzing " (String.append symbol "... Please wait.").

Definition failed_to_analyze_text (symbol : string) (err : error) : string :=
  String.append "❌ Failed to analyze "
    (String.append symbol (String.append ": " err)).

Definition failed_to_send_text (symbol : string) (err : error) : string :=
  String.append "❌ Failed to send signal for "
    (String.append symbol (String.append ": " err)).

(** [handleStockSymbolRequest]; the errors of the notes it sends are
    dropped, as in the source. *)
Definition handleStockSymbolRequest (chatID symbol : string) (st : State)
  : result unit * State :=
  let t := telegramService (service st) in
  let '(_, w) :=
    SendMessageToChat env t chatID (analyzing_text symbol) (world st) in
  let st := set_world w st in
  match GenerateSignal env symbol st with
  | (Err err, st) =>
      let '(_, w) :=
        SendMessageToChat env t chatID (failed_to_analyze_text symbol err)
          (world st) in
      (Ok tt, set_world w st)
  | (Panic, st) => (Panic, st)
  | (Ok signal, st) =>
      let '(sent, w) := SendTradingSignalToChat t chatID signal (world st) in
      let st := set_world w st in
      match sent with
      | Some err =>
          let '(_, w) :=
            SendMessageToChat env t chatID (failed_to_send_text symbol err)
              (world st) in
          (Ok tt, set_world w st)
      | None => (Ok tt, st)
      end
  end.

(** [models.TelegramWebhook], as far as the handler reads it. *)
Record TelegramChat : Type := { ChatID : Z }.

Record TelegramMessage : Type := {
  MessageChat : option TelegramChat;          (* [*TelegramChat] *)
  MessageText : string
}.

Record TelegramUpdate : Type := { UpdateMessage : option TelegramMessage }.

(** What the handlers put in the [Data] field of a response: a signal, or
    a map from strings to strings. *)
Inductive ResponseData : Type :=
| SignalData (signal : TradingSignal)
| FieldsData (fields : list (string * string)).

(** [models.APIResponse]; the projections carry an [R] in front. *)
Record APIResponse : Type := {
  RSuccess : bool;
  RMessage : string;
  RData : option ResponseData;
  RError : string
}.

Definition failure (msg : string) : APIResponse :=
  {| RSuccess := false; RMessage := ""; RData := None; RError := msg |}.

Definition success (msg : string) (data : option ResponseData) : APIResponse :=
  {| RSuccess := true; RMessage := msg; RData := data; RError := "" |}.

(** The work a handler starts with [go] and does not wait for. *)
Inductive Task : Type :=
| RunGenerateAllSignals
| RunGenerateAllSignalsSummary
| RunStockSymbolRequest (chatID symbol : string).

Definition bulk_summary_text : string :=
  "📊 Starting bulk analysis with summary. You will receive a summary once complete.".

Definition unknown_command_text : string :=
  "❓ Unknown command. Send /help for available commands.".

(** What one [case] of the [switch] does before the final response: a note
    to send, a task to start, both or neither. *)
Definition reply_or_fail (sent : option error * World) (fail : string)
  (task : option Task) (st : State)
  : Z * APIResponse * option Task * State :=
  let '(err, w) := sent in
  match err with
  | Some _ => (500, failure fail, task, set_world w st)
  | None =>
      (200, success "Webhook processed successfully" None, task, set_world w st)
  end.

(** [TelegramWebhook]: the HTTP status and body of the response, the task
    started in the background if any, and the state after the synchronous
    part.  [body] is what [c.ShouldBindJSON] made of the request. *)
Definition TelegramWebhook (body : error + TelegramUpdate) (st : State)
  : result (Z * APIResponse * option Task) * State :=
  match body with
  | inl _ => (Ok (400, failure "Invalid webhook format", None), st)
  | inr webhook =>
      match UpdateMessage webhook with
      | None => (Ok (200, success "No message in webhook" None, None), st)
      | Some message =>
          match MessageChat message with
          | None => (Panic, st)
          | Some chat =>
              let chatID := Sprintf_d (ChatID chat) in
              let text := strings.TrimSpace (MessageText message) in
              let t := telegramService (service st) in
              let w := world st in
              let '(status, response, task, st) :=
                if String.eqb text "/start" then
                  reply_or_fail (SendWelcomeMessage t chatID w)
                    "Failed to send welcome message" None st
                else if String.eqb text "/help" then
                  reply_or_fail (SendHelpMessage t chatID w)
                    "Failed to send help message" None st
                else if String.eqb text "/bulk" then
                  reply_or_fail
                    (SendMessageToChat env t chatID
                       handlers.bulk_started_text w)
                    "Failed to send bulk analysis message"
                    (Some RunGenerateAllSignals) st
                else if String.eqb text "/summary" then
                  reply_or_fail
                    (SendMessageToChat env t chatID bulk_summary_text w)
                    "Failed to send summary message"
                    (Some RunGenerateAllSignalsSummary) st
                else if String.eqb text "/stocks" then
                  reply_or_fail
                    (SendStocksListMessage t chatID (GetConfiguredStocks st) w)
                    "Failed to send stocks list message" None st
                else if negb (String.eqb text "")
                        && negb (String.prefix "/" text) then
                  (200, success "Webhook processed successfully" None,
                   Some (RunStockSymbolRequest chatID text), st)
                else
                  reply_or_fail
                    (SendMessageToChat env t chatID unknown_command_text w)
                    "Failed to send unknown command message" None st in
              (Ok (status, response, task), st)
          end
      end
  end.

(** [models.SignalRequest], the body of the POST request. *)
Record SignalRequest : Type := { RequestSymbol : string }.

(** What both signal handlers do once they hold the symbol. *)
Definition respond_with_signal (symbol : string) (st : State)
  : result (Z * APIResponse) * State :=
  let symbol := if String.eqb symbol "" then "INDY.JK" else symbol in
  match GenerateSignal env symbol st with
  | (Err err, st) => (Ok (500, failure err), st)
  | (Panic, st) => (Panic, st)
  | (Ok signal, st) =>
      (Ok (200,
           success "Trading signal generated successfully"
             (Some (SignalData signal))),
       st)
  end.

(** [GetSignal], the GET handler; [symbol] is [c.Query("symbol")]. *)
Definition GetSignal (symbol : string) (st : State)
  : result (Z * APIResponse) * State :=
  respond_with_signal symbol st.

Definition bulk_started_response : APIResponse :=
  success
    "Bulk signal analysis started. Signals will be sent to Telegram as they are generated."
    (Some (FieldsData
             [("status", "started");
              ("message",
               "Analysis is running in background. Check Telegram for results.")])).

Definition summary_started_response : APIResponse :=
  success
    "Bulk signal analysis started. You will receive a summary on Telegram once complete."
    (Some (FieldsData
             [("status", "started");
              ("message",
               "Analysis is running in background. You will receive a 'request received' message and then a summary on Telegram.")])).

(** [GetSignalAll]: the call of [GenerateAllSignals] starts the goroutine
    of the run and returns, so the handler answers at once and leaves the
    run to the task. *)
Definition GetSignalAll (st : State)
  : result (Z * APIResponse * option Task) * State :=
  (Ok (200, bulk_started_response, Some RunGenerateAllSignals), st).

(** [GetSignalAllSummary], likewise. *)
Definition GetSignalAllSummary (st : State)
  : result (Z * APIResponse * option Task) * State :=
  (Ok (200, summary_started_response, Some RunGenerateAllSignalsSummary), st).

Definition cron_executing : string :=
  "🕐 [CRON] Executing scheduled trading signal generation at %s WIB".

Definition cron_completed : string :=
  "✅ [CRON] Scheduled trading signal generation completed at %s WIB".

(** [CronScheduler.executeTradingSignal], the job of every trigger: two
    log lines around a call that only starts the goroutine of the run. *)
Definition executeTradingSignal (st : State) : option Task * State :=
  let st :=
    logf cron_executing [ArgStr (time_Format (time_Now (world st)))] st in
  let task := Some RunGenerateAllSignalsSummary in
  let st :=
    logf cron_completed [ArgStr (time_Format (time_Now (world st)))] st in
  (task, st).

(** A started task, run on its own from [st] to its end. *)
Definition run_task (task : Task) (st : State) : result unit * State :=
  match task with
  | RunGenerateAllSignals =>
      match GenerateAllSignals env st with
      | (Ok _, st) => (Ok tt, st)
      | (Err err, st) => (Err err, st)
      | (Panic, st) => (Panic, st)
      end
  | RunGenerateAllSignalsSummary =>
      match GenerateAllSignalsSummary env st with
      | (Ok _, st) => (Ok tt, st)
      | (Err err, st) => (Err err, st)
      | (Panic, st) => (Panic, st)
      end
  | RunStockSymbolRequest chatID symbol =>
      handleStockSymbolRequest chatID symbol st
  end.

End Commands.

Module SignalHandler.

(** [SignalHandler.GenerateSignal], the POST handler; [body] is what
    [c.ShouldBindJSON] made of the request. *)
Definition GenerateSignal (env : Env) (body : error + SignalRequest)
  (st : State) : result (Z * APIResponse) * State :=
  match body with
  | inl _ => (Ok (400, failure "Invalid request format"), st)
  | inr req => respond_with_signal env (RequestSymbol req) st
  end.

End SignalHandler.

(** ** package services, continued: the Yahoo Finance client *)

(** [models.YahooFinanceResponse], as far as [FetchOHLCData] reads it: the
    results of the chart, each with its timestamps and its quote columns. *)
Record Quote : Type := {
  QuoteOpen : list float;
  QuoteHigh : list float;
  QuoteLow : list float;
  QuoteClose : list float;
  QuoteVolume : list Z
}.

Record ChartResult : Type := {
  ResultTimestamp : list Z;
  ResultQuote : list Quote             (* [Indicators.Quote] *)
}.

Record YahooFinanceResponse : Type := { ChartResults : list ChartResult }.

Record HttpResponse : Type := {
  StatusCode : Z;
  ContentEncoding : string;            (* [Header.Get("Content-Encoding")] *)
  ResponseBody : error + string        (* what [io.ReadAll] makes of the body *)
}.

(** [gzip.NewReader] followed by [io.ReadAll]. *)
Inductive Gunzip : Type :=
| BadHeader (err : error)
| BadStream (err : error)
| Inflated (body : string).

(** The network and the decoders behind the client. *)
Record Web : Type := {
  http_NewRequest : string -> option error;
  client_Do : World -> string -> Reply (error + HttpResponse);
  gzip_read : string -> Gunzip;
  yahoo_Unmarshal : string -> error + YahooFinanceResponse
}.

(** [time.Unix(timestamp, 0)] *)
Definition time_Unix (timestamp : Z) : time.Time := timestamp * time.Second.

Definition is_zero (x : float) : bool := (x =? 0)%float.

(** The body of the loop over the timestamps: the candle at index [i], when
    every column has an entry there and none of the four prices is zero. *)
Definition candle_at (quote : Quote) (i : nat) (timestamp : Z)
  : option OHLCData :=
  match QuoteOpen quote !! i, QuoteHigh quote !! i, QuoteLow quote !! i,
        QuoteClose quote !! i, QuoteVolume quote !! i with
  | Some o, Some h, Some l, Some c, Some v =>
      if is_zero o || is_zero h || is_zero l || is_zero c then None
      else Some {| Timestamp := time_Unix timestamp; Open := o; High := h;
                   Low := l; Close := c; Volume := v |}
  | _, _, _, _, _ => None
  end.

(** [for i, timestamp := range result.Timestamp], from index [i]. *)
Fixpoint collect_candles (quote : Quote) (i : nat) (timestamps : list Z)
  (ohlcData : list OHLCData) : list OHLCData :=
  match timestamps with
  | [] => ohlcData
  | timestamp :: rest =>
      match candle_at quote i timestamp with
      | Some data => collect_candles quote (S i) rest (ohlcData ++ [data])
      | None => collect_candles quote (S i) rest ohlcData
      end
  end.

Definition chart_url (symbol : string) : string :=
  String.append "https://query1.finance.yahoo.com/v8/finance/chart/"
    (String.append (String.append symbol ".JK")
       (String.append "?" "interval=5m&range=2d")).

(** What [FetchOHLCData] does with a decoded response. *)
Definition candles_of (symbol : string) (yahooResp : YahooFinanceResponse)
  : error + list OHLCData :=
  match ChartResults yahooResp with
  | [] => inl (String.append "no data returned for symbol: " symbol)
  | result :: _ =>
      match ResultQuote result with
      | [] => inl (String.append "no quote data available for symbol: " symbol)
      | quote :: _ =>
          let ohlcData :=
            collect_candles quote 0 (ResultTimestamp result) [] in
          if len ohlcData =? 0 then
            inl (String.append "no valid OHLC data found for symbol: " symbol)
          else inr ohlcData
      end
  end.

(** The body after the gzip layer, when the response declares one. *)
Definition plain_body (web : Web) (resp : HttpResponse) (body : string)
  : error + string :=
  if String.eqb (ContentEncoding resp) "gzip" then
    match gzip_read web body with
    | BadHeader err => inl (wrap_error "failed to create gzip reader" err)
    | BadStream err =>
        inl (wrap_error "failed to decompress gzip response" err)
    | Inflated body => inr body
    end
  else inr body.

(** What [FetchOHLCData] does with an HTTP response. *)
Definition read_response (web : Web) (symbol : string) (resp : HttpResponse)
  : error + list OHLCData :=
  if negb (StatusCode resp =? 200) then
    inl (String.append "Yahoo Finance API returned status: "
           (Sprintf_d (StatusCode resp)))
  else
    match ResponseBody resp with
    | inl err => inl (wrap_error "failed to read response body" err)
    | inr body =>
        match plain_body web resp body with
        | inl err => inl err
        | inr body =>
            match yahoo_Unmarshal web body with
            | inl err =>
                inl (wrap_error "failed to unmarshal Yahoo Finance response"
                       err)
            | inr yahooResp => candles_of symbol yahooResp
            end
        end
    end.

(** [YahooFinanceService.FetchOHLCData], in full. *)
Definition YahooFinanceService_FetchOHLCData (web : Web) (w : World)
  (symbol : string) : Reply (error + list OHLCData) :=
  match http_NewRequest web (chart_url symbol) with
  | Some err =>
      {| latency := 0%N;
         answer := inl (wrap_error "failed to create request" err) |}
  | None =>
      let r := client_Do web w (chart_url symbol) in
      {| latency := latency r;
         answer :=
           match answer r with
           | inl err =>
               inl (wrap_error "failed to fetch data from Yahoo Finance" err)
           | inr resp => read_response web symbol resp
           end |}
  end.

(** The collaborators of [env], with the quote source given by the client
    over [web]. *)
Definition with_yahoo (web : Web) (env : Env) : Env :=
  {| ToUpper := ToUpper env;
     json_Unmarshal := json_Unmarshal env;
     FetchOHLCData := YahooFinanceService_FetchOHLCData web;
     GenerateContent := GenerateContent env;
     telegram_Do := telegram_Do env |}.

(** A candle of the answer is row [i] of the quote. *)
Definition row_of (result : ChartResult) (quote : Quote) (data : OHLCData)
  (i : nat) : Prop :=
  (exists timestamp, ResultTimestamp result !! i = Some timestamp
                     /\ Timestamp data = time_Unix timestamp)
  /\ QuoteOpen quote !! i = Some (Open data)
  /\ QuoteHigh quote !! i = Some (High data)
  /\ QuoteLow quote !! i = Some (Low data)
  /\ QuoteClose quote !! i = Some (Close data)
  /\ QuoteVolume quote !! i = Some (Volume data).

(** Whether row [i] passes the two tests of the loop: every column has an
    entry there, and none of the four prices is zero. *)
Definition valid_row (result : ChartResult) (quote : Quote) (i : nat) : bool :=
  match ResultTimestamp result !! i, QuoteOpen quote !! i,
        QuoteHigh quote !! i, QuoteLow quote !! i, QuoteClose quote !! i,
        QuoteVolume quote !! i with
  | Some _, Some o, Some h, Some l, Some c, Some _ =>
      negb (is_zero o || is_zero h || is_zero l || is_zero c)
  | _, _, _, _, _, _ => false
  end.

Definition priced (data : OHLCData) : Prop :=
  is_zero (Open data) = false /\ is_zero (High data) = false
  /\ is_zero (Low data) = false /\ is_zero (Close data) = false.

(** ** package config *)

Module config.

(** The environment of the process: the variables that are set. *)
Definition Environ : Type := gmap string string.

(** [os.Getenv]: the empty string for a variable that is not set. *)
Definition os_Getenv (environ : Environ) (key : string) : string :=
  default "" (environ !! key).

(** [getEnv] *)
Definition getEnv (environ : Environ) (key defaultValue : string) (w : World)
  : string * World :=
  let value := os_Getenv environ key in
  if negb (String.eqb value "") then (value, w)
  else
    (defaultValue,
     log_Printf
       "Environment variable %s not found, using default value: %s"
       [ArgStr key; ArgStr defaultValue] w).

(** How [LoadConfig] ends: with the configuration, or in [log.Fatal], which
    ends the process. *)
Inductive Loaded : Type :=
| Fatal (message : string)
| Configured (config : Config).

(** The loop over the pieces of [STOCK_SYMBOLS]. *)
Definition add_symbol (stockSymbols : list string) (symbol : string)
  : list string :=
  let symbol := strings.TrimSpace symbol in
  if negb (String.eqb symbol "") then stockSymbols ++ [symbol]
  else stockSymbols.

Definition parse_symbols (stockSymbolsStr : string) : list string :=
  if negb (String.eqb stockSymbolsStr "") then
    fold_left add_symbol (strings.Split stockSymbolsStr ","%char) []
  else [].

(** [log.Println(config)] *)
Definition log_config (config : Config) (w : World) : World :=
  log_Printf "%v"
    [ArgStr (GeminiAPIKey config); ArgStr (TelegramBotToken config);
     ArgStr (TelegramChatID config); ArgStr (Port config);
     ArgStr (Environment config); ArgStr (DefaultStockSymbol config);
     ArgInt (SignalCooldownMins config); ArgInt (MinConfidenceLevel config);
     ArgList (StockSymbols config); ArgStr (WebhookURL config)] w.

(** [log.Fatal]: the message is written to the log, then the process
    ends. *)
Definition log_Fatal (message : string) (w : World) : Loaded * World :=
  (Fatal message, log_Printf message [] w).

(** The three checks at the end of [LoadConfig]. *)
Definition validate (config : Config) (w : World) : Loaded * World :=
  if String.eqb (GeminiAPIKey config) "" then
    log_Fatal "GEMINI_API_KEY is required" w
  else if String.eqb (TelegramBotToken config) "" then
    log_Fatal "TELEGRAM_BOT_TOKEN is required" w
  else if String.eqb (TelegramChatID config) "" then
    log_Fatal "TELEGRAM_CHAT_ID is required" w
  else (Configured config, w).

Section Config.

(** [godotenv.Load]: its error, and the environment it leaves behind. *)
Variable godotenv_Load : Environ -> option error * Environ.

(** [strconv.Atoi] *)
Variable Atoi : string -> error + Z.

(** [getEnvAsInt] *)
Definition getEnvAsInt (environ : Environ) (key : string) (defaultValue : Z)
  (w : World) : Z * World :=
  let value := os_Getenv environ key in
  if negb (String.eqb value "") then
    match Atoi value with
    | inr intValue => (intValue, w)
    | inl _ =>
        (defaultValue,
         log_Printf
           "Environment variable %s has invalid integer value: %s, using default: %d"
           [ArgStr key; ArgStr value; ArgInt defaultValue] w)
    end
  else (defaultValue, w).

(** [LoadConfig] *)
Definition LoadConfig (environ : Environ) (w : World) : Loaded * World :=
  let '(err, environ) := godotenv_Load environ in
  let w :=
    match err with
    | Some _ =>
        log_Printf "No .env file found, using environment variables" [] w
    | None => w
    end in
  let '(stockSymbolsStr, w) := getEnv environ "STOCK_SYMBOLS" "" w in
  let stockSymbols := parse_symbols stockSymbolsStr in
  let '(stockSymbols, w) :=
    if len stockSymbols =? 0 then
      let '(defaultSymbol, w) :=
        getEnv environ "DEFAULT_STOCK_SYMBOL" "INDY.JK" w in
      ([defaultSymbol], w)
    else (stockSymbols, w) in
  let '(geminiAPIKey, w) := getEnv environ "GEMINI_API_KEY" "" w in
  let '(telegramBotToken, w) := getEnv environ "TELEGRAM_BOT_TOKEN" "" w in
  let '(telegramChatID, w) := getEnv environ "TELEGRAM_CHAT_ID" "" w in
  let '(port, w) := getEnv environ "PORT" "8080" w in
  let '(environment, w) := getEnv environ "ENVIRONMENT" "development" w in
  let '(defaultStockSymbol, w) :=
    getEnv environ "DEFAULT_STOCK_SYMBOL" "INDY.JK" w in
  let '(signalCooldownMins, w) :=
    getEnvAsInt environ "SIGNAL_COOLDOWN_MINUTES" 15 w in
  let '(minConfidenceLevel, w) :=
    getEnvAsInt environ "MIN_CONFIDENCE_LEVEL" 70 w in
  let '(webhookURL, w) := getEnv environ "WEBHOOK_URL" "" w in
  let config :=
    {| GeminiAPIKey := geminiAPIKey;
       TelegramBotToken := telegramBotToken;
       TelegramChatID := telegramChatID;
       Port := port;
       Environment := environment;
       DefaultStockSymbol := defaultStockSymbol;
       SignalCooldownMins := signalCooldownMins;
       MinConfidenceLevel := minConfidenceLevel;
       StockSymbols := stockSymbols;
       WebhookURL := webhookURL |} in
  validate config (log_config config w).

End Config.

End config.

(** The characters of a string. *)
Fixpoint chars (s : string) : list ascii :=
  match s with
  | EmptyString => []
  | String c r => c :: chars r
  end.

(** Whether a string begins with the encoding of a white-space rune. *)
Definition starts_with_space (s : string) : bool :=
  match s with
  | EmptyString => false
  | String c r =>
      strings.is_space c
      || match r with
         | EmptyString => false
         | String d r2 =>
             strings.is_space2 c d
             || match r2 with
                | EmptyString => false
                | String e _ => strings.is_space3 c d e
                end
         end
  end.

(** Whether a string ends with one, told on the reversed string. *)
Definition starts_with_space_reversed (s : string) : bool :=
  match s with
  | EmptyString => false
  | String c r =>
      strings.is_space c
      || match r with
         | EmptyString => false
         | String d r2 =>
             strings.is_space2 d c
             || match r2 with
                | EmptyString => false
                | String e _ => strings.is_space3 e d c
                end
         end
  end.

Definition ends_with_space (s : string) : bool :=
  starts_with_space_reversed (strings.reverse s).

(** ** Further observations *)

(** Whether the byte [c] occurs in [s]. *)
Fixpoint occurs (c : ascii) (s : string) : bool :=
  match s with
  | EmptyString => false
  | String d r => Ascii.eqb d c || occurs c r
  end.

(** Whether the last closing brace of [text] lies more than one byte before
    its first opening brace. *)
Definition braces_reversed (text : string) : bool :=
  occurs "{"%char text && occurs "}"%char text
  && (strings.LastIndex text "}"%char + 1 <? strings.Index text "{"%char).

(** The texts handed to Telegram with the chat each one went to. *)
Fixpoint telegrams (tr : list Event) : list (string * Message) :=
  match tr with
  | [] => []
  | EvTelegram chat_id m :: tr => (chat_id, m) :: telegrams tr
  | _ :: tr => telegrams tr
  end.

(** All signals of a set of buckets. *)
Definition signals_of (b : Buckets) : list TradingSignal :=
  buySignals b ++ sellSignals b ++ holdSignals b.

(** The symbols a summary text names, line by line. *)
Fixpoint listed (m : Message) : list string :=
  match m with
  | [] => []
  | BuyLine symbol _ _ _ _ _ :: m => symbol :: listed m
  | SellLine symbol _ _ _ :: m => symbol :: listed m
  | HoldLine symbol _ :: m => symbol :: listed m
  | FailedLine symbol :: m => symbol :: listed m
  | _ :: m => listed m
  end.

(** ** More of the scenario

    An inference whose answer for ["G"] has its braces the wrong way round;
    a quote source answering over HTTP; a process environment. *)

Module Examples.

Definition garbled_env : Env :=
  {| ToUpper := ToUpper Scenario.env;
     json_Unmarshal := json_Unmarshal Scenario.env;
     FetchOHLCData := FetchOHLCData Scenario.env;
     GenerateContent := fun w p =>
       if String.eqb (PromptSymbol p) "G" then
         {| latency := 0%N;
            answer :=
              inr {| Candidates :=
                       [{| CandidateContent :=
                             Some {| Parts := [Text "} {"] |} |}] |} |}
       else GenerateContent Scenario.env w p;
     telegram_Do := telegram_Do Scenario.env |}.

(** A no-break space, U+00A0, in UTF-8. *)
Definition nbsp : string :=
  String (ascii_of_nat 194) (String (ascii_of_nat 160) "").

(** Four symbols answered with ["BUY"], ["sell"], ["WAIT"] and
    ["STRONG"], and the summary loop when the turn of ["C"] comes. *)
Definition st_ACDE : State := Scenario.state ["A"; "C"; "D"; "E"] 15 1000.

Definition before_C_summary : result Buckets * State :=
  analyze_summary_from Scenario.env 0 (take 1 ["A"; "C"; "D"; "E"]) no_buckets
    (started_summary Scenario.env st_ACDE).

Definition signal_of (r : result TradingSignal * State) : TradingSignal :=
  match fst r with
  | Ok signal => signal
  | _ => Scenario.decoded "" 0%float 0%float 0%float
  end.

Definition st_AGC : State := Scenario.state ["A"; "G"; "C"] 15 1000.

(** The per-symbol loop over ["A"; "G"; "C"] when the turn of ["G"] comes. *)
Definition before_G : result Buckets * State :=
  analyze_from garbled_env 0 (take 1 ["A"; "G"; "C"]) no_buckets
    (started st_AGC).

Definition before_G_summary : result Buckets * State :=
  analyze_summary_from garbled_env 0 (take 1 ["A"; "G"; "C"]) no_buckets
    (started_summary garbled_env st_AGC).

Definition state_of {A : Type} (r : result A * State) : State := snd r.

(** Four rows of quotes: the second has no opening price, the fourth no
    volume. *)
Definition chart : YahooFinanceResponse :=
  {| ChartResults :=
       [{| ResultTimestamp := [1700000000; 1700000300; 1700000600; 1700000900];
           ResultQuote :=
             [{| QuoteOpen := [1000; 0; 1010; 1005]%float;
                 QuoteHigh := [1015; 1012; 1020; 1010]%float;
                 QuoteLow := [995; 1000; 1005; 1000]%float;
                 QuoteClose := [1010; 1005; 1015; 1005]%float;
                 QuoteVolume := [100000; 120000; 90000] |}] |}] |}.

(** A server that knows every symbol but ["B"]. *)
Definition web : Web :=
  {| http_NewRequest := fun _ => None;
     client_Do := fun _ url =>
       {| latency := 1%N;
          answer :=
            if String.eqb url (chart_url "B") then
              inr {| StatusCode := 404; ContentEncoding := "";
                     ResponseBody := inr "Not Found" |}
            else
              inr {| StatusCode := 200; ContentEncoding := "gzip";
                     ResponseBody := inr "compressed" |} |};
     gzip_read := fun body =>
       if String.eqb body "compressed" then Inflated "chart"
       else BadHeader "gzip: invalid header";
     yahoo_Unmarshal := fun body =>
       if String.eqb body "chart" then inr chart
       else inl "invalid character" |}.

Definition candles (r : Reply (error + list OHLCData)) : list OHLCData :=
  match answer r with inr bars => bars | inl _ => [] end.

(** A list of symbols with a blank piece, a piece that is a no-break
    space, and a trailing comma. *)
Definition listed_symbols : string :=
  String.append " BBCA, ," (String.append nbsp ",TLKM ,").

Definition environ : config.Environ :=
  list_to_map
    [("STOCK_SYMBOLS", listed_symbols);
     ("GEMINI_API_KEY", "key");
     ("TELEGRAM_BOT_TOKEN", "token");
     ("TELEGRAM_CHAT_ID", "42");
     ("SIGNAL_COOLDOWN_MINUTES", "30")].

(** The same without the chat id. *)
Definition environ_without_chat : config.Environ :=
  delete "TELEGRAM_CHAT_ID" environ.

(** No [.env] file. *)
Definition godotenv_Load (environ : config.Environ)
  : option error * config.Environ :=
  (Some "open .env: no such file or directory", environ).

Definition Atoi (s : string) : error + Z :=
  match Scenario.number_from s 0 with
  | Some n => inr n
  | None => inl "invalid syntax"
  end.

Definition loaded : config.Loaded * World :=
  config.LoadConfig godotenv_Load Atoi environ {| clock := 0; trace := [] |}.

Definition loaded_without_chat : config.Loaded * World :=
  config.LoadConfig godotenv_Load Atoi environ_without_chat
    {| clock := 0; trace := [] |}.

Definition config_of (l : config.Loaded) : Config :=
  match l with
  | config.Configured config => config
  | config.Fatal _ => Scenario.cfg [] 0
  end.

Definition time_Format (t : time.Time) : string := "2006-01-02 15:04:05".

(** ["A"] was recorded at instant 1000, fifteen minutes ago. *)
Definition recorded (cooldown : Z) (now : time.Time) : State :=
  set_world {| clock := now; trace := [] |}
    (updateSignalCache "A" (Scenario.state ["A"] cooldown 1000)).

End Examples.

(** * Properties *)

(** ** Observations distribute over the trace *)

Lemma fetched_app (a b : list Event) : fetched (a ++ b) = fetched a ++ fetched b.
Proof.
  induction a as [|ev a IH]; simpl; [reflexivity|].
  destruct ev; simpl; rewrite IH; reflexivity.
Qed.

Lemma inferred_app (a b : list Event) :
  inferred (a ++ b) = inferred a ++ inferred b.
Proof.
  induction a as [|ev a IH]; simpl; [reflexivity|].
  destruct ev; simpl; rewrite IH; reflexivity.
Qed.

Lemma slept_app (a b : list Event) : slept (a ++ b) = slept a ++ slept b.
Proof.
  induction a as [|ev a IH]; simpl; [reflexivity|].
  destruct ev; simpl; rewrite IH; reflexivity.
Qed.

Lemma delivered_app (a b : list Event) :
  delivered (a ++ b) = delivered a ++ delivered b.
Proof.
  induction a as [|ev a IH]; simpl; [reflexivity|].
  destruct ev; simpl; rewrite IH; reflexivity.
Qed.

Lemma logged_app (a b : list Event) : logged (a ++ b) = logged a ++ logged b.
Proof.
  induction a as [|ev a IH]; simpl; [reflexivity|].
  destruct ev; simpl; rewrite IH; reflexivity.
Qed.

Lemma log_all_clock (ls : list LogLine) (w : World) :
  clock (log_all ls w) = clock w.
Proof.
  revert w; induction ls as [|l ls IH]; intros w; simpl; [reflexivity|].
  unfold log_all in IH. rewrite IH. simpl. lia.
Qed.

Lemma log_all_trace (ls : list LogLine) (w : World) :
  trace (log_all ls w) = trace w ++ map EvLog ls.
Proof.
  revert w; induction ls as [|l ls IH]; intros w; simpl.
  - rewrite app_nil_r. reflexivity.
  - unfold log_all in IH. rewrite IH. simpl. rewrite <- app_assoc. reflexivity.
Qed.

Lemma fetched_logs (ls : list LogLine) : fetched (map EvLog ls) = [].
Proof. induction ls; simpl; auto. Qed.

Lemma inferred_logs (ls : list LogLine) : inferred (map EvLog ls) = [].
Proof. induction ls; simpl; auto. Qed.

Lemma slept_logs (ls : list LogLine) : slept (map EvLog ls) = [].
Proof. induction ls; simpl; auto. Qed.

Lemma delivered_logs (ls : list LogLine) : delivered (map EvLog ls) = [].
Proof. induction ls; simpl; auto. Qed.

(** Unfolds the bookkeeping around a call and normalises the observed
    trace. *)
Ltac unfold_world :=
  unfold logf, log_analyzing, set_world, log_Printf, time_Sleep, record,
    time_Now in *;
  simpl in *.

Ltac observe :=
  repeat rewrite ?fetched_app, ?inferred_app, ?slept_app, ?delivered_app,
    ?logged_app, ?log_all_trace, ?log_all_clock, ?fetched_logs,
    ?inferred_logs, ?slept_logs, ?delivered_logs, ?app_nil_r, <- ?app_assoc;
  simpl.

(** ** The single-symbol operation *)

Section SingleSymbol.

Variable env : Env.

Lemma GenerateTradingSignal_stamped (symbol : string) (bars : list OHLCData)
  (w w' : World) (signal : TradingSignal) :
  GenerateTradingSignal env symbol bars w = (Ok signal, w') ->
  StockSymbol signal = symbol /\ GeneratedAt signal = time_Now w'.
Proof.
  unfold GenerateTradingSignal. intros H.
  repeat case_match; simplify_eq; simpl; auto.
Qed.

Lemma GenerateTradingSignal_trace (symbol : string) (bars : list OHLCData)
  (w : World) :
  trace (snd (GenerateTradingSignal env symbol bars w))
  = trace w ++ [EvGenerateContent (buildPrompt symbol bars)]
  /\ clock w <= clock (snd (GenerateTradingSignal env symbol bars w)).
Proof.
  unfold GenerateTradingSignal.
  repeat case_match; simpl; split; auto; lia.
Qed.

Lemma GenerateSignal_service (symbol : string) (st : State) :
  service (snd (GenerateSignal env symbol st)) = service st.
Proof.
  unfold GenerateSignal, yahoo_FetchOHLCData.
  repeat case_match; simplify_eq; reflexivity.
Qed.

Lemma GenerateSignal_observed (symbol : string) (st : State) :
  let st' := snd (GenerateSignal env symbol st) in
  fetched (trace (world st')) = fetched (trace (world st)) ++ [symbol]
  /\ slept (trace (world st')) = slept (trace (world st))
  /\ delivered (trace (world st')) = delivered (trace (world st))
  /\ clock (world st) <= clock (world st').
Proof.
  unfold GenerateSignal, yahoo_FetchOHLCData.
  repeat case_match; simplify_eq; unfold_world;
    try match goal with
        | H : GenerateTradingSignal _ ?s ?b ?w = _ |- _ =>
            pose proof (GenerateTradingSignal_trace s b w) as [Ht Hc];
            rewrite H in Ht, Hc; simpl in Ht, Hc; try rewrite Ht
        end;
    observe; repeat split; auto; try lia.
Qed.

Lemma GenerateSignal_stamped (symbol : string) (st : State)
  (signal : TradingSignal) :
  fst (GenerateSignal env symbol st) = Ok signal ->
  StockSymbol signal = symbol
  /\ GeneratedAt signal = time_Now (world (snd (GenerateSignal env symbol st))).
Proof.
  unfold GenerateSignal, yahoo_FetchOHLCData.
  destruct (answer (FetchOHLCData env _ symbol)) as [e0|bars0]; simpl;
    [discriminate|].
  destruct (len bars0 =? 0); simpl; [discriminate|].
  destruct (GenerateTradingSignal env symbol bars0 _) as [g w'] eqn:Hg.
  destruct g; simpl; intros H; simplify_eq.
  apply (GenerateTradingSignal_stamped _ _ _ _ _ Hg).
Qed.

End SingleSymbol.

Section SingleSymbolContract.

Variable env : Env.

(** X27. [GenerateSignal] asks the quote source exactly once.  When that
    request fails, or answers with no bar, the result is an error and the
    inference is never asked.  Otherwise the inference is asked once, with
    the bars: its error comes back wrapped, its panic is the panic of the
    call, and when its answer holds a text from which a signal is parsed,
    that signal is returned, stamped with the requested symbol and the time
    at which the call returns.  Whatever signal is returned carries the
    requested symbol and that time. *)
Theorem GenerateSignal_contract (symbol : string) (st : State) :
  let asked :=
    world (logf "Generating trading signal for %s" [ArgStr symbol] st) in
  let quote := FetchOHLCData env asked symbol in
  let ready bars :=
    log_Printf "Fetched %d OHLC data points for %s"
      [ArgInt (len bars); ArgStr symbol]
      (record (EvFetch symbol) (Z.of_N (latency quote)) asked) in
  let r := fst (GenerateSignal env symbol st) in
  let st' := snd (GenerateSignal env symbol st) in
  fetched (trace (world st')) = fetched (trace (world st)) ++ [symbol]
  /\ (forall e, answer quote = inl e ->
        r = Err (wrap_error "failed to fetch OHLC data" e)
        /\ inferred (trace (world st')) = inferred (trace (world st)))
  /\ (answer quote = inr [] ->
        r = Err (String.append "no OHLC data available for " symbol)
        /\ inferred (trace (world st')) = inferred (trace (world st)))
  /\ (forall bars e, answer quote = inr bars -> bars <> [] ->
        fst (GenerateTradingSignal env symbol bars (ready bars)) = Err e ->
        r = Err (wrap_error "failed to generate AI signal" e))
  /\ (forall bars, answer quote = inr bars -> bars <> [] ->
        fst (GenerateTradingSignal env symbol bars (ready bars)) = Panic ->
        r = Panic)
  /\ (forall bars resp candidate others content text parts decoded,
        answer quote = inr bars -> bars <> [] ->
        answer (GenerateContent env (ready bars) (buildPrompt symbol bars))
        = inr resp ->
        Candidates resp = candidate :: others ->
        CandidateContent candidate = Some content ->
        Parts content = Text text :: parts ->
        parseSignalResponse env text = Ok decoded ->
        r = Ok (stamp decoded symbol (time_Now (world st')))
        /\ inferred (trace (world st'))
           = inferred (trace (world st)) ++ [symbol])
  /\ (forall signal, r = Ok signal ->
        StockSymbol signal = symbol
        /\ GeneratedAt signal = time_Now (world st')).
Proof.
  cbv zeta. split; [apply (GenerateSignal_observed env symbol st)|].
  unfold GenerateSignal, yahoo_FetchOHLCData.
  set (asked := world (logf _ _ st)).
  destruct (answer (FetchOHLCData env asked symbol)) as [e0|bars0] eqn:Hq;
    simpl.
  - repeat split; intros; simplify_eq; auto.
    unfold_world. subst asked. simpl. observe. reflexivity.
  - destruct (len bars0 =? 0) eqn:Hlen; simpl.
    + repeat split; intros; simplify_eq; auto.
      all: try (unfold_world; subst asked; simpl; observe; reflexivity).
      all: destruct bars; [congruence|]; unfold len in Hlen; simpl in Hlen;
        lia.
    + split; [intros; discriminate|].
      split; [intros H; injection H as ->; unfold len in Hlen;
              simpl in Hlen; lia|].
      split; [|split; [|split]].
      * intros bars e Hb _ Hg. injection Hb as <-.
        destruct (GenerateTradingSignal env symbol bars0 _) as [g w'].
        simpl in Hg. subst g. reflexivity.
      * intros bars Hb _ Hg. injection Hb as <-.
        destruct (GenerateTradingSignal env symbol bars0 _) as [g w'].
        simpl in Hg. subst g. reflexivity.
      * intros bars resp candidate others content text parts decoded
          Hb _ Hresp Hcs Hcontent Hparts Hparse. injection Hb as <-.
        unfold GenerateTradingSignal. simpl in Hresp |- *.
        rewrite Hresp, Hcs, Hcontent, Hparts, Hparse. simpl.
        split; [reflexivity|].
        unfold_world. subst asked. simpl. observe. reflexivity.
      * intros signal Hr.
        destruct (GenerateTradingSignal env symbol bars0 _) as [g w'] eqn:Hg.
        destruct g; simpl in *; simplify_eq.
        apply (GenerateTradingSignal_stamped _ _ _ _ _ _ Hg).
Qed.

End SingleSymbolContract.

(** ** The batch loops *)

Section Batch.

Variable env : Env.

Lemma analyze_from_batch_loop (symbols : list string) :
  forall (i : Z) (b : Buckets) (st : State),
    analyze_from env i symbols b st
    = batch_loop env (signal_step env) i symbols b st.
Proof.
  induction symbols as [|symbol rest IH]; intros i b st; simpl; [reflexivity|].
  unfold signal_step.
  destruct (GenerateSignal env symbol (log_analyzing i symbol st))
    as [[signal|err|] st1]; simpl; auto.
Qed.

Lemma analyze_summary_from_batch_loop (symbols : list string) :
  forall (i : Z) (b : Buckets) (st : State),
    analyze_summary_from env i symbols b st
    = batch_loop env (summary_step env) i symbols b st.
Proof.
  induction symbols as [|symbol rest IH]; intros i b st; simpl; [reflexivity|].
  unfold summary_step, yahoo_FetchOHLCData; simpl.
  repeat case_match; simplify_eq; auto.
Qed.

Lemma signal_step_analysis : analysis (signal_step env).
Proof.
  split; intros symbol st; unfold signal_step;
    pose proof (GenerateSignal_service env symbol st) as Hs;
    pose proof (GenerateSignal_observed env symbol st) as (Hf & Hsl & Hd & Hc);
    pose proof (GenerateSignal_stamped env symbol st) as Hk;
    destruct (GenerateSignal env symbol st) as [[signal|err|] st1];
    simpl in *; unfold_world; observe; auto; try lia.
  - intros s Hs'. simplify_eq. apply (Hk s eq_refl).
  - intros s Hs'. simplify_eq.
  - intros s Hs'. simplify_eq.
Qed.

Lemma summary_step_analysis : analysis (summary_step env).
Proof.
  split; intros symbol st; unfold summary_step, yahoo_FetchOHLCData;
    repeat case_match; simplify_eq; unfold_world;
    try match goal with
        | H : GenerateTradingSignal _ ?s ?b ?w = _ |- _ =>
            pose proof (GenerateTradingSignal_trace env s b w) as [Ht Hc];
            pose proof (GenerateTradingSignal_stamped env s b w) as Hst;
            rewrite H in Ht, Hc; simpl in Ht, Hc; try rewrite Ht
        end;
    observe; auto; try lia; intros; simplify_eq.
  eapply Hst; eauto.
Qed.

End Batch.

Section Filing.

Variable env : Env.

Lemma accounted_add_failed (symbol : string) (b : Buckets) :
  accounted (add_failed symbol b) ≡ₚ accounted b ++ [symbol].
Proof. unfold accounted, add_failed; simpl. solve_Permutation. Qed.

Lemma accounted_categorize (signal : TradingSignal) (b : Buckets) :
  accounted (categorize env signal b) ≡ₚ accounted b ++ [StockSymbol signal].
Proof.
  unfold accounted, categorize, add_buy, add_sell, add_hold.
  repeat case_match; simpl; rewrite map_app; simpl; solve_Permutation.
Qed.

Lemma failed_categorize (signal : TradingSignal) (b : Buckets) :
  failedSignals (categorize env signal b) = failedSignals b.
Proof. unfold categorize. repeat case_match; reflexivity. Qed.

(** The rule for one signal: the bucket named by its upper-cased
    direction receives it, the other buckets stay as they are. *)
Lemma categorize_rule (signal : TradingSignal) (b : Buckets) :
  let direction := ToUpper env (Signal signal) in
  (direction = "BUY" -> categorize env signal b = add_buy signal b)
  /\ (direction = "SELL" -> categorize env signal b = add_sell signal b)
  /\ (direction <> "BUY" -> direction <> "SELL" ->
      categorize env signal b = add_hold signal b).
Proof.
  cbv zeta. unfold categorize.
  destruct (String.eqb_spec (ToUpper env (Signal signal)) "BUY") as [Hb|Hb];
    destruct (String.eqb_spec (ToUpper env (Signal signal)) "SELL") as [Hs|Hs];
    repeat split; intros; try congruence;
    repeat case_match; try reflexivity; congruence.
Qed.

Lemma well_filed_categorize (signal : TradingSignal) (b : Buckets) :
  well_filed env b -> well_filed env (categorize env signal b).
Proof.
  intros (Hb & Hs & Hh). unfold well_filed, categorize.
  destruct (String.eqb_spec (ToUpper env (Signal signal)) "BUY") as [Eb|Eb];
    [|destruct (String.eqb_spec (ToUpper env (Signal signal)) "SELL")
        as [Es|Es]];
    repeat case_match; simpl; repeat split; auto;
    apply Forall_app; split; auto.
Qed.

Lemma well_filed_add_failed (symbol : string) (b : Buckets) :
  well_filed env b -> well_filed env (add_failed symbol b).
Proof. unfold well_filed, add_failed; simpl; auto. Qed.

Lemma log_analyzing_service (i : Z) (symbol : string) (st : State) :
  service (log_analyzing i symbol st) = service st.
Proof. reflexivity. Qed.

Lemma pause_unless_last_service (i : Z) (st : State) :
  service (pause_unless_last i st) = service st.
Proof. unfold pause_unless_last. case_match; reflexivity. Qed.

Lemma pause_unless_last_observed (i : Z) (st : State) :
  fetched (trace (world (pause_unless_last i st))) = fetched (trace (world st))
  /\ delivered (trace (world (pause_unless_last i st)))
     = delivered (trace (world st))
  /\ clock (world st) <= clock (world (pause_unless_last i st)).
Proof.
  unfold pause_unless_last. case_match; unfold_world; observe;
    repeat split; auto; lia.
Qed.

End Filing.

Section Loop.

Variable env : Env.
Variable step : string -> State -> result TradingSignal * State.
Hypothesis Hstep : analysis step.

Lemma batch_loop_service (symbols : list string) :
  forall i b st,
    service (snd (batch_loop env step i symbols b st)) = service st.
Proof.
  induction symbols as [|symbol rest IH]; intros i b st; simpl; [reflexivity|].
  pose proof (step_service _ Hstep symbol (log_analyzing i symbol st)) as Hs.
  destruct (step symbol (log_analyzing i symbol st)) as [[signal|err|] st1];
    simpl in *.
  - rewrite IH, pause_unless_last_service. exact Hs.
  - rewrite IH. exact Hs.
  - exact Hs.
Qed.

Lemma batch_loop_never_err (symbols : list string) :
  forall i b st e, fst (batch_loop env step i symbols b st) <> Err e.
Proof.
  induction symbols as [|symbol rest IH]; intros i b st e; simpl; [discriminate|].
  destruct (step symbol (log_analyzing i symbol st)) as [[signal|err|] st1];
    simpl; auto.
Qed.

Lemma batch_loop_app (l1 l2 : list string) :
  forall i b st,
    batch_loop env step i (l1 ++ l2) b st
    = match batch_loop env step i l1 b st with
      | (Ok b1, st1) => batch_loop env step (i + len l1) l2 b1 st1
      | (Err e, st1) => (Err e, st1)
      | (Panic, st1) => (Panic, st1)
      end.
Proof.
  induction l1 as [|symbol rest IH]; intros i b st; simpl.
  - unfold len; simpl. rewrite Z.add_0_r. reflexivity.
  - replace (i + len (symbol :: rest)) with (i + 1 + len rest)
      by (unfold len; simpl length; lia).
    destruct (step symbol (log_analyzing i symbol st)) as [[signal|err|] st1];
      simpl; auto.
Qed.

Lemma batch_loop_completed (symbols : list string) :
  forall i b st b' st',
    batch_loop env step i symbols b st = (Ok b', st') ->
    accounted b' ≡ₚ accounted b ++ symbols
    /\ fetched (trace (world st')) = fetched (trace (world st)) ++ symbols
    /\ delivered (trace (world st')) = delivered (trace (world st))
    /\ (well_filed env b -> well_filed env b')
    /\ (forall x, x ∈ failedSignals b -> x ∈ failedSignals b').
Proof.
  induction symbols as [|symbol rest IH]; intros i b st b' st' Hrun;
    simpl in Hrun.
  - simplify_eq. rewrite !app_nil_r. auto.
  - pose proof (step_fetched _ Hstep symbol (log_analyzing i symbol st)) as Hf.
    pose proof (step_delivered _ Hstep symbol (log_analyzing i symbol st)) as Hd.
    pose proof (step_stamped _ Hstep symbol (log_analyzing i symbol st)) as Hk.
    destruct (step symbol (log_analyzing i symbol st)) as [[signal|err|] st1];
      simpl in *; [| |discriminate].
    + apply IH in Hrun as (Hp & Hf' & Hd' & Hw & Hin).
      destruct (pause_unless_last_observed i st1) as (Pf & Pd & _).
      split; [|split; [|split; [|split]]].
      * rewrite Hp, accounted_categorize, (Hk signal eq_refl).
        rewrite <- app_assoc. reflexivity.
      * rewrite Hf', Pf, Hf. unfold_world. observe. reflexivity.
      * rewrite Hd', Pd, Hd. unfold_world. observe. reflexivity.
      * intros Hb. apply Hw, well_filed_categorize, Hb.
      * intros x Hx. apply Hin. rewrite failed_categorize. exact Hx.
    + apply IH in Hrun as (Hp & Hf' & Hd' & Hw & Hin).
      split; [|split; [|split; [|split]]].
      * rewrite Hp, accounted_add_failed, <- app_assoc. reflexivity.
      * rewrite Hf', Hf. unfold_world. observe. reflexivity.
      * rewrite Hd', Hd. unfold_world. observe. reflexivity.
      * intros Hb. apply Hw, well_filed_add_failed, Hb.
      * intros x Hx. apply Hin. simpl. apply elem_of_app. left. exact Hx.
Qed.

End Loop.

(** ** Whole runs *)

Section Runs.

Variable env : Env.

Lemma started_observed (st : State) :
  service (started st) = service st
  /\ fetched (trace (world (started st))) = fetched (trace (world st))
  /\ delivered (trace (world (started st))) = delivered (trace (world st)).
Proof. unfold started. unfold_world. observe. auto. Qed.

Lemma started_summary_observed (st : State) :
  service (started_summary env st) = service st
  /\ fetched (trace (world (started_summary env st)))
     = fetched (trace (world st)).
Proof.
  unfold started_summary, SendRequestReceivedMessage, sendMessage,
    sendMessageToChat.
  repeat case_match; simplify_eq; unfold_world; observe; auto.
Qed.

Lemma report_observed (b : Buckets) (st : State) :
  let summary := fst (report env b st) in
  let st' := snd (report env b st) in
  buckets_of summary = b
  /\ TotalAnalyzed summary = len (StockSymbols (config (service st)))
  /\ service st' = service st
  /\ fetched (trace (world st')) = fetched (trace (world st))
  /\ delivered (trace (world st'))
     = delivered (trace (world st)) ++ [fst (formatSummaryMessage summary)].
Proof.
  unfold report, SendSignalSummary, sendMessage, sendMessageToChat.
  destruct b as [buy sell hold failed].
  repeat case_match; simplify_eq; unfold_world; observe.
  all: repeat (split; [reflexivity|]).
  all: match goal with
       | H : formatSummaryMessage _ = _ |- _ =>
           apply (f_equal fst) in H; simpl in H; rewrite <- H
       end; reflexivity.
Qed.

Lemma GenerateAllSignals_completed (st st' : State) (summary : SignalSummary) :
  GenerateAllSignals env st = (Ok summary, st') ->
  exists b st1,
    analyze_from env 0 (StockSymbols (config (service st))) no_buckets
      (started st) = (Ok b, st1)
    /\ report env b st1 = (summary, st').
Proof.
  unfold GenerateAllSignals, started. simpl.
  destruct (analyze_from env 0 _ no_buckets _) as [[b| |] st1]; try discriminate.
  destruct (report env b st1) as [s st2] eqn:Hr. intros H; simplify_eq.
  exists b, st1. auto.
Qed.

Lemma GenerateAllSignalsSummary_completed (st st' : State)
  (summary : SignalSummary) :
  GenerateAllSignalsSummary env st = (Ok summary, st') ->
  exists b st1,
    analyze_summary_from env 0 (StockSymbols (config (service st))) no_buckets
      (started_summary env st) = (Ok b, st1)
    /\ report env b st1 = (summary, st').
Proof.
  unfold GenerateAllSignalsSummary.
  pose proof (started_summary_observed st) as [Hs _].
  unfold started_summary in *.
  destruct (SendRequestReceivedMessage env _ _ _) as [sent w]. simpl in *.
  destruct sent as [err|]; simpl in *.
  all: destruct (analyze_summary_from env 0 _ no_buckets _) as [[b| |] st1];
    try discriminate.
  all: destruct (report env b st1) as [s st2] eqn:Hr; intros H; simplify_eq.
  all: exists b, st1; auto.
Qed.

(** What a completed run of either variant leaves behind. *)
Lemma batch_completed (step : string -> State -> result TradingSignal * State)
  (st0 st1 st' : State) (b : Buckets) (summary : SignalSummary) :
  analysis step ->
  batch_loop env step 0 (StockSymbols (config (service st0))) no_buckets st0
  = (Ok b, st1) ->
  report env b st1 = (summary, st') ->
  let symbols := StockSymbols (config (service st0)) in
  TotalAnalyzed summary = len symbols
  /\ accounted (buckets_of summary) ≡ₚ symbols
  /\ fetched (trace (world st')) = fetched (trace (world st0)) ++ symbols
  /\ well_filed env (buckets_of summary)
  /\ service st' = service st0
  /\ buckets_of summary = b.
Proof.
  intros Hstep Hloop Hrep. cbv zeta.
  pose proof (batch_loop_service env step Hstep
                (StockSymbols (config (service st0))) 0 no_buckets st0) as Hsv.
  rewrite Hloop in Hsv. simpl in Hsv.
  apply (batch_loop_completed env step Hstep) in Hloop
    as (Hp & Hf & _ & Hw & _).
  pose proof (report_observed b st1) as (Hb & Ht & Hs & Hf' & _).
  rewrite Hrep in Hb, Ht, Hs, Hf'. simpl in Hb, Ht, Hs, Hf'.
  rewrite Hb, Ht, Hs, Hf', Hsv.
  assert (well_filed env no_buckets) as Hn by (unfold well_filed; simpl; auto).
  split; [reflexivity|]. split; [exact Hp|]. split; [exact Hf|].
  split; [exact (Hw Hn)|]. split; reflexivity.
Qed.

End Runs.

Section CompletedRuns.

Variable env : Env.

Lemma completed_facts (st st' : State) (summary : SignalSummary) :
  completed env st summary st' ->
  let symbols := StockSymbols (config (service st)) in
  TotalAnalyzed summary = len symbols
  /\ accounted (buckets_of summary) ≡ₚ symbols
  /\ fetched (trace (world st')) = fetched (trace (world st)) ++ symbols
  /\ well_filed env (buckets_of summary)
  /\ service st' = service st.
Proof.
  intros [Hrun|Hrun]; cbv zeta.
  - apply GenerateAllSignals_completed in Hrun as (b & st1 & Hloop & Hrep).
    rewrite analyze_from_batch_loop in Hloop.
    destruct (started_observed st) as (Hs & Hf & _).
    pose proof (batch_completed env (signal_step env) (started st) st1 st' b
                  summary (signal_step_analysis env)) as Hc.
    rewrite Hs in Hc. specialize (Hc Hloop Hrep).
    destruct Hc as (H1 & H2 & H3 & H4 & H5 & _).
    rewrite Hf in H3. auto.
  - apply GenerateAllSignalsSummary_completed in Hrun
      as (b & st1 & Hloop & Hrep).
    rewrite analyze_summary_from_batch_loop in Hloop.
    destruct (started_summary_observed env st) as (Hs & Hf).
    pose proof (batch_completed env (summary_step env) (started_summary env st)
                  st1 st' b summary (summary_step_analysis env)) as Hc.
    rewrite Hs in Hc. specialize (Hc Hloop Hrep).
    destruct Hc as (H1 & H2 & H3 & H4 & H5 & _).
    rewrite Hf in H3. auto.
Qed.

(** C1. In the summary of every completed batch run the four buckets
    together hold as many entries as [TotalAnalyzed] says, which is the
    number of configured symbols, and the symbols of the four buckets are
    the configured symbols, each occurrence exactly once. *)
Theorem summary_accounts_for_every_symbol
  (st st' : State) (summary : SignalSummary) :
  completed env st summary st' ->
  let symbols := StockSymbols (config (service st)) in
  len (BuySignals summary) + len (SellSignals summary)
  + len (HoldSignals summary) + len (FailedSignals summary)
  = TotalAnalyzed summary
  /\ TotalAnalyzed summary = len symbols
  /\ map StockSymbol (BuySignals summary)
     ++ map StockSymbol (SellSignals summary)
     ++ map StockSymbol (HoldSignals summary)
     ++ FailedSignals summary ≡ₚ symbols.
Proof.
  intros Hrun. cbv zeta.
  apply completed_facts in Hrun as (Ht & Hp & _).
  unfold accounted, buckets_of in Hp. simpl in Hp.
  split; [|split; assumption].
  rewrite Ht. apply Permutation_length in Hp.
  rewrite !length_app, !length_map in Hp.
  unfold len. lia.
Qed.

End CompletedRuns.

(** ** Failures inside a batch run *)

Section Isolation.

Variable env : Env.

Lemma batch_loop_failed_turn
  (step : string -> State -> result TradingSignal * State)
  (symbols : list string) (k : nat) (symbol : string) (st0 st_k st_f : State)
  (b_k : Buckets) (err : error) :
  symbols !! k = Some symbol ->
  batch_loop env step 0 (take k symbols) no_buckets st0 = (Ok b_k, st_k) ->
  step symbol (log_analyzing (Z.of_nat k) symbol st_k) = (Err err, st_f) ->
  batch_loop env step 0 (take (S k) symbols) no_buckets st0
  = (Ok (add_failed symbol b_k), st_f).
Proof.
  intros Hk Hpre Hstep.
  rewrite (take_S_r _ _ _ Hk), batch_loop_app, Hpre.
  assert (len (take k symbols) = Z.of_nat k) as ->.
  { unfold len. rewrite length_take.
    apply lookup_lt_Some in Hk. lia. }
  rewrite Z.add_0_l. simpl. rewrite Hstep. reflexivity.
Qed.

Lemma batch_loop_keeps_failed
  (step : string -> State -> result TradingSignal * State)
  (symbols : list string) (k : nat) (symbol : string) (st0 st_k st_f st1 : State)
  (b_k b : Buckets) (err : error) :
  analysis step ->
  symbols !! k = Some symbol ->
  batch_loop env step 0 (take k symbols) no_buckets st0 = (Ok b_k, st_k) ->
  step symbol (log_analyzing (Z.of_nat k) symbol st_k) = (Err err, st_f) ->
  batch_loop env step 0 symbols no_buckets st0 = (Ok b, st1) ->
  symbol ∈ failedSignals b.
Proof.
  intros Ha Hk Hpre Hstep Hall.
  pose proof (batch_loop_failed_turn step symbols k symbol st0 st_k st_f b_k err
                Hk Hpre Hstep) as Hturn.
  rewrite <- (take_drop (S k) symbols), batch_loop_app, Hturn in Hall.
  apply (batch_loop_completed env step Ha) in Hall as (_ & _ & _ & _ & Hin).
  apply Hin. simpl. apply elem_of_app. right. apply list_elem_of_singleton.
  reflexivity.
Qed.

Lemma GenerateAllSignals_never_err (st : State) (e : error) :
  fst (GenerateAllSignals env st) <> Err e.
Proof.
  unfold GenerateAllSignals.
  pose proof (batch_loop_never_err env (signal_step env)
                (StockSymbols (config (service st))) 0 no_buckets (started st))
    as Hn.
  rewrite <- analyze_from_batch_loop in Hn. unfold started in Hn.
  simpl in *.
  destruct (analyze_from env 0 _ no_buckets _) as [[b|e'|] st1]; simpl in *.
  - destruct (report env b st1). simpl. discriminate.
  - exfalso. apply (Hn e'). reflexivity.
  - discriminate.
Qed.

Lemma GenerateAllSignalsSummary_never_err (st : State) (e : error) :
  fst (GenerateAllSignalsSummary env st) <> Err e.
Proof.
  unfold GenerateAllSignalsSummary.
  destruct (SendRequestReceivedMessage env _ _ _) as [sent w]. simpl.
  match goal with
  | |- context [analyze_summary_from env 0 ?l no_buckets ?s] =>
      pose proof (batch_loop_never_err env (summary_step env) l 0 no_buckets s)
        as Hn;
      rewrite <- analyze_summary_from_batch_loop in Hn;
      destruct (analyze_summary_from env 0 l no_buckets s)
        as [[b|e'|] st1]; simpl in *
  end.
  - destruct (report env b st1). simpl. discriminate.
  - exfalso. apply (Hn e'). reflexivity.
  - discriminate.
Qed.

(** X26. Suppose the loop of a batch run has reached the [k]-th configured
    symbol and the analysis of that symbol returns an error.  Then the
    loop files the symbol under the failed ones and goes on with the next
    turn; the run never ends in an error; and when the run reaches its end,
    the symbol is in [FailedSignals], [TotalAnalyzed] is the number of
    configured symbols, and a quote was requested for every configured
    symbol, in order.  This holds for both variants of the run. *)
Theorem failure_is_isolated
  (st st_k st_f : State) (k : nat) (symbol : string) (b_k : Buckets)
  (err : error) :
  let symbols := StockSymbols (config (service st)) in
  symbols !! k = Some symbol ->
  (analyze_from env 0 (take k symbols) no_buckets (started st) = (Ok b_k, st_k) ->
   GenerateSignal env symbol (log_analyzing (Z.of_nat k) symbol st_k)
   = (Err err, st_f) ->
   analyze_from env 0 (take (S k) symbols) no_buckets (started st)
   = (Ok (add_failed symbol b_k),
      logf "Failed to generate signal for %s: %v"
        [ArgStr symbol; ArgStr err] st_f)
   /\ (forall e, fst (GenerateAllSignals env st) <> Err e)
   /\ (forall summary st',
         GenerateAllSignals env st = (Ok summary, st') ->
         symbol ∈ FailedSignals summary
         /\ TotalAnalyzed summary = len symbols
         /\ fetched (trace (world st'))
            = fetched (trace (world st)) ++ symbols))
  /\ (analyze_summary_from env 0 (take k symbols) no_buckets
        (started_summary env st) = (Ok b_k, st_k) ->
      summary_step env symbol (log_analyzing (Z.of_nat k) symbol st_k)
      = (Err err, st_f) ->
      analyze_summary_from env 0 (take (S k) symbols) no_buckets
        (started_summary env st) = (Ok (add_failed symbol b_k), st_f)
      /\ (forall e, fst (GenerateAllSignalsSummary env st) <> Err e)
      /\ (forall summary st',
            GenerateAllSignalsSummary env st = (Ok summary, st') ->
            symbol ∈ FailedSignals summary
            /\ TotalAnalyzed summary = len symbols
            /\ fetched (trace (world st'))
               = fetched (trace (world st)) ++ symbols)).
Proof.
  cbv zeta. intros Hk. split.
  - intros Hpre Hfail. rewrite analyze_from_batch_loop in *.
    assert (signal_step env symbol (log_analyzing (Z.of_nat k) symbol st_k)
            = (Err err,
               logf "Failed to generate signal for %s: %v"
                 [ArgStr symbol; ArgStr err] st_f)) as Hstep.
    { unfold signal_step. rewrite Hfail. reflexivity. }
    split; [|split].
    + exact (batch_loop_failed_turn _ _ _ _ _ _ _ _ _ Hk Hpre Hstep).
    + apply GenerateAllSignals_never_err.
    + intros summary st' Hrun.
      pose proof (completed_facts env st st' summary (or_introl Hrun))
        as (Ht & _ & Hf & _).
      split; [|split; assumption].
      apply GenerateAllSignals_completed in Hrun as (b & st1 & Hloop & Hrep).
      rewrite analyze_from_batch_loop in Hloop.
      pose proof (report_observed env b st1) as (Hb & _).
      rewrite Hrep in Hb. simpl in Hb.
      replace (FailedSignals summary) with (failedSignals b)
        by (rewrite <- Hb; reflexivity).
      exact (batch_loop_keeps_failed _ _ _ _ _ _ _ _ _ _ _
               (signal_step_analysis env) Hk Hpre Hstep Hloop).
  - intros Hpre Hstep. rewrite analyze_summary_from_batch_loop in *.
    split; [|split].
    + exact (batch_loop_failed_turn _ _ _ _ _ _ _ _ _ Hk Hpre Hstep).
    + apply GenerateAllSignalsSummary_never_err.
    + intros summary st' Hrun.
      pose proof (completed_facts env st st' summary (or_intror Hrun))
        as (Ht & _ & Hf & _).
      split; [|split; assumption].
      apply GenerateAllSignalsSummary_completed in Hrun
        as (b & st1 & Hloop & Hrep).
      rewrite analyze_summary_from_batch_loop in Hloop.
      pose proof (report_observed env b st1) as (Hb & _).
      rewrite Hrep in Hb. simpl in Hb.
      replace (FailedSignals summary) with (failedSignals b)
        by (rewrite <- Hb; reflexivity).
      exact (batch_loop_keeps_failed _ _ _ _ _ _ _ _ _ _ _
               (summary_step_analysis env) Hk Hpre Hstep Hloop).
Qed.

End Isolation.

(** ** Every signal reaches its bucket *)

Section Filed.

Variable env : Env.

Lemma categorize_fields (signal : TradingSignal) (b : Buckets) :
  let direction := ToUpper env (Signal signal) in
  (direction = "BUY" ->
   buySignals (categorize env signal b) = buySignals b ++ [signal]
   /\ sellSignals (categorize env signal b) = sellSignals b
   /\ holdSignals (categorize env signal b) = holdSignals b)
  /\ (direction = "SELL" ->
      buySignals (categorize env signal b) = buySignals b
      /\ sellSignals (categorize env signal b) = sellSignals b ++ [signal]
      /\ holdSignals (categorize env signal b) = holdSignals b)
  /\ (direction <> "BUY" -> direction <> "SELL" ->
      buySignals (categorize env signal b) = buySignals b
      /\ sellSignals (categorize env signal b) = sellSignals b
      /\ holdSignals (categorize env signal b) = holdSignals b ++ [signal])
  /\ failedSignals (categorize env signal b) = failedSignals b.
Proof.
  cbv zeta. destruct (categorize_rule env signal b) as (Hb & Hs & Hh).
  split; [|split; [|split]].
  - intros H. rewrite (Hb H). auto.
  - intros H. rewrite (Hs H). auto.
  - intros H1 H2. rewrite (Hh H1 H2). auto.
  - apply failed_categorize.
Qed.

Lemma categorize_keeps (signal : TradingSignal) (b : Buckets)
  (s : TradingSignal) :
  (s ∈ buySignals b -> s ∈ buySignals (categorize env signal b))
  /\ (s ∈ sellSignals b -> s ∈ sellSignals (categorize env signal b))
  /\ (s ∈ holdSignals b -> s ∈ holdSignals (categorize env signal b)).
Proof.
  unfold categorize. repeat case_match; simpl; rewrite ?elem_of_app; auto.
Qed.

Lemma batch_loop_keeps_signals
  (step : string -> State -> result TradingSignal * State)
  (symbols : list string) :
  forall i b st b' st',
    batch_loop env step i symbols b st = (Ok b', st') ->
    forall s,
      (s ∈ buySignals b -> s ∈ buySignals b')
      /\ (s ∈ sellSignals b -> s ∈ sellSignals b')
      /\ (s ∈ holdSignals b -> s ∈ holdSignals b').
Proof.
  induction symbols as [|symbol rest IH]; intros i b st b' st' Hrun s;
    simpl in Hrun.
  - simplify_eq. auto.
  - destruct (step symbol (log_analyzing i symbol st)) as [[signal|err|] st1];
      [| |discriminate].
    + destruct (IH _ _ _ _ _ Hrun s) as (Hb & Hs & Hh).
      destruct (categorize_keeps signal b s) as (Kb & Ks & Kh). auto.
    + destruct (IH _ _ _ _ _ Hrun s) as (Hb & Hs & Hh). simpl in *. auto.
Qed.

Lemma batch_loop_filed_turn
  (step : string -> State -> result TradingSignal * State)
  (symbols : list string) (k : nat) (symbol : string) (st0 st_k st_s : State)
  (b_k : Buckets) (signal : TradingSignal) :
  symbols !! k = Some symbol ->
  batch_loop env step 0 (take k symbols) no_buckets st0 = (Ok b_k, st_k) ->
  step symbol (log_analyzing (Z.of_nat k) symbol st_k) = (Ok signal, st_s) ->
  batch_loop env step 0 (take (S k) symbols) no_buckets st0
  = (Ok (categorize env signal b_k), pause_unless_last (Z.of_nat k) st_s).
Proof.
  intros Hk Hpre Hstep.
  rewrite (take_S_r _ _ _ Hk), batch_loop_app, Hpre.
  assert (len (take k symbols) = Z.of_nat k) as ->.
  { unfold len. rewrite length_take.
    apply lookup_lt_Some in Hk. lia. }
  rewrite Z.add_0_l. simpl. rewrite Hstep. reflexivity.
Qed.

Lemma batch_loop_files
  (step : string -> State -> result TradingSignal * State)
  (symbols : list string) (k : nat) (symbol : string)
  (st0 st_k st_s st1 : State) (b_k b : Buckets) (signal : TradingSignal) :
  symbols !! k = Some symbol ->
  batch_loop env step 0 (take k symbols) no_buckets st0 = (Ok b_k, st_k) ->
  step symbol (log_analyzing (Z.of_nat k) symbol st_k) = (Ok signal, st_s) ->
  batch_loop env step 0 symbols no_buckets st0 = (Ok b, st1) ->
  let direction := ToUpper env (Signal signal) in
  (direction = "BUY" -> signal ∈ buySignals b)
  /\ (direction = "SELL" -> signal ∈ sellSignals b)
  /\ (direction <> "BUY" -> direction <> "SELL" -> signal ∈ holdSignals b).
Proof.
  intros Hk Hpre Hstep Hall. cbv zeta.
  pose proof (batch_loop_filed_turn step symbols k symbol st0 st_k st_s b_k
                signal Hk Hpre Hstep) as Hturn.
  rewrite <- (take_drop (S k) symbols), batch_loop_app, Hturn in Hall.
  destruct (batch_loop_keeps_signals _ _ _ _ _ _ _ Hall signal)
    as (Kb & Ks & Kh).
  destruct (categorize_fields signal b_k) as (Fb & Fs & Fh & _).
  split; [|split].
  - intros H. destruct (Fb H) as (E & _). apply Kb. rewrite E.
    apply elem_of_app. right. apply list_elem_of_singleton. reflexivity.
  - intros H. destruct (Fs H) as (_ & E & _). apply Ks. rewrite E.
    apply elem_of_app. right. apply list_elem_of_singleton. reflexivity.
  - intros H1 H2. destruct (Fh H1 H2) as (_ & _ & E). apply Kh. rewrite E.
    apply elem_of_app. right. apply list_elem_of_singleton. reflexivity.
Qed.

(** C5. A signal is filed under its upper-cased direction: filing a
    ["BUY"] appends it to the buy bucket and leaves the other two alone,
    a ["SELL"] goes to the sell bucket likewise, every other string
    (["WAIT"], ["HOLD"], anything else) to the hold bucket, and filing
    never adds to the failed symbols.  In a batch run of either variant,
    the signal that the analysis of the [k]-th configured symbol produces
    is, at the end of the run, in the bucket of its direction; and the
    summary of a completed run holds in its buy bucket only signals whose
    upper-cased direction is ["BUY"], in its sell bucket only ["SELL"],
    and in its hold bucket only the others, so that the signal is in no
    other bucket. *)
Theorem signals_filed_by_direction :
  (forall (signal : TradingSignal) (b : Buckets),
     let direction := ToUpper env (Signal signal) in
     (direction = "BUY" ->
      buySignals (categorize env signal b) = buySignals b ++ [signal]
      /\ sellSignals (categorize env signal b) = sellSignals b
      /\ holdSignals (categorize env signal b) = holdSignals b)
     /\ (direction = "SELL" ->
         buySignals (categorize env signal b) = buySignals b
         /\ sellSignals (categorize env signal b) = sellSignals b ++ [signal]
         /\ holdSignals (categorize env signal b) = holdSignals b)
     /\ (direction <> "BUY" -> direction <> "SELL" ->
         buySignals (categorize env signal b) = buySignals b
         /\ sellSignals (categorize env signal b) = sellSignals b
         /\ holdSignals (categorize env signal b) = holdSignals b ++ [signal])
     /\ failedSignals (categorize env signal b) = failedSignals b)
  /\ (forall (st st' : State) (summary : SignalSummary),
        completed env st summary st' ->
        Forall (fun s => ToUpper env (Signal s) = "BUY") (BuySignals summary)
        /\ Forall (fun s => ToUpper env (Signal s) = "SELL")
             (SellSignals summary)
        /\ Forall (fun s => ToUpper env (Signal s) <> "BUY"
                            /\ ToUpper env (Signal s) <> "SELL")
             (HoldSignals summary))
  /\ (forall (st st_k st_s st' : State) (k : nat) (symbol : string)
             (b_k : Buckets) (signal : TradingSignal)
             (summary : SignalSummary),
        let symbols := StockSymbols (config (service st)) in
        let direction := ToUpper env (Signal signal) in
        symbols !! k = Some symbol ->
        (analyze_from env 0 (take k symbols) no_buckets (started st)
         = (Ok b_k, st_k) ->
         GenerateSignal env symbol (log_analyzing (Z.of_nat k) symbol st_k)
         = (Ok signal, st_s) ->
         GenerateAllSignals env st = (Ok summary, st') ->
         (direction = "BUY" -> signal ∈ BuySignals summary)
         /\ (direction = "SELL" -> signal ∈ SellSignals summary)
         /\ (direction <> "BUY" -> direction <> "SELL" ->
             signal ∈ HoldSignals summary))
        /\ (analyze_summary_from env 0 (take k symbols) no_buckets
              (started_summary env st) = (Ok b_k, st_k) ->
            summary_step env symbol (log_analyzing (Z.of_nat k) symbol st_k)
            = (Ok signal, st_s) ->
            GenerateAllSignalsSummary env st = (Ok summary, st') ->
            (direction = "BUY" -> signal ∈ BuySignals summary)
            /\ (direction = "SELL" -> signal ∈ SellSignals summary)
            /\ (direction <> "BUY" -> direction <> "SELL" ->
                signal ∈ HoldSignals summary))).
Proof.
  split; [|split].
  - intros signal b. apply categorize_fields.
  - intros st st' summary Hrun.
    apply completed_facts in Hrun as (_ & _ & _ & Hw & _). exact Hw.
  - intros st st_k st_s st' k symbol b_k signal summary. cbv zeta.
    intros Hk. split.
    + intros Hpre Hturn Hrun. rewrite analyze_from_batch_loop in Hpre.
      assert (signal_step env symbol (log_analyzing (Z.of_nat k) symbol st_k)
              = (Ok signal, st_s)) as Hstep
        by (unfold signal_step; rewrite Hturn; reflexivity).
      apply GenerateAllSignals_completed in Hrun as (b & st1 & Hloop & Hrep).
      rewrite analyze_from_batch_loop in Hloop.
      pose proof (report_observed env b st1) as (Hb & _).
      rewrite Hrep in Hb. simpl in Hb.
      pose proof (batch_loop_files _ _ _ _ _ _ _ _ _ _ _ Hk Hpre Hstep Hloop)
        as Hfiled.
      rewrite <- Hb in Hfiled. exact Hfiled.
    + intros Hpre Hstep Hrun. rewrite analyze_summary_from_batch_loop in Hpre.
      apply GenerateAllSignalsSummary_completed in Hrun
        as (b & st1 & Hloop & Hrep).
      rewrite analyze_summary_from_batch_loop in Hloop.
      pose proof (report_observed env b st1) as (Hb & _).
      rewrite Hrep in Hb. simpl in Hb.
      pose proof (batch_loop_files _ _ _ _ _ _ _ _ _ _ _ Hk Hpre Hstep Hloop)
        as Hfiled.
      rewrite <- Hb in Hfiled. exact Hfiled.
Qed.

End Filed.

(** ** An answer that cannot be sliced *)

(** C9, at the symbol ["G"], whose quotes arrive and whose inference
    answers with the text ["} {"]: the answer has both braces, so the guard
    of [parseSignalResponse] lets it through, and the slice
    [text[start:end+1]] is out of bounds.  The inference has failed, yet
    [GenerateSignal] returns no error: the call panics, after its one quote
    request and its one inference request. *)
Theorem inference_panic_is_not_an_error :
  let st := Scenario.state ["G"] 15 1000 in
  let run := GenerateSignal Examples.garbled_env "G" st in
  answer (FetchOHLCData Examples.garbled_env (world st) "G")
  = inr [Scenario.bar]
  /\ strings.Index "} {" "{"%char = 2
  /\ strings.LastIndex "} {" "}"%char = 0
  /\ parseSignalResponse Examples.garbled_env "} {" = Panic
  /\ fst run = Panic
  /\ (forall err, fst run <> Err err)
  /\ fetched (trace (world (snd run))) = ["G"]
  /\ inferred (trace (world (snd run))) = ["G"].
Proof.
  cbv zeta.
  assert (fst (GenerateSignal Examples.garbled_env "G"
                 (Scenario.state ["G"] 15 1000)) = Panic) as Hrun
    by (vm_compute; reflexivity).
  split; [reflexivity|]. split; [reflexivity|]. split; [reflexivity|].
  split; [reflexivity|]. split; [exact Hrun|].
  split; [intros err He; rewrite Hrun in He; discriminate|].
  split; vm_compute; reflexivity.
Qed.

(** C2, at the configured symbols ["A"], ["G"], ["C"] with the same answer
    for ["G"]: the inference of the second symbol fails, and the failure is
    not isolated.  Both variants of the run end in the panic: ["G"] is in
    no failed list, no quote is requested for ["C"], and no summary is
    built or sent (the summary variant has sent its "request received" note
    and nothing else). *)
Theorem malformed_answer_aborts_the_batch :
  let st := Examples.st_AGC in
  let bulk := GenerateAllSignals Examples.garbled_env st in
  let summary := GenerateAllSignalsSummary Examples.garbled_env st in
  StockSymbols (config (service st)) = ["A"; "G"; "C"]
  /\ fst (GenerateSignal Examples.garbled_env "G"
            (log_analyzing 1 "G" (snd Examples.before_G))) = Panic
  /\ (fst bulk = Panic
      /\ fetched (trace (world (snd bulk))) = ["A"; "G"]
      /\ delivered (trace (world (snd bulk))) = [])
  /\ (fst summary = Panic
      /\ fetched (trace (world (snd summary))) = ["A"; "G"]
      /\ delivered (trace (world (snd summary)))
         = [[RequestReceived 3 1 1000]])
  /\ (forall s st', bulk <> (Ok s, st'))
  /\ (forall s st', summary <> (Ok s, st')).
Proof.
  cbv zeta.
  assert (fst (GenerateAllSignals Examples.garbled_env Examples.st_AGC)
          = Panic) as Hbulk by (vm_compute; reflexivity).
  assert (fst (GenerateAllSignalsSummary Examples.garbled_env Examples.st_AGC)
          = Panic) as Hsum by (vm_compute; reflexivity).
  split; [reflexivity|]. split; [vm_compute; reflexivity|].
  split; [split; [exact Hbulk|split; vm_compute; reflexivity]|].
  split; [split; [exact Hsum|split; vm_compute; reflexivity]|].
  split; intros s st' H; [rewrite H in Hbulk|rewrite H in Hsum];
    discriminate.
Qed.

(** ** The cooldown cache and the orchestration *)

Section Frame.

Variable env : Env.
Variable c : gmap string time.Time.

Lemma GenerateSignal_frame (symbol : string) (st : State) :
  GenerateSignal env symbol (set_signalCache c st)
  = (fst (GenerateSignal env symbol st),
     set_signalCache c (snd (GenerateSignal env symbol st))).
Proof.
  unfold GenerateSignal, yahoo_FetchOHLCData. simpl.
  repeat case_match; simplify_eq; reflexivity.
Qed.

Lemma signal_step_frame (symbol : string) (st : State) :
  signal_step env symbol (set_signalCache c st)
  = (fst (signal_step env symbol st),
     set_signalCache c (snd (signal_step env symbol st))).
Proof.
  unfold signal_step. rewrite GenerateSignal_frame.
  destruct (GenerateSignal env symbol st) as [[signal|err|] st1]; reflexivity.
Qed.

Lemma summary_step_frame (symbol : string) (st : State) :
  summary_step env symbol (set_signalCache c st)
  = (fst (summary_step env symbol st),
     set_signalCache c (snd (summary_step env symbol st))).
Proof.
  unfold summary_step, yahoo_FetchOHLCData. simpl.
  repeat case_match; simplify_eq; reflexivity.
Qed.

Lemma pause_unless_last_frame (i : Z) (st : State) :
  pause_unless_last i (set_signalCache c st)
  = set_signalCache c (pause_unless_last i st).
Proof. unfold pause_unless_last. simpl. case_match; reflexivity. Qed.

Lemma batch_loop_frame
  (step : string -> State -> result TradingSignal * State)
  (Hframe : forall symbol st,
      step symbol (set_signalCache c st)
      = (fst (step symbol st), set_signalCache c (snd (step symbol st))))
  (symbols : list string) :
  forall i b st,
    batch_loop env step i symbols b (set_signalCache c st)
    = (fst (batch_loop env step i symbols b st),
       set_signalCache c (snd (batch_loop env step i symbols b st))).
Proof.
  induction symbols as [|symbol rest IH]; intros i b st; simpl; [reflexivity|].
  change (log_analyzing i symbol (set_signalCache c st))
    with (set_signalCache c (log_analyzing i symbol st)).
  rewrite Hframe.
  destruct (step symbol (log_analyzing i symbol st)) as [[signal|err|] st1];
    simpl; auto.
  rewrite pause_unless_last_frame. apply IH.
Qed.

Lemma report_frame (b : Buckets) (st : State) :
  report env b (set_signalCache c st)
  = (fst (report env b st), set_signalCache c (snd (report env b st))).
Proof.
  unfold report, SendSignalSummary, sendMessage, sendMessageToChat. simpl.
  repeat case_match; simplify_eq; reflexivity.
Qed.

Lemma started_summary_frame (st : State) :
  started_summary env (set_signalCache c st)
  = set_signalCache c (started_summary env st).
Proof.
  unfold started_summary, SendRequestReceivedMessage, sendMessage,
    sendMessageToChat. simpl.
  repeat case_match; simplify_eq; reflexivity.
Qed.

Lemma GenerateAllSignals_unfold (st : State) :
  GenerateAllSignals env st
  = match
      batch_loop env (signal_step env) 0 (StockSymbols (config (service st)))
        no_buckets (started st)
    with
    | (Ok b, st1) => (Ok (fst (report env b st1)), snd (report env b st1))
    | (Err err, st1) => (Err err, st1)
    | (Panic, st1) => (Panic, st1)
    end.
Proof.
  unfold GenerateAllSignals. rewrite <- analyze_from_batch_loop.
  unfold started. simpl.
  destruct (analyze_from env 0 _ no_buckets _) as [[b|e|] st1]; auto;
    destruct (report env b st1); reflexivity.
Qed.

Lemma GenerateAllSignalsSummary_unfold (st : State) :
  GenerateAllSignalsSummary env st
  = match
      batch_loop env (summary_step env) 0 (StockSymbols (config (service st)))
        no_buckets (started_summary env st)
    with
    | (Ok b, st1) => (Ok (fst (report env b st1)), snd (report env b st1))
    | (Err err, st1) => (Err err, st1)
    | (Panic, st1) => (Panic, st1)
    end.
Proof.
  unfold GenerateAllSignalsSummary. rewrite <- analyze_summary_from_batch_loop.
  unfold started_summary.
  destruct (SendRequestReceivedMessage env _ _ _) as [sent w]. simpl.
  destruct sent; simpl.
  all: match goal with
       | |- context [analyze_summary_from env 0 ?l no_buckets ?s] =>
           destruct (analyze_summary_from env 0 l no_buckets s)
             as [[b|e'|] st1]; auto;
           destruct (report env b st1); reflexivity
       end.
Qed.

Lemma GenerateAllSignals_service (st : State) :
  service (snd (GenerateAllSignals env st)) = service st.
Proof.
  rewrite GenerateAllSignals_unfold.
  pose proof (batch_loop_service env _ (signal_step_analysis env)
                (StockSymbols (config (service st))) 0 no_buckets (started st))
    as Hs.
  destruct (batch_loop env _ 0 _ no_buckets (started st)) as [[b|e|] st1];
    cbn [fst snd] in *; auto.
  destruct (report_observed env b st1) as (_ & _ & Hr & _).
  rewrite Hr. exact Hs.
Qed.

Lemma GenerateAllSignalsSummary_service (st : State) :
  service (snd (GenerateAllSignalsSummary env st)) = service st.
Proof.
  rewrite GenerateAllSignalsSummary_unfold.
  pose proof (batch_loop_service env _ (summary_step_analysis env)
                (StockSymbols (config (service st))) 0 no_buckets
                (started_summary env st)) as Hs.
  destruct (started_summary_observed env st) as (Hst & _).
  rewrite Hst in Hs.
  destruct (batch_loop env _ 0 _ no_buckets (started_summary env st))
    as [[b|e|] st1]; cbn [fst snd] in *; auto.
  destruct (report_observed env b st1) as (_ & _ & Hr & _).
  rewrite Hr. exact Hs.
Qed.

(** C10. The orchestration neither writes nor reads the cooldown cache:
    after [GenerateSignal], [GenerateAllSignals] and
    [GenerateAllSignalsSummary] the cache is the one they started with, and
    started with any other cache they return the same result and leave the
    same world behind. *)
Theorem orchestration_ignores_cooldown_cache (symbol : string) (st : State) :
  (signalCache (service (snd (GenerateSignal env symbol st)))
   = signalCache (service st)
   /\ GenerateSignal env symbol (set_signalCache c st)
      = (fst (GenerateSignal env symbol st),
         set_signalCache c (snd (GenerateSignal env symbol st))))
  /\ (signalCache (service (snd (GenerateAllSignals env st)))
      = signalCache (service st)
      /\ GenerateAllSignals env (set_signalCache c st)
         = (fst (GenerateAllSignals env st),
            set_signalCache c (snd (GenerateAllSignals env st))))
  /\ (signalCache (service (snd (GenerateAllSignalsSummary env st)))
      = signalCache (service st)
      /\ GenerateAllSignalsSummary env (set_signalCache c st)
         = (fst (GenerateAllSignalsSummary env st),
            set_signalCache c (snd (GenerateAllSignalsSummary env st)))).
Proof.
  split; [|split]; split.
  - rewrite GenerateSignal_service. reflexivity.
  - apply GenerateSignal_frame.
  - rewrite GenerateAllSignals_service. reflexivity.
  - rewrite !GenerateAllSignals_unfold.
    change (started (set_signalCache c st))
      with (set_signalCache c (started st)).
    change (StockSymbols (config (service (set_signalCache c st))))
      with (StockSymbols (config (service st))).
    rewrite (batch_loop_frame _ signal_step_frame).
    destruct (batch_loop env _ 0 _ no_buckets (started st)) as [[b|e|] st1];
      cbn [fst snd]; auto.
    rewrite report_frame. reflexivity.
  - rewrite GenerateAllSignalsSummary_service. reflexivity.
  - rewrite !GenerateAllSignalsSummary_unfold.
    rewrite started_summary_frame.
    change (StockSymbols (config (service (set_signalCache c st))))
      with (StockSymbols (config (service st))).
    rewrite (batch_loop_frame _ summary_step_frame).
    destruct (batch_loop env _ 0 _ no_buckets (started_summary env st))
      as [[b|e|] st1]; cbn [fst snd]; auto.
    rewrite report_frame. reflexivity.
Qed.

End Frame.

(** ** The cooldown cache *)

Section Cooldown.

Lemma wrap64_range (z : Z) :
  time.minDuration <= time.wrap64 z <= time.maxDuration.
Proof.
  unfold time.wrap64, time.minDuration, time.maxDuration.
  pose proof (Z.mod_pos_bound (z + 2 ^ 63) (2 ^ 64) ltac:(lia)). lia.
Qed.

Lemma cooldown_minutes_exact (m : Z) :
  0 < m <= 153722867 ->
  time.mul m time.Minute = m * 60000000000 /\ 0 < time.mul m time.Minute.
Proof.
  intros Hm. unfold time.mul, time.wrap64, time.Minute, time.Second.
  replace (60 * 1000000000) with 60000000000 by reflexivity.
  rewrite Z.mod_small by lia. lia.
Qed.

Lemma Sub_self (t : time.Time) : time.Sub t t = 0.
Proof.
  unfold time.Sub, time.minDuration, time.maxDuration.
  rewrite Z.sub_diag. reflexivity.
Qed.

Lemma Sub_at_least (t u : time.Time) (d : time.Duration) :
  d <= time.maxDuration -> d <= t - u -> d <= time.Sub t u.
Proof.
  unfold time.Sub, time.minDuration, time.maxDuration.
  intros Hd Hdiff. repeat case_match; lia.
Qed.

(** C7. With [W] the cooldown window the cache compares against:
    [canGenerateSignal] holds exactly when no instant is recorded for the
    symbol or at least [W] has passed since the recorded one;
    [updateSignalCache] writes the current instant over the symbol's entry;
    and for [0 < W] and an empty cache, [canGenerateSignal] holds before any
    update, fails right after one, and holds again in every world whose
    clock is at least [W] past the recorded instant. *)
Theorem cooldown_contract (symbol : string) (st : State) :
  let W := cooldownDuration st in
  (canGenerateSignal symbol st = true <->
   signalCache (service st) !! symbol = None
   \/ exists last, signalCache (service st) !! symbol = Some last
                   /\ W <= time_Since (world st) last)
  /\ signalCache (service (updateSignalCache symbol st))
     = <[symbol := time_Now (world st)]> (signalCache (service st))
  /\ (0 < W -> signalCache (service st) = ∅ ->
      canGenerateSignal symbol st = true
      /\ canGenerateSignal symbol (updateSignalCache symbol st) = false
      /\ forall w' : World,
           clock (world st) + W <= clock w' ->
           canGenerateSignal symbol (set_world w' (updateSignalCache symbol st))
           = true).
Proof.
  cbv zeta. unfold cooldownDuration. split; [|split].
  - unfold canGenerateSignal.
    destruct (signalCache (service st) !! symbol) as [last|] eqn:Hc.
    + rewrite Z.leb_le. split.
      * intros H. right. exists last. auto.
      * intros [H|(l & Hl & H)]; [discriminate|]. simplify_eq. exact H.
    + split; auto.
  - reflexivity.
  - intros HW Hempty. unfold canGenerateSignal, updateSignalCache. simpl.
    rewrite Hempty, lookup_empty, lookup_insert_eq.
    split; [reflexivity|]. split.
    + apply Z.leb_gt. unfold time_Since, time_Now. rewrite Sub_self. exact HW.
    + intros w' Hw'. apply Z.leb_le. unfold time_Since, time_Now.
      apply Sub_at_least; [apply wrap64_range|lia].
Qed.

End Cooldown.

(** ** The cron scheduler *)

Section Scheduler.

Variable ParseStandard : string -> error + (time.Time -> time.Time).

Lemma add_schedule_time_entries (t : string) (c : Cron) (w : World) :
  map Spec (entries (fst (add_schedule_time ParseStandard t (c, w))))
  = map Spec (entries c) ++ registered_by ParseStandard t.
Proof.
  unfold add_schedule_time, registered_by, cron_spec_of, accepted,
    cron_AddFunc.
  destruct (String.eqb (strings.TrimSpace t) "");
    [simpl; rewrite app_nil_r; reflexivity|].
  destruct (strings.Split (strings.TrimSpace t) ":"%char)
    as [|hour [|minute [|x parts]]].
  - simpl. rewrite app_nil_r. reflexivity.
  - simpl. rewrite app_nil_r. reflexivity.
  - simpl. destruct (ParseStandard (cronExpr minute hour)); simpl.
    + rewrite app_nil_r. reflexivity.
    + rewrite map_app. reflexivity.
  - assert ((len (hour :: minute :: x :: parts) =? 2) = false) as ->.
    { apply Z.eqb_neq. unfold len. simpl length. lia. }
    simpl. rewrite app_nil_r. reflexivity.
Qed.

Lemma add_schedule_time_logged (t : string) (c : Cron) (w : World) :
  let w' := snd (add_schedule_time ParseStandard t (c, w)) in
  (forall l, l ∈ logged (trace w) -> l ∈ logged (trace w'))
  /\ (strings.TrimSpace t <> "" ->
      len (strings.Split (strings.TrimSpace t) ":"%char) <> 2 ->
      invalid_time_format t ∈ logged (trace w')).
Proof.
  cbv zeta. unfold add_schedule_time, cron_AddFunc, invalid_time_format.
  destruct (String.eqb_spec (strings.TrimSpace t) "") as [Hb|Hb]; simpl.
  - split; [auto|]. intros H. contradiction.
  - destruct (len (strings.Split (strings.TrimSpace t) ":"%char) =? 2) eqn:Hl;
      simpl.
    + apply Z.eqb_eq in Hl. split; [|intros _ H; contradiction].
      intros l Hin. destruct (ParseStandard _); simpl; unfold_world; observe;
        rewrite ?elem_of_app; auto.
    + split.
      * intros l Hin. unfold_world. observe. rewrite elem_of_app. auto.
      * intros _ _. unfold_world. observe. rewrite elem_of_app. right.
        apply list_elem_of_singleton. reflexivity.
Qed.

Lemma schedule_loop_entries (times : list string) :
  forall c w,
    map Spec (entries (fst (fold_left
                              (fun s t => add_schedule_time ParseStandard t s)
                              times (c, w))))
    = map Spec (entries c)
      ++ List.filter (accepted ParseStandard) (omap cron_spec_of times).
Proof.
  induction times as [|t times IH]; intros c w.
  - simpl. rewrite app_nil_r. reflexivity.
  - cbn [fold_left omap list_omap].
    destruct (add_schedule_time ParseStandard t (c, w)) as [c1 w1] eqn:Ht.
    rewrite IH.
    pose proof (add_schedule_time_entries t c w) as He.
    rewrite Ht in He. simpl in He. rewrite He, <- app_assoc. f_equal.
    unfold registered_by.
    destruct (cron_spec_of t) as [expr|]; simpl; [|reflexivity].
    destruct (accepted ParseStandard expr); reflexivity.
Qed.

Lemma schedule_loop_logged (times : list string) :
  forall c w,
    let w' := snd (fold_left (fun s t => add_schedule_time ParseStandard t s)
                     times (c, w)) in
    (forall l, l ∈ logged (trace w) -> l ∈ logged (trace w'))
    /\ (forall t, t ∈ times ->
          strings.TrimSpace t <> "" ->
          len (strings.Split (strings.TrimSpace t) ":"%char) <> 2 ->
          invalid_time_format t ∈ logged (trace w')).
Proof.
  induction times as [|t times IH]; intros c w.
  - simpl. split; [auto|]. intros t Hin. apply elem_of_nil in Hin.
    contradiction.
  - cbn [fold_left]. cbv zeta.
    destruct (add_schedule_time ParseStandard t (c, w)) as [c1 w1] eqn:Ht.
    pose proof (add_schedule_time_logged t c w) as [Hkeep Hdiag].
    rewrite Ht in Hkeep, Hdiag. simpl in Hkeep, Hdiag.
    destruct (IH c1 w1) as [Hkeep' Hdiag']. split.
    + intros l Hl. apply Hkeep', Hkeep, Hl.
    + intros t' Hin Hb Hl. apply elem_of_cons in Hin as [->|Hin].
      * apply Hkeep', Hdiag; assumption.
      * apply Hdiag'; assumption.
Qed.

Lemma cron_Start_specs (now : time.Time) (c : Cron) :
  map Spec (entries (cron_Start now c)) = map Spec (entries c).
Proof.
  unfold cron_Start. destruct (running c); simpl; [reflexivity|].
  rewrite map_map. reflexivity.
Qed.

Lemma add_schedule_time_lines (t : string) (c : Cron) (w : World) :
  logged (trace (snd (add_schedule_time ParseStandard t (c, w))))
  = logged (trace w) ++ schedule_lines ParseStandard t.
Proof.
  unfold add_schedule_time, schedule_lines, cron_AddFunc, invalid_time_format.
  destruct (String.eqb (strings.TrimSpace t) "");
    [simpl; rewrite app_nil_r; reflexivity|].
  destruct (strings.Split (strings.TrimSpace t) ":"%char)
    as [|hour [|minute [|x parts]]].
  - simpl. unfold_world. observe. reflexivity.
  - simpl. unfold_world. observe. reflexivity.
  - simpl. destruct (ParseStandard (cronExpr minute hour)); simpl;
      unfold_world; observe; rewrite <- ?app_assoc; reflexivity.
  - assert ((len (hour :: minute :: x :: parts) =? 2) = false) as ->.
    { apply Z.eqb_neq. unfold len. simpl length. lia. }
    simpl. unfold_world. observe. reflexivity.
Qed.

Lemma schedule_loop_lines (times : list string) :
  forall c w,
    logged (trace (snd (fold_left
                          (fun s t => add_schedule_time ParseStandard t s)
                          times (c, w))))
    = logged (trace w) ++ concat (map (schedule_lines ParseStandard) times).
Proof.
  induction times as [|t times IH]; intros c w.
  - simpl. rewrite app_nil_r. reflexivity.
  - cbn [fold_left map concat].
    pose proof (add_schedule_time_lines t c w) as Ht.
    destruct (add_schedule_time ParseStandard t (c, w)) as [c1 w1].
    rewrite IH. simpl in Ht. rewrite Ht, <- app_assoc. reflexivity.
Qed.

(** C8, as the code has it.  [Start] never fails.  After it, the
    registered expressions are those registered before followed, in order,
    by ["MM HH * * *"] for every configured time that, once trimmed, is not
    blank, splits on [":"] into exactly two fields [HH] and [MM], and whose
    expression the cron library accepts.  What [Start] writes to the log is
    its two opening lines, the lines of the configured times in order, and
    its closing line with the number of jobs.  A blank time registers
    nothing and has no line at all; a time that is not blank and does not
    split into exactly two fields registers nothing and has one line, the
    diagnostic, which is therefore in the log.  For the times ["08:30"],
    ["bad"], ["14:45"] and a library that accepts ["30 08 * * *"] and
    ["45 14 * * *"], a new scheduler has two active jobs after [Start]. *)
Theorem scheduler_registers_valid_times (cs : CronScheduler) (w : World) :
  let cs' := snd (fst (Start ParseStandard cs w)) in
  let w' := snd (Start ParseStandard cs w) in
  fst (fst (Start ParseStandard cs w)) = None
  /\ map Spec (cron_Entries (cron cs'))
     = map Spec (cron_Entries (cron cs))
       ++ List.filter (accepted ParseStandard)
            (omap cron_spec_of (scheduleTimes cs))
  /\ logged (trace w')
     = logged (trace w)
       ++ start_lines (scheduleTimes cs)
       ++ concat (map (schedule_lines ParseStandard) (scheduleTimes cs))
       ++ [started_line (len (cron_Entries (cron cs')))]
  /\ (forall t, strings.TrimSpace t = "" ->
        cron_spec_of t = None /\ schedule_lines ParseStandard t = [])
  /\ (forall t, strings.TrimSpace t <> "" ->
        len (strings.Split (strings.TrimSpace t) ":"%char) <> 2 ->
        cron_spec_of t = None
        /\ schedule_lines ParseStandard t = [invalid_time_format t])
  /\ (forall t, t ∈ scheduleTimes cs ->
        strings.TrimSpace t <> "" ->
        len (strings.Split (strings.TrimSpace t) ":"%char) <> 2 ->
        invalid_time_format t ∈ logged (trace w'))
  /\ (forall wib_loaded : bool,
        accepted ParseStandard "30 08 * * *" = true ->
        accepted ParseStandard "45 14 * * *" = true ->
        active_jobs
          (GetScheduleInfo
             (snd (fst (Start ParseStandard
                          (NewCronScheduler wib_loaded ["08:30"; "bad"; "14:45"])
                          w))))
        = 2).
Proof.
  assert (forall cs0 w0,
             map Spec (cron_Entries (cron (snd (fst (Start ParseStandard cs0 w0)))))
             = map Spec (cron_Entries (cron cs0))
               ++ List.filter (accepted ParseStandard)
                    (omap cron_spec_of (scheduleTimes cs0))) as Hspecs.
  { intros cs0 w0. unfold Start, cron_Entries.
    match goal with
    | |- context [fold_left ?f ?l ?s] =>
        pose proof (schedule_loop_entries (scheduleTimes cs0) (cron cs0)
                      (snd s)) as He;
        destruct (fold_left f l s) as [c1 w1] eqn:Hfold
    end.
    simpl in He. rewrite Hfold in He. simpl in *.
    rewrite cron_Start_specs. exact He. }
  cbv zeta. split; [|split; [|split; [|split; [|split; [|split]]]]].
  - unfold Start. destruct (fold_left _ _ _). reflexivity.
  - apply Hspecs.
  - unfold Start, start_lines, started_line.
    match goal with
    | |- context [fold_left ?f ?l ?s] =>
        pose proof (schedule_loop_lines (scheduleTimes cs) (cron cs) (snd s))
          as Hl;
        destruct (fold_left f l s) as [c1 w1] eqn:Hfold
    end.
    simpl in Hl. rewrite Hfold in Hl. simpl in *.
    unfold_world. observe. rewrite Hl. unfold_world. observe.
    rewrite <- ?app_assoc. reflexivity.
  - intros t Hb. unfold cron_spec_of, schedule_lines. rewrite Hb.
    split; reflexivity.
  - intros t Hb Hl. unfold cron_spec_of, schedule_lines.
    destruct (String.eqb_spec (strings.TrimSpace t) ""); [contradiction|].
    destruct (strings.Split (strings.TrimSpace t) ":"%char)
      as [|hour [|minute [|x parts]]]; try (split; reflexivity).
    exfalso. apply Hl. reflexivity.
  - intros t Hin Hb Hl. unfold Start.
    match goal with
    | |- context [fold_left ?f ?l ?s] =>
        pose proof (schedule_loop_logged (scheduleTimes cs) (cron cs) (snd s))
          as [_ Hdiag];
        destruct (fold_left f l s) as [c1 w1] eqn:Hfold
    end.
    simpl in Hdiag. rewrite Hfold in Hdiag. simpl in *.
    unfold_world. observe. rewrite elem_of_app. left.
    apply Hdiag; assumption.
  - intros wib_loaded H1 H2. unfold GetScheduleInfo, active_jobs, len.
    rewrite <- (length_map Spec), Hspecs.
    change (omap cron_spec_of
              (scheduleTimes (NewCronScheduler wib_loaded ["08:30"; "bad"; "14:45"])))
      with ["30 08 * * *"; "45 14 * * *"].
    simpl. rewrite H1, H2. reflexivity.
Qed.

End Scheduler.

(** ** Risk and reward in the texts *)

Section RiskReward.

(** For a BUY or a SELL with positive risk and reward the three numbers are
    the ones the specification gives. *)
Lemma calculateRiskRewardRatio_levels (signal : TradingSignal) :
  let buy_risk := (BuyPrice signal - StopLoss signal)%float in
  let buy_reward := (TargetPrice signal - BuyPrice signal)%float in
  let sell_risk := (StopLoss signal - BuyPrice signal)%float in
  let sell_reward := (BuyPrice signal - TargetPrice signal)%float in
  (Signal signal = "BUY" ->
   (buy_risk <=? 0)%float = false -> (buy_reward <=? 0)%float = false ->
   calculateRiskRewardRatio signal
   = ((buy_risk, buy_reward, (buy_reward / buy_risk)%float, None), []))
  /\ (Signal signal = "SELL" ->
      (sell_risk <=? 0)%float = false -> (sell_reward <=? 0)%float = false ->
      calculateRiskRewardRatio signal
      = ((sell_risk, sell_reward, (sell_reward / sell_risk)%float, None), [])).
Proof.
  cbv zeta. unfold calculateRiskRewardRatio. split; intros Hs Hr Hw;
    rewrite Hs; simpl; rewrite Hr, Hw; reflexivity.
Qed.

(** The error result of [calculateRiskRewardRatio] is [nil] on every
    path. *)
Lemma calculateRiskRewardRatio_nil_error (signal : TradingSignal) :
  snd (fst (calculateRiskRewardRatio signal)) = None.
Proof.
  unfold calculateRiskRewardRatio, no_ratio.
  repeat case_match; simplify_eq; reflexivity.
Qed.

(** So every text for a signal other than ["WAIT"] has the risk-reward
    block. *)
Lemma formatSignalMessage_has_ratio (env : Env) (signal : TradingSignal) :
  Signal signal <> "WAIT" ->
  existsb is_risk_reward (fst (formatSignalMessage env signal)) = true.
Proof.
  intros Hw. unfold formatSignalMessage.
  destruct (String.eqb_spec (Signal signal) "WAIT") as [E|_]; [contradiction|].
  pose proof (calculateRiskRewardRatio_nil_error signal) as Hn.
  destruct (calculateRiskRewardRatio signal) as [[[[risk reward] ratio] err] l].
  simpl in Hn. subst err. simpl.
  destruct (Analysis signal); simpl; reflexivity.
Qed.

(** C3, at a BUY whose stop (110) lies above its entry (100): the risk
    [100 - 110] is not positive, [calculateRiskRewardRatio] logs that and
    returns zeros with a [nil] error, and both the text for the signal and
    its line in the summary carry a ratio of zero. *)
Theorem incoherent_buy_still_shows_ratio :
  let s := Scenario.incoherent_buy in
  ((BuyPrice s - StopLoss s) <=? 0)%float = true
  /\ calculateRiskRewardRatio s
     = ((0%float, 0%float, 0%float, None),
        [{| format := "invalid risk calculation: risk must be positive, got %.2f";
            args := [ArgFloat (-10)%float] |}])
  /\ fst (formatSignalMessage Scenario.env s)
     = [SignalTitle "🟢" "BUY" "A";
        SignalPrices 100%float 120%float 110%float;
        RiskRewardAnalysis 0%float 0%float 0%float;
        ConfidenceAndReason 80 "breakout";
        GeneratedAtFooter 0]
  /\ fst (buy_line s)
     = BuyLine "A" 80 100%float 120%float 110%float (Some 0%float).
Proof. cbv zeta. repeat split; vm_compute; reflexivity. Qed.

End RiskReward.

(** ** What a batch run sends and how long it sleeps *)

Section Delivery.

Variable env : Env.

(** A completed run of [GenerateAllSignals] hands Telegram one text, the
    summary, whatever signals it produced. *)
Lemma GenerateAllSignals_delivers_summary_only
  (st st' : State) (summary : SignalSummary) :
  GenerateAllSignals env st = (Ok summary, st') ->
  delivered (trace (world st'))
  = delivered (trace (world st)) ++ [fst (formatSummaryMessage summary)].
Proof.
  intros Hrun.
  apply GenerateAllSignals_completed in Hrun as (b & st1 & Hloop & Hrep).
  rewrite analyze_from_batch_loop in Hloop.
  apply (batch_loop_completed env _ (signal_step_analysis env)) in Hloop
    as (_ & _ & Hd & _).
  destruct (started_observed st) as (_ & _ & Hd0).
  pose proof (report_observed env b st1) as (_ & _ & _ & _ & Hr).
  rewrite Hrep in Hr. simpl in Hr. rewrite Hr, Hd, Hd0. reflexivity.
Qed.

End Delivery.

(** C6, for the one configured symbol ["A"], whose analysis succeeds with a
    BUY.  The [/bulk] command is acknowledged with a text that announces
    the signals one by one; the run then ends with the signal for ["A"] in
    its buy bucket, and the only other text handed to Telegram is the
    summary: the signal itself is never sent. *)
Theorem bulk_run_sends_no_signal_text :
  let handled :=
    handlers.TelegramWebhook_bulk Scenario.env "42"
      (Scenario.state ["A"] 15 1000) in
  let run := (snd (fst handled), snd handled) in
  fst (fst handled) = 200
  /\ map StockSymbol (BuySignals (Scenario.summary_of run)) = ["A"]
  /\ delivered (trace (world (snd run)))
     = [[Plain handlers.bulk_started_text];
        [SummaryHeader 1 1 0 0 0 1000; BuyHeading;
         BuyLine "A" 80 1000%float 1100%float 950%float (Some 2%float);
         Rule]]
  /\ forallb (fun m => negb (is_signal_message m))
       (delivered (trace (world (snd run)))) = true.
Proof. cbv zeta. repeat split; vm_compute; reflexivity. Qed.

(** C4, for the configured symbols ["B"; "A"] where the quote for ["B"]
    fails and every call returns at once: both variants analyse ["B"], then
    ["A"], without sleeping in between, and end at the instant they
    started, which is less than [(2 - 1) * 3] seconds later. *)
Theorem no_pause_after_failed_symbol :
  let st := Scenario.state ["B"; "A"] 15 1000 in
  let bulk := GenerateAllSignals Scenario.env st in
  let summary := GenerateAllSignalsSummary Scenario.env st in
  (FailedSignals (Scenario.summary_of bulk) = ["B"]
   /\ map StockSymbol (BuySignals (Scenario.summary_of bulk)) = ["A"]
   /\ fetched (trace (world (snd bulk))) = ["B"; "A"]
   /\ slept (trace (world (snd bulk))) = []
   /\ clock (world (snd bulk)) - clock (world st) = 0)
  /\ (FailedSignals (Scenario.summary_of summary) = ["B"]
      /\ map StockSymbol (BuySignals (Scenario.summary_of summary)) = ["A"]
      /\ fetched (trace (world (snd summary))) = ["B"; "A"]
      /\ slept (trace (world (snd summary))) = []
      /\ clock (world (snd summary)) - clock (world st) = 0)
  /\ 0 < (2 - 1) * (3 * time.Second).
Proof. cbv zeta. repeat split; vm_compute; reflexivity. Qed.

(** C8, as stated, at the configured times [[" "]]: the entry does not
    split into two fields, nothing is registered, and the log has no line
    about it. *)
Lemma blank_time_skipped_without_diagnostic :
  let run :=
    Start Scenario.parse (NewCronScheduler true [" "])
      {| clock := 0; trace := [] |} in
  len (strings.Split " " ":"%char) <> 2
  /\ active_jobs (GetScheduleInfo (snd (fst run))) = 0
  /\ logged (trace (snd run))
     = [{| format := "Starting cron scheduler with WIB timezone"; args := [] |};
        {| format := "Configured execution times: %v";
           args := [ArgList [" "]] |};
        {| format := "Cron scheduler started successfully with %d jobs";
           args := [ArgInt 0] |}]
  /\ invalid_time_format " " ∉ logged (trace (snd run)).
Proof.
  cbv zeta. split; [vm_compute; congruence|]. split; [reflexivity|].
  split; [vm_compute; reflexivity|].
  intros Hin. vm_compute in Hin.
  repeat (apply elem_of_cons in Hin as [Hin|Hin]; [discriminate|]).
  apply elem_of_nil in Hin. exact Hin.
Qed.

(** ** Runs reach their end, and are paced while nothing fails *)

Section Pace.

Variable env : Env.

Lemma batch_loop_total
  (step : string -> State -> result TradingSignal * State)
  (Hsafe : forall symbol st, fst (step symbol st) <> Panic)
  (symbols : list string) :
  forall i b st, exists b' st',
    batch_loop env step i symbols b st = (Ok b', st').
Proof.
  induction symbols as [|symbol rest IH]; intros i b st; simpl; [eauto|].
  pose proof (Hsafe symbol (log_analyzing i symbol st)) as Hp.
  destruct (step symbol (log_analyzing i symbol st)) as [[signal|err|] st1];
    simpl in Hp; [apply IH|apply IH|congruence].
Qed.

Lemma signal_step_safe :
  never_panics env -> forall symbol st, fst (signal_step env symbol st) <> Panic.
Proof.
  intros Hsafe symbol st. unfold signal_step, GenerateSignal,
    yahoo_FetchOHLCData.
  destruct (answer (FetchOHLCData env _ symbol)) as [e0|bars0]; simpl;
    [discriminate|].
  destruct (len bars0 =? 0); simpl; [discriminate|].
  match goal with
  | |- context [GenerateTradingSignal env symbol bars0 ?w] =>
      pose proof (Hsafe symbol bars0 w) as Hp;
      destruct (GenerateTradingSignal env symbol bars0 w) as [[g|e|] w']
  end; simpl in *; congruence.
Qed.

Lemma summary_step_safe :
  never_panics env -> forall symbol st, fst (summary_step env symbol st) <> Panic.
Proof.
  intros Hsafe symbol st. unfold summary_step, yahoo_FetchOHLCData.
  destruct (answer (FetchOHLCData env _ symbol)) as [e0|bars0]; simpl;
    [discriminate|].
  destruct (len bars0 =? 0); simpl; [discriminate|].
  match goal with
  | |- context [GenerateTradingSignal env symbol bars0 ?w] =>
      pose proof (Hsafe symbol bars0 w) as Hp;
      destruct (GenerateTradingSignal env symbol bars0 w) as [[g|e|] w']
  end; simpl in *; congruence.
Qed.

(** X1. When the inference cannot panic, both variants of the batch run reach
    their end and build a summary. *)
Lemma batch_runs_reach_their_end (st : State) :
  never_panics env ->
  (exists summary st', GenerateAllSignals env st = (Ok summary, st'))
  /\ (exists summary st', GenerateAllSignalsSummary env st = (Ok summary, st')).
Proof.
  intros Hsafe. split.
  - rewrite GenerateAllSignals_unfold.
    destruct (batch_loop_total _ (signal_step_safe Hsafe)
                (StockSymbols (config (service st))) 0 no_buckets (started st))
      as (b & st1 & ->).
    eauto.
  - rewrite GenerateAllSignalsSummary_unfold.
    destruct (batch_loop_total _ (summary_step_safe Hsafe)
                (StockSymbols (config (service st))) 0 no_buckets
                (started_summary env st)) as (b & st1 & ->).
    eauto.
Qed.

Lemma batch_loop_failed_length
  (step : string -> State -> result TradingSignal * State)
  (symbols : list string) :
  forall i b st b' st',
    batch_loop env step i symbols b st = (Ok b', st') ->
    (length (failedSignals b) <= length (failedSignals b'))%nat.
Proof.
  induction symbols as [|symbol rest IH]; intros i b st b' st' Hrun;
    simpl in Hrun.
  - simplify_eq. lia.
  - destruct (step symbol (log_analyzing i symbol st)) as [[signal|err|] st1];
      [| |discriminate].
    + apply IH in Hrun. rewrite failed_categorize in Hrun. exact Hrun.
    + apply IH in Hrun. simpl in Hrun. rewrite length_app in Hrun.
      simpl in Hrun. lia.
Qed.

(** While no analysis fails, the loop sleeps three seconds after every
    symbol but the last. *)
Lemma batch_loop_paced
  (step : string -> State -> result TradingSignal * State)
  (Hstep : analysis step) (symbols : list string) :
  forall i b st b' st',
    batch_loop env step i symbols b st = (Ok b', st') ->
    i + len symbols = len (StockSymbols (config (service st))) ->
    length (failedSignals b') = length (failedSignals b) ->
    slept (trace (world st'))
    = slept (trace (world st))
      ++ repeat (3 * time.Second) (length symbols - 1)
    /\ clock (world st) + 3 * time.Second * Z.of_nat (length symbols - 1)
       <= clock (world st').
Proof.
  induction symbols as [|symbol rest IH]; intros i b st b' st' Hrun HN Hfail;
    simpl in Hrun.
  - simplify_eq. simpl. rewrite app_nil_r. split; [reflexivity|lia].
  - pose proof (step_slept _ Hstep symbol (log_analyzing i symbol st)) as Hs.
    pose proof (step_clock _ Hstep symbol (log_analyzing i symbol st)) as Hc.
    pose proof (step_service _ Hstep symbol (log_analyzing i symbol st)) as Hv.
    destruct (step symbol (log_analyzing i symbol st)) as [[signal|err|] st1];
      simpl in Hs, Hc, Hv; [| |discriminate].
    + assert (length (failedSignals b')
              = length (failedSignals (categorize env signal b))) as Hfail'
        by (rewrite failed_categorize; exact Hfail).
      unfold len in HN. simpl length in HN.
      destruct rest as [|next rest'].
      * simpl in Hrun. simplify_eq. unfold pause_unless_last.
        rewrite Hv. simpl.
        assert ((i <? len (StockSymbols (config (service st))) - 1) = false)
          as -> by (apply Z.ltb_ge; unfold len; simpl in HN; lia).
        simpl. rewrite app_nil_r, Hs. unfold_world. observe.
        split; [reflexivity|]. unfold_world. lia.
      * apply IH in Hrun as [Hsl Hcl]; [| |exact Hfail'].
        2:{ rewrite pause_unless_last_service, Hv. unfold len.
            simpl length in *. simpl. lia. }
        revert Hsl Hcl. unfold pause_unless_last. rewrite Hv. simpl service.
        assert ((i <? len (StockSymbols (config (service st))) - 1) = true)
          as -> by (apply Z.ltb_lt; unfold len; simpl length in HN; lia).
        unfold_world. observe. intros Hsl Hcl. split.
        -- rewrite Hsl, Hs. observe.
           replace (length rest' - 0)%nat with (length rest') by lia.
           reflexivity.
        -- replace (length rest' - 0)%nat with (length rest') in Hcl by lia.
           unfold time.Second in *. lia.
    + apply batch_loop_failed_length in Hrun. simpl in Hrun.
      rewrite length_app in Hrun. simpl in Hrun. lia.
Qed.

End Pace.

Section PacedRuns.

Variable env : Env.

Lemma started_paced (st : State) :
  slept (trace (world (started st))) = slept (trace (world st))
  /\ clock (world (started st)) = clock (world st).
Proof. unfold started. unfold_world. observe. split; [reflexivity|lia]. Qed.

Lemma started_summary_paced (st : State) :
  slept (trace (world (started_summary env st))) = slept (trace (world st))
  /\ clock (world st) <= clock (world (started_summary env st)).
Proof.
  unfold started_summary, SendRequestReceivedMessage, sendMessage,
    sendMessageToChat.
  repeat case_match; simplify_eq; unfold_world; observe; split; auto; lia.
Qed.

Lemma report_paced (b : Buckets) (st : State) :
  slept (trace (world (snd (report env b st)))) = slept (trace (world st))
  /\ clock (world st) <= clock (world (snd (report env b st))).
Proof.
  unfold report, SendSignalSummary, sendMessage, sendMessageToChat.
  repeat case_match; simplify_eq; unfold_world; observe; split; auto; lia.
Qed.

(** X2. A completed run in which no symbol failed slept three seconds between
    every two consecutive symbols, and so took at least [(N - 1) * 3]
    seconds. *)
Lemma unfailing_run_is_paced (st st' : State) (summary : SignalSummary) :
  completed env st summary st' ->
  FailedSignals summary = [] ->
  let N := length (StockSymbols (config (service st))) in
  slept (trace (world st'))
  = slept (trace (world st)) ++ repeat (3 * time.Second) (N - 1)
  /\ clock (world st) + 3 * time.Second * Z.of_nat (N - 1) <= clock (world st').
Proof.
  intros [Hrun|Hrun] Hnone; cbv zeta.
  - apply GenerateAllSignals_completed in Hrun as (b & st1 & Hloop & Hrep).
    rewrite analyze_from_batch_loop in Hloop.
    pose proof (report_observed env b st1) as (Hb & _).
    pose proof (report_paced b st1) as (Hs & Hc).
    rewrite Hrep in Hb, Hs, Hc. simpl in Hb, Hs, Hc.
    destruct (started_paced st) as (Hs0 & Hc0).
    apply (batch_loop_paced env _ (signal_step_analysis env)) in Hloop
      as (Hsl & Hcl).
    + rewrite Hs, Hsl, Hs0. split; [reflexivity|]. lia.
    + unfold len. simpl. lia.
    + rewrite <- Hb. simpl. rewrite Hnone. reflexivity.
  - apply GenerateAllSignalsSummary_completed in Hrun
      as (b & st1 & Hloop & Hrep).
    rewrite analyze_summary_from_batch_loop in Hloop.
    pose proof (report_observed env b st1) as (Hb & _).
    pose proof (report_paced b st1) as (Hs & Hc).
    rewrite Hrep in Hb, Hs, Hc. simpl in Hb, Hs, Hc.
    destruct (started_summary_paced st) as (Hs0 & Hc0).
    destruct (started_summary_observed env st) as (Hv & _).
    apply (batch_loop_paced env _ (summary_step_analysis env)) in Hloop
      as (Hsl & Hcl).
    + rewrite Hs, Hsl, Hs0. split; [reflexivity|]. lia.
    + rewrite Hv. unfold len. simpl. lia.
    + rewrite <- Hb. simpl. rewrite Hnone. reflexivity.
Qed.

(** The scenario's inference never panics, so its runs reach their end. *)
Lemma scenario_never_panics : never_panics Scenario.env.
Proof.
  intros symbol bars w. unfold GenerateTradingSignal. simpl.
  unfold Scenario.reply_text.
  repeat case_match; simplify_eq; try discriminate.
  all: match goal with
       | H : parseSignalResponse _ _ = Panic |- _ => vm_compute in H
       end; discriminate.
Qed.

End PacedRuns.

(** ** The theorems at work on the scenario *)

(** The bulk run over ["A"; "B"; "C"] reaches its end, and its summary
    accounts for the three symbols. *)
Lemma summary_accounts_for_every_symbol_witness :
  let st := Scenario.st_ABC in
  let summary := Scenario.summary_of Scenario.bulk_ABC in
  completed Scenario.env st summary (snd Scenario.bulk_ABC)
  /\ (len (BuySignals summary) + len (SellSignals summary)
      + len (HoldSignals summary) + len (FailedSignals summary)
      = TotalAnalyzed summary
      /\ TotalAnalyzed summary = len (StockSymbols (config (service st)))
      /\ map StockSymbol (BuySignals summary)
         ++ map StockSymbol (SellSignals summary)
         ++ map StockSymbol (HoldSignals summary)
         ++ FailedSignals summary ≡ₚ StockSymbols (config (service st))).
Proof.
  cbv zeta.
  assert (completed Scenario.env Scenario.st_ABC
            (Scenario.summary_of Scenario.bulk_ABC) (snd Scenario.bulk_ABC))
    as Hrun by (left; vm_compute; reflexivity).
  split; [exact Hrun|].
  exact (summary_accounts_for_every_symbol Scenario.env _ _ _ Hrun).
Defined.

(** The summary run over ["A"; "C"; "D"; "E"]: the lower-case ["sell"]
    that the analysis of ["C"] produces is in the sell bucket and in no
    other; ["WAIT"] and ["STRONG"] are held. *)
Lemma signals_filed_by_direction_witness :
  let st := Examples.st_ACDE in
  let run := GenerateAllSignalsSummary Scenario.env st in
  let summary := Scenario.summary_of run in
  let turn :=
    summary_step Scenario.env "C"
      (log_analyzing 1 "C" (snd Examples.before_C_summary)) in
  let sell := Examples.signal_of turn in
  completed Scenario.env st summary (snd run)
  /\ StockSymbols (config (service st)) !! 1%nat = Some "C"
  /\ turn = (Ok sell, snd turn)
  /\ Signal sell = "sell"
  /\ ToUpper Scenario.env (Signal sell) = "SELL"
  /\ sellSignals (categorize Scenario.env sell no_buckets) = [sell]
  /\ sell ∈ SellSignals summary
  /\ (sell ∉ BuySignals summary)
  /\ (sell ∉ HoldSignals summary)
  /\ map Signal (BuySignals summary) = ["BUY"]
  /\ map Signal (SellSignals summary) = ["sell"]
  /\ map Signal (HoldSignals summary) = ["WAIT"; "STRONG"].
Proof.
  cbv zeta.
  set (st := Examples.st_ACDE).
  set (run := GenerateAllSignalsSummary Scenario.env st).
  set (turn := summary_step Scenario.env "C"
                 (log_analyzing 1 "C" (snd Examples.before_C_summary))).
  set (sell := Examples.signal_of turn).
  destruct (signals_filed_by_direction Scenario.env) as (Hrule & Hpure & Hin).
  assert (GenerateAllSignalsSummary Scenario.env st
          = (Ok (Scenario.summary_of run), snd run)) as Hrun
    by (vm_compute; reflexivity).
  assert (StockSymbols (config (service st)) !! 1%nat = Some "C") as Hk
    by reflexivity.
  assert (turn = (Ok sell, snd turn)) as Hturn by (vm_compute; reflexivity).
  assert (ToUpper Scenario.env (Signal sell) = "SELL") as Hdir
    by (vm_compute; reflexivity).
  destruct (Hpure st (snd run) (Scenario.summary_of run) (or_intror Hrun))
    as (Pb & _ & Ph).
  destruct (Hin st (snd Examples.before_C_summary) (snd turn) (snd run) 1%nat
              "C" (Scenario.buckets_in Examples.before_C_summary) sell
              (Scenario.summary_of run) Hk) as (_ & Hsum).
  destruct (Hsum ltac:(vm_compute; reflexivity) Hturn Hrun) as (_ & Hsell & _).
  destruct (Hrule sell no_buckets) as (_ & Hs & _).
  destruct (Hs Hdir) as (_ & Hfield & _).
  split; [right; exact Hrun|]. split; [exact Hk|]. split; [exact Hturn|].
  split; [vm_compute; reflexivity|]. split; [exact Hdir|].
  split; [exact Hfield|]. split; [exact (Hsell Hdir)|].
  split; [|split; [|split; [|split]]].
  - intros Hmem. rewrite Forall_forall in Pb.
    apply Pb in Hmem. congruence.
  - intros Hmem. rewrite Forall_forall in Ph.
    apply Ph in Hmem as [_ Hmem]. congruence.
  - vm_compute. reflexivity.
  - vm_compute. reflexivity.
  - vm_compute. reflexivity.
Defined.

(** A cooldown of fifteen minutes on an empty cache. *)
Lemma cooldown_contract_witness :
  let st := Scenario.state [] 15 1000 in
  0 < cooldownDuration st
  /\ signalCache (service st) = ∅
  /\ canGenerateSignal "A" st = true
  /\ canGenerateSignal "A" (updateSignalCache "A" st) = false
  /\ forall w' : World,
       clock (world st) + cooldownDuration st <= clock w' ->
       canGenerateSignal "A" (set_world w' (updateSignalCache "A" st)) = true.
Proof.
  cbv zeta.
  assert (0 < cooldownDuration (Scenario.state [] 15 1000)) as HW
    by (vm_compute; reflexivity).
  split; [exact HW|]. split; [reflexivity|].
  destruct (cooldown_contract "A" (Scenario.state [] 15 1000)) as (_ & _ & H).
  exact (H HW eq_refl).
Defined.

(** The three configured times of the specification, with the stand-in
    parser; and a scheduler configured with a no-break space and ["bad"]. *)
Lemma scheduler_registers_valid_times_witness :
  let cs := NewCronScheduler true ["08:30"; "bad"; "14:45"] in
  let w := {| clock := 0; trace := [] |} in
  let blank := Examples.nbsp in
  accepted Scenario.parse "30 08 * * *" = true
  /\ accepted Scenario.parse "45 14 * * *" = true
  /\ "bad" ∈ scheduleTimes cs
  /\ active_jobs (GetScheduleInfo (snd (fst (Start Scenario.parse cs w)))) = 2
  /\ invalid_time_format "bad" ∈ logged (trace (snd (Start Scenario.parse cs w)))
  /\ strings.TrimSpace blank = ""
  /\ cron_spec_of blank = None
  /\ logged (trace (snd (Start Scenario.parse
                           (NewCronScheduler true [blank; "bad"]) w)))
     = start_lines [blank; "bad"]
       ++ [invalid_time_format "bad"; started_line 0].
Proof.
  cbv zeta.
  destruct (scheduler_registers_valid_times Scenario.parse
              (NewCronScheduler true ["08:30"; "bad"; "14:45"])
              {| clock := 0; trace := [] |})
    as (_ & _ & _ & _ & _ & Hdiag & Hjobs).
  destruct (scheduler_registers_valid_times Scenario.parse
              (NewCronScheduler true [Examples.nbsp; "bad"])
              {| clock := 0; trace := [] |})
    as (_ & _ & Hlog & Hblank & Hbad & _).
  assert ("bad" ∈ ["08:30"; "bad"; "14:45"]) as Hin
    by (apply elem_of_cons; right; apply elem_of_cons; left; reflexivity).
  assert (strings.TrimSpace Examples.nbsp = "") as Hb by reflexivity.
  assert (strings.TrimSpace "bad" <> "") as Hn by (vm_compute; congruence).
  assert (len (strings.Split (strings.TrimSpace "bad") ":"%char) <> 2) as Hl
    by (vm_compute; congruence).
  destruct (Hblank Examples.nbsp Hb) as [Hspec Hnone].
  destruct (Hbad "bad" Hn Hl) as [_ Hone].
  split; [reflexivity|]. split; [reflexivity|]. split; [exact Hin|].
  split; [exact (Hjobs true eq_refl eq_refl)|].
  split; [exact (Hdiag "bad" Hin Hn Hl)|].
  split; [exact Hb|]. split; [exact Hspec|].
  rewrite Hlog. cbn [map concat scheduleTimes NewCronScheduler].
  rewrite Hnone, Hone. reflexivity.
Defined.

(** ["B"] has no quote, ["F"] gets an answer without JSON, the answer for
    ["G"] has its braces the wrong way round, ["A"] gets a signal. *)
Lemma GenerateSignal_contract_witness :
  let st := Scenario.state ["A"; "B"] 15 1000 in
  let buy := Scenario.decoded "BUY" 1000%float 1100%float 950%float in
  fst (GenerateSignal Scenario.env "B" st)
  = Err (wrap_error "failed to fetch OHLC data" Scenario.fetch_error)
  /\ inferred (trace (world (snd (GenerateSignal Scenario.env "B" st)))) = []
  /\ fst (GenerateSignal Scenario.env "F" st)
     = Err (wrap_error "failed to generate AI signal"
              "failed to parse signal response: no JSON found in response")
  /\ fst (GenerateSignal Examples.garbled_env "G" st) = Panic
  /\ fst (GenerateSignal Scenario.env "A" st) = Ok (stamp buy "A" 1000)
  /\ inferred (trace (world (snd (GenerateSignal Scenario.env "A" st))))
     = ["A"]
  /\ (forall signal,
        fst (GenerateSignal Scenario.env "A" st) = Ok signal ->
        StockSymbol signal = "A"
        /\ GeneratedAt signal
           = time_Now (world (snd (GenerateSignal Scenario.env "A" st)))).
Proof.
  cbv zeta.
  destruct (GenerateSignal_contract Scenario.env "B"
              (Scenario.state ["A"; "B"] 15 1000)) as (_ & HB & _).
  destruct (GenerateSignal_contract Scenario.env "F"
              (Scenario.state ["A"; "B"] 15 1000)) as (_ & _ & _ & HF & _).
  destruct (GenerateSignal_contract Examples.garbled_env "G"
              (Scenario.state ["A"; "B"] 15 1000))
    as (_ & _ & _ & _ & HG & _).
  destruct (GenerateSignal_contract Scenario.env "A"
              (Scenario.state ["A"; "B"] 15 1000))
    as (_ & _ & _ & _ & _ & HOk & HA).
  destruct (HB Scenario.fetch_error eq_refl) as [HB1 HB2].
  destruct (HOk [Scenario.bar] _ _ [] _ "Here it is: {signal:BUY}" []
              (Scenario.decoded "BUY" 1000%float 1100%float 950%float)
              eq_refl ltac:(discriminate) eq_refl eq_refl eq_refl eq_refl
              ltac:(vm_compute; reflexivity)) as [HA1 HA2].
  split; [exact HB1|]. split; [exact HB2|]. split.
  { apply (HF [Scenario.bar]); [reflexivity|discriminate|reflexivity]. }
  split.
  { apply (HG [Scenario.bar]); [reflexivity|discriminate|].
    vm_compute. reflexivity. }
  split; [exact HA1|]. split; [exact HA2|exact HA].
Defined.

(** ["B"], the second of three symbols, fails in both variants; ["C"] is
    analysed all the same. *)
Lemma failure_is_isolated_witness :
  let st := Scenario.st_ABC in
  let symbols := StockSymbols (config (service st)) in
  symbols !! 1%nat = Some "B"
  /\ ("B" ∈ FailedSignals (Scenario.summary_of Scenario.bulk_ABC)
      /\ TotalAnalyzed (Scenario.summary_of Scenario.bulk_ABC) = len symbols
      /\ fetched (trace (world (snd Scenario.bulk_ABC)))
         = fetched (trace (world st)) ++ symbols)
  /\ ("B" ∈ FailedSignals (Scenario.summary_of Scenario.summary_run_ABC)
      /\ TotalAnalyzed (Scenario.summary_of Scenario.summary_run_ABC)
         = len symbols
      /\ fetched (trace (world (snd Scenario.summary_run_ABC)))
         = fetched (trace (world st)) ++ symbols)
  /\ (forall e, fst Scenario.bulk_ABC <> Err e)
  /\ (forall e, fst Scenario.summary_run_ABC <> Err e).
Proof.
  cbv zeta.
  assert (StockSymbols (config (service Scenario.st_ABC)) !! 1%nat = Some "B")
    as Hk by reflexivity.
  split; [exact Hk|].
  destruct (failure_is_isolated Scenario.env Scenario.st_ABC
              (snd Scenario.before_B)
              (snd (GenerateSignal Scenario.env "B"
                      (log_analyzing 1 "B" (snd Scenario.before_B))))
              1 "B" (Scenario.buckets_in Scenario.before_B)
              (wrap_error "failed to fetch OHLC data" Scenario.fetch_error) Hk)
    as [Hbulk _].
  destruct (Hbulk ltac:(vm_compute; reflexivity) ltac:(vm_compute; reflexivity))
    as (_ & Hnever & Hend).
  destruct (failure_is_isolated Scenario.env Scenario.st_ABC
              (snd Scenario.before_B_summary)
              (snd (summary_step Scenario.env "B"
                      (log_analyzing 1 "B" (snd Scenario.before_B_summary))))
              1 "B" (Scenario.buckets_in Scenario.before_B_summary)
              Scenario.fetch_error Hk)
    as [_ Hsum].
  destruct (Hsum ltac:(vm_compute; reflexivity) ltac:(vm_compute; reflexivity))
    as (_ & Hnever' & Hend').
  split; [|split; [|split]].
  - apply (Hend _ (snd Scenario.bulk_ABC)). vm_compute. reflexivity.
  - apply (Hend' _ (snd Scenario.summary_run_ABC)). vm_compute. reflexivity.
  - exact Hnever.
  - exact Hnever'.
Defined.

(** * Further properties *)

(** ** The parse of the inference's answer *)

Lemma Index_absent (s : string) (c : ascii) :
  occurs c s = false -> strings.Index s c = -1.
Proof.
  induction s as [|d r IH]; simpl; [reflexivity|].
  intros H. apply orb_false_iff in H as [Hd Hr].
  rewrite Hd, (IH Hr). reflexivity.
Qed.

Lemma Index_range (s : string) (c : ascii) :
  occurs c s = true ->
  0 <= strings.Index s c < Z.of_nat (String.length s).
Proof.
  induction s as [|d r IH]; simpl; [discriminate|].
  destruct (Ascii.eqb d c); simpl; [lia|].
  intros H. specialize (IH H).
  destruct (strings.Index r c <? 0) eqn:E; [apply Z.ltb_lt in E; lia|].
  lia.
Qed.

Lemma Index_app (pre rest : string) (c : ascii) :
  occurs c pre = false ->
  strings.Index (String.append pre (String c rest)) c
  = Z.of_nat (String.length pre).
Proof.
  induction pre as [|d r IH]; simpl.
  - rewrite Ascii.eqb_refl. reflexivity.
  - intros H. apply orb_false_iff in H as [Hd Hr]. rewrite Hd, (IH Hr).
    destruct (Z.of_nat (String.length r) <? 0) eqn:E;
      [apply Z.ltb_lt in E; lia|]. lia.
Qed.

Lemma last_index_from_absent (s : string) (c : ascii) :
  forall pos found,
    occurs c s = false -> strings.last_index_from s c pos found = found.
Proof.
  induction s as [|d r IH]; intros pos found; simpl; [reflexivity|].
  intros H. apply orb_false_iff in H as [Hd Hr]. rewrite Hd. apply IH, Hr.
Qed.

Lemma last_index_from_app (x post : string) (c : ascii) :
  forall pos found,
    occurs c post = false ->
    strings.last_index_from (String.append x (String c post)) c pos found
    = pos + Z.of_nat (String.length x).
Proof.
  induction x as [|d r IH]; intros pos found Hp; simpl.
  - rewrite Ascii.eqb_refl, last_index_from_absent by assumption. lia.
  - rewrite IH by assumption. lia.
Qed.

Lemma last_index_from_range (s : string) (c : ascii) :
  forall pos found,
    found < pos ->
    (occurs c s = false /\ strings.last_index_from s c pos found = found)
    \/ (occurs c s = true
        /\ pos <= strings.last_index_from s c pos found
           < pos + Z.of_nat (String.length s)).
Proof.
  induction s as [|d r IH]; intros pos found Hf; simpl; [left; auto|].
  destruct (Ascii.eqb d c) eqn:E; simpl.
  - right. split; [reflexivity|].
    destruct (IH (pos + 1) pos ltac:(lia)) as [[_ ->]|[_ H]]; lia.
  - destruct (IH (pos + 1) found ltac:(lia)) as [[H1 H2]|[H1 H2]].
    + left. auto.
    + right. split; [assumption|lia].
Qed.

Lemma substring_prefix (mid post : string) :
  String.substring 0 (String.length mid) (String.append mid post) = mid.
Proof.
  induction mid as [|e m IHm]; simpl.
  - destruct post; reflexivity.
  - rewrite IHm. reflexivity.
Qed.

Lemma substring_middle (pre mid post : string) :
  String.substring (String.length pre) (String.length mid)
    (String.append pre (String.append mid post)) = mid.
Proof.
  induction pre as [|d r IH]; [exact (substring_prefix mid post)|simpl; exact IH].
Qed.

Lemma substring_length (s : string) :
  forall n m,
    (n + m <= String.length s)%nat ->
    String.length (String.substring n m s) = m.
Proof.
  induction s as [|c r IH]; intros n m H; simpl in H.
  - assert (n = 0 /\ m = 0)%nat as [-> ->] by lia. reflexivity.
  - destruct n as [|n]; simpl.
    + destruct m as [|m]; simpl; [reflexivity|]. rewrite IH by lia. reflexivity.
    + apply IH. lia.
Qed.

Lemma length_append (a b : string) :
  String.length (String.append a b) = (String.length a + String.length b)%nat.
Proof. induction a; simpl; auto. Qed.

Lemma string_append_assoc (a b c : string) :
  String.append (String.append a b) c = String.append a (String.append b c).
Proof.
  induction a as [|x a IH]; [reflexivity|].
  change (String x (String.append (String.append a b) c)
          = String x (String.append a (String.append b c))).
  rewrite IH. reflexivity.
Qed.

Section Parse.

Variable env : Env.

(** X3. The text between the first opening brace and the last closing brace is
    what gets decoded, whatever surrounds it. *)
Theorem parseSignalResponse_extracts (pre body post : string) :
  occurs "{"%char pre = false ->
  occurs "}"%char post = false ->
  let json := String "{"%char (String.append body (String "}"%char "")) in
  parseSignalResponse env
    (String.append pre (String.append json post))
  = match json_Unmarshal env json with
    | inl err => Err (wrap_error "failed to unmarshal signal JSON" err)
    | inr signal => Ok signal
    end.
Proof.
  intros Hpre Hpost. cbv zeta. unfold parseSignalResponse.
  set (json := String "{"%char (String.append body (String "}"%char ""))).
  assert (strings.Index (String.append pre (String.append json post)) "{"%char
          = Z.of_nat (String.length pre)) as ->.
  { unfold json. simpl String.append. apply Index_app, Hpre. }
  assert (strings.LastIndex (String.append pre (String.append json post))
            "}"%char
          = Z.of_nat (String.length pre) + Z.of_nat (String.length json) - 1)
    as ->.
  { unfold strings.LastIndex.
    replace (String.append pre (String.append json post))
      with (String.append (String.append pre (String "{"%char body))
              (String "}"%char post)).
    - rewrite last_index_from_app by assumption.
      unfold json. rewrite !length_append. simpl String.length.
      rewrite length_append. simpl. lia.
    - unfold json. rewrite string_append_assoc.
      change (String.append (String "{"%char body) (String "}"%char post))
        with (String "{"%char (String.append body (String "}"%char post))).
      change (String.append
                (String "{"%char (String.append body (String "}"%char "")))
                post)
        with (String "{"%char
                (String.append (String.append body (String "}"%char "")) post)).
      rewrite string_append_assoc. reflexivity. }
  assert (0 < Z.of_nat (String.length json)) as Hj by (unfold json; simpl; lia).
  replace ((Z.of_nat (String.length pre) =? -1)
           || (Z.of_nat (String.length pre) + Z.of_nat (String.length json) - 1
               =? -1)) with false.
  2:{ symmetry. apply orb_false_iff. split; apply Z.eqb_neq; lia. }
  unfold strings.slice.
  replace (Z.of_nat (String.length pre) + Z.of_nat (String.length json) - 1 + 1)
    with (Z.of_nat (String.length pre) + Z.of_nat (String.length json)) by lia.
  rewrite !length_append.
  replace ((0 <=? Z.of_nat (String.length pre))
           && (Z.of_nat (String.length pre)
               <=? Z.of_nat (String.length pre) + Z.of_nat (String.length json))
           && (Z.of_nat (String.length pre) + Z.of_nat (String.length json)
               <=? Z.of_nat (String.length pre
                             + (String.length json + String.length post))))
    with true.
  2:{ symmetry. rewrite !andb_true_iff, !Z.leb_le. lia. }
  rewrite Nat2Z.id.
  replace (Z.to_nat (Z.of_nat (String.length pre)
                     + Z.of_nat (String.length json)
                     - Z.of_nat (String.length pre)))
    with (String.length json) by lia.
  rewrite substring_middle. reflexivity.
Qed.

(** X4. The three ways the parse can end without a signal that do not come from
    the decoder: no brace of one kind gives the "no JSON" error; a last
    closing brace more than one byte before the first opening brace makes
    the slice expression panic; in every other case the decoder decides. *)
Theorem parseSignalResponse_outcomes (text : string) :
  let start := strings.Index text "{"%char in
  let end_ := strings.LastIndex text "}"%char in
  (occurs "{"%char text = false \/ occurs "}"%char text = false ->
   parseSignalResponse env text = Err "no JSON found in response")
  /\ (occurs "{"%char text = true -> occurs "}"%char text = true ->
      (end_ + 1 < start -> parseSignalResponse env text = Panic)
      /\ (start <= end_ + 1 ->
          exists json,
            strings.slice text start (end_ + 1) = Some json
            /\ String.length json = Z.to_nat (end_ + 1 - start)
            /\ parseSignalResponse env text
               = match json_Unmarshal env json with
                 | inl err =>
                     Err (wrap_error "failed to unmarshal signal JSON" err)
                 | inr signal => Ok signal
                 end)).
Proof.
  cbv zeta. unfold parseSignalResponse. split.
  - intros [H|H].
    + rewrite (Index_absent _ _ H). reflexivity.
    + unfold strings.LastIndex.
      rewrite (last_index_from_absent _ _ 0 (-1) H).
      rewrite orb_true_r. reflexivity.
  - intros Ho Hc.
    pose proof (Index_range _ _ Ho) as Hi.
    destruct (last_index_from_range text "}"%char 0 (-1) ltac:(lia))
      as [[Hn _]|[_ Hl]]; [congruence|].
    fold (strings.LastIndex text "}"%char) in Hl.
    replace ((strings.Index text "{"%char =? -1)
             || (strings.LastIndex text "}"%char =? -1)) with false
      by (symmetry; apply orb_false_iff; split; apply Z.eqb_neq; lia).
    unfold strings.slice. split.
    + intros Hlt.
      replace (strings.Index text "{"%char
               <=? strings.LastIndex text "}"%char + 1) with false
        by (symmetry; apply Z.leb_gt; lia).
      rewrite andb_false_r. reflexivity.
    + intros Hle.
      replace ((0 <=? strings.Index text "{"%char)
               && (strings.Index text "{"%char
                   <=? strings.LastIndex text "}"%char + 1)
               && (strings.LastIndex text "}"%char + 1
                   <=? Z.of_nat (String.length text))) with true
        by (symmetry; rewrite !andb_true_iff, !Z.leb_le; lia).
      eexists. split; [reflexivity|]. split; [|reflexivity].
      apply substring_length; lia.
Qed.

Lemma parseSignalResponse_panics (text : string) :
  parseSignalResponse env text = Panic <-> braces_reversed text = true.
Proof.
  unfold braces_reversed, parseSignalResponse.
  destruct (occurs "{"%char text) eqn:Ho; simpl.
  2: { rewrite (Index_absent _ _ Ho). simpl. split; discriminate. }
  destruct (occurs "}"%char text) eqn:Hc; simpl.
  2: { unfold strings.LastIndex.
       rewrite (last_index_from_absent _ _ 0 (-1) Hc).
       rewrite orb_true_r. split; discriminate. }
  pose proof (Index_range _ _ Ho) as Hi.
  destruct (last_index_from_range text "}"%char 0 (-1) ltac:(lia))
    as [[Hn _]|[_ Hl]]; [congruence|].
  fold (strings.LastIndex text "}"%char) in Hl.
  replace ((strings.Index text "{"%char =? -1)
           || (strings.LastIndex text "}"%char =? -1)) with false
    by (symmetry; apply orb_false_iff; split; apply Z.eqb_neq; lia).
  unfold strings.slice.
  destruct (strings.LastIndex text "}"%char + 1
            <? strings.Index text "{"%char) eqn:Hlt.
  - apply Z.ltb_lt in Hlt.
    replace (strings.Index text "{"%char
             <=? strings.LastIndex text "}"%char + 1) with false
      by (symmetry; apply Z.leb_gt; lia).
    rewrite andb_false_r. split; reflexivity.
  - apply Z.ltb_ge in Hlt.
    replace ((0 <=? strings.Index text "{"%char)
             && (strings.Index text "{"%char
                 <=? strings.LastIndex text "}"%char + 1)
             && (strings.LastIndex text "}"%char + 1
                 <=? Z.of_nat (String.length text))) with true
      by (symmetry; rewrite !andb_true_iff, !Z.leb_le; lia).
    destruct (json_Unmarshal env _); split; discriminate.
Qed.

(** X5. The inference step ends in a run-time panic in exactly two cases: the
    first candidate of the answer has no content, or the text of its first
    part has its braces the wrong way round.  An error of the call, an
    answer without candidates, a content without parts, a first part that
    is not text: none of these panics. *)
Theorem GenerateTradingSignal_panics_exactly_when (symbol : string)
  (bars : list OHLCData) (w : World) :
  fst (GenerateTradingSignal env symbol bars w) = Panic
  <-> exists resp candidate others,
        answer (GenerateContent env w (buildPrompt symbol bars)) = inr resp
        /\ Candidates resp = candidate :: others
        /\ (CandidateContent candidate = None
            \/ exists content text parts,
                 CandidateContent candidate = Some content
                 /\ Parts content = Text text :: parts
                 /\ braces_reversed text = true).
Proof.
  unfold GenerateTradingSignal.
  destruct (answer (GenerateContent env w (buildPrompt symbol bars)))
    as [e|resp]; cbn [fst].
  { split; [discriminate|]. intros (? & ? & ? & ? & _). discriminate. }
  destruct (Candidates resp) as [|candidate others] eqn:Hcs; cbn [fst].
  { split; [discriminate|].
    intros (r & c & o & Hr & Hc & _). injection Hr as <-. congruence. }
  destruct (CandidateContent candidate) as [content|] eqn:Hcontent;
    cbn [fst].
  2: { split; [|reflexivity]. intros _.
       exists resp, candidate, others. auto. }
  destruct (Parts content) as [|part parts] eqn:Hparts; cbn [fst].
  { split; [discriminate|].
    intros (r & c & o & Hr & Hc & [Hn|(ct & t & ps & Hct & Hps & _)]);
      injection Hr as <-; rewrite Hcs in Hc; injection Hc as <- <-;
      congruence. }
  pose proof (parseSignalResponse_panics
                match part with Text s => s | Blob => "" end) as Hp.
  split.
  - intros Hpanic.
    assert (parseSignalResponse env
              match part with Text s => s | Blob => "" end = Panic) as Hq.
    { destruct (parseSignalResponse env _); cbn [fst] in Hpanic;
        congruence. }
    apply Hp in Hq. exists resp, candidate, others.
    split; [reflexivity|]. split; [exact Hcs|]. right.
    destruct part as [t|]; [|discriminate].
    exists content, t, parts. auto.
  - intros (r & c & o & Hr & Hc & [Hn|(ct & t & ps & Hct & Hps & Hrev)]);
      injection Hr as <-; rewrite Hcs in Hc; injection Hc as <- <-;
      [congruence|].
    rewrite Hcontent in Hct. injection Hct as <-.
    rewrite Hparts in Hps. injection Hps as -> ->.
    apply Hp in Hrev. rewrite Hrev. reflexivity.
Qed.

End Parse.

(** ** More on the batch runs *)

Lemma telegrams_app (a b : list Event) :
  telegrams (a ++ b) = telegrams a ++ telegrams b.
Proof.
  induction a as [|ev a IH]; simpl; [reflexivity|].
  destruct ev; simpl; rewrite IH; reflexivity.
Qed.

Lemma telegrams_logs (ls : list LogLine) : telegrams (map EvLog ls) = [].
Proof. induction ls; simpl; auto. Qed.

Ltac observe_telegrams :=
  repeat rewrite ?telegrams_app, ?log_all_trace, ?telegrams_logs, ?app_nil_r,
    <- ?app_assoc;
  simpl.

Section Quiet.

Variable env : Env.

Lemma GenerateTradingSignal_quiet (symbol : string) (bars : list OHLCData)
  (w : World) :
  telegrams (trace (snd (GenerateTradingSignal env symbol bars w)))
  = telegrams (trace w).
Proof.
  destruct (GenerateTradingSignal_trace env symbol bars w) as [Ht _].
  rewrite Ht. observe_telegrams. reflexivity.
Qed.

Lemma signal_step_quiet (symbol : string) (st : State) :
  telegrams (trace (world (snd (signal_step env symbol st))))
  = telegrams (trace (world st)).
Proof.
  unfold signal_step, GenerateSignal, yahoo_FetchOHLCData.
  repeat case_match; simplify_eq; unfold_world;
    try match goal with
        | H : GenerateTradingSignal _ ?s ?b ?w = _ |- _ =>
            pose proof (GenerateTradingSignal_quiet s b w) as Hq;
            rewrite H in Hq; simpl in Hq
        end;
    observe_telegrams; try rewrite Hq; observe_telegrams; reflexivity.
Qed.

Lemma summary_step_quiet (symbol : string) (st : State) :
  telegrams (trace (world (snd (summary_step env symbol st))))
  = telegrams (trace (world st)).
Proof.
  unfold summary_step, yahoo_FetchOHLCData.
  repeat case_match; simplify_eq; unfold_world;
    try match goal with
        | H : GenerateTradingSignal _ ?s ?b ?w = _ |- _ =>
            pose proof (GenerateTradingSignal_quiet s b w) as Hq;
            rewrite H in Hq; simpl in Hq
        end;
    observe_telegrams; try rewrite Hq; observe_telegrams; reflexivity.
Qed.

Lemma pause_unless_last_quiet (i : Z) (st : State) :
  telegrams (trace (world (pause_unless_last i st)))
  = telegrams (trace (world st)).
Proof.
  unfold pause_unless_last. case_match; unfold_world; observe_telegrams;
    reflexivity.
Qed.

Lemma batch_loop_quiet
  (step : string -> State -> result TradingSignal * State)
  (Hquiet : forall symbol st,
      telegrams (trace (world (snd (step symbol st))))
      = telegrams (trace (world st)))
  (symbols : list string) :
  forall i b st,
    telegrams (trace (world (snd (batch_loop env step i symbols b st))))
    = telegrams (trace (world st)).
Proof.
  induction symbols as [|symbol rest IH]; intros i b st; simpl; [reflexivity|].
  pose proof (Hquiet symbol (log_analyzing i symbol st)) as Hq.
  destruct (step symbol (log_analyzing i symbol st)) as [[signal|err|] st1];
    simpl in Hq.
  - rewrite IH, pause_unless_last_quiet, Hq. unfold_world. observe_telegrams.
    reflexivity.
  - rewrite IH, Hq. unfold_world. observe_telegrams. reflexivity.
  - simpl. rewrite Hq. unfold_world. observe_telegrams. reflexivity.
Qed.

Lemma report_telegrams (b : Buckets) (st : State) :
  telegrams (trace (world (snd (report env b st))))
  = telegrams (trace (world st))
    ++ [(chatID (telegramService (service st)),
         fst (formatSummaryMessage (fst (report env b st))))].
Proof.
  unfold report, SendSignalSummary, sendMessage, sendMessageToChat.
  destruct b as [buy sell hold failed].
  repeat case_match; simplify_eq; unfold_world; observe_telegrams.
  all: match goal with
       | H : formatSummaryMessage _ = _ |- _ =>
           apply (f_equal fst) in H; simpl in H; rewrite <- H
       end; reflexivity.
Qed.

Lemma started_summary_telegrams (st : State) :
  telegrams (trace (world (started_summary env st)))
  = telegrams (trace (world st))
    ++ [(chatID (telegramService (service st)),
         [RequestReceived (len (StockSymbols (config (service st))))
            (Z.quot (len (StockSymbols (config (service st))) * 3) 60 + 1)
            (clock (world st))])].
Proof.
  unfold started_summary, SendRequestReceivedMessage, sendMessage,
    sendMessageToChat.
  repeat case_match; simplify_eq; unfold_world; observe_telegrams;
    rewrite ?Z.add_0_r; reflexivity.
Qed.

Lemma GenerateAllSignals_telegrams (st st' : State) (summary : SignalSummary) :
  GenerateAllSignals env st = (Ok summary, st') ->
  telegrams (trace (world st'))
  = telegrams (trace (world st))
    ++ [(chatID (telegramService (service st)),
         fst (formatSummaryMessage summary))].
Proof.
  intros Hrun.
  apply GenerateAllSignals_completed in Hrun as (b & st1 & Hloop & Hrep).
  rewrite analyze_from_batch_loop in Hloop.
  pose proof (batch_loop_quiet _ signal_step_quiet
                (StockSymbols (config (service st))) 0 no_buckets
                (started st)) as Hq.
  pose proof (batch_loop_service env _ (signal_step_analysis env)
                (StockSymbols (config (service st))) 0 no_buckets
                (started st)) as Hs.
  rewrite Hloop in Hq, Hs. simpl in Hq, Hs.
  pose proof (report_telegrams b st1) as Hr.
  rewrite Hrep in Hr. simpl in Hr. rewrite Hr, Hq, Hs.
  unfold started. unfold_world. observe_telegrams. reflexivity.
Qed.

Lemma GenerateAllSignalsSummary_telegrams (st st' : State)
  (summary : SignalSummary) :
  GenerateAllSignalsSummary env st = (Ok summary, st') ->
  let chat := chatID (telegramService (service st)) in
  let N := len (StockSymbols (config (service st))) in
  telegrams (trace (world st'))
  = telegrams (trace (world st))
    ++ [(chat, [RequestReceived N (Z.quot (N * 3) 60 + 1) (clock (world st))]);
        (chat, fst (formatSummaryMessage summary))].
Proof.
  intros Hrun. cbv zeta.
  apply GenerateAllSignalsSummary_completed in Hrun
    as (b & st1 & Hloop & Hrep).
  rewrite analyze_summary_from_batch_loop in Hloop.
  pose proof (batch_loop_quiet _ summary_step_quiet
                (StockSymbols (config (service st))) 0 no_buckets
                (started_summary env st)) as Hq.
  pose proof (batch_loop_service env _ (summary_step_analysis env)
                (StockSymbols (config (service st))) 0 no_buckets
                (started_summary env st)) as Hs.
  rewrite Hloop in Hq, Hs. simpl in Hq, Hs.
  destruct (started_summary_observed env st) as (Hv & _).
  pose proof (report_telegrams b st1) as Hr.
  rewrite Hrep in Hr. simpl in Hr.
  rewrite Hr, Hq, Hs, Hv, started_summary_telegrams, <- app_assoc.
  reflexivity.
Qed.

(** X6. Whoever asked for it, a batch run writes to the configured chat only:
    the per-symbol variant sends the summary and nothing else, the summary
    variant sends the "request received" note and then the summary. *)
Theorem batch_run_telegrams (st st' : State) (summary : SignalSummary) :
  let chat := chatID (telegramService (service st)) in
  let N := len (StockSymbols (config (service st))) in
  (GenerateAllSignals env st = (Ok summary, st') ->
   telegrams (trace (world st'))
   = telegrams (trace (world st))
     ++ [(chat, fst (formatSummaryMessage summary))])
  /\ (GenerateAllSignalsSummary env st = (Ok summary, st') ->
      telegrams (trace (world st'))
      = telegrams (trace (world st))
        ++ [(chat, [RequestReceived N (Z.quot (N * 3) 60 + 1)
                      (clock (world st))]);
            (chat, fst (formatSummaryMessage summary))]).
Proof.
  cbv zeta. split; intros Hrun.
  - apply GenerateAllSignals_telegrams, Hrun.
  - apply (GenerateAllSignalsSummary_telegrams _ _ _ Hrun).
Qed.

End Quiet.

Section Abort.

Variable env : Env.

Lemma batch_loop_panic_turn
  (step : string -> State -> result TradingSignal * State)
  (symbols : list string) (k : nat) (symbol : string) (st0 st_k : State)
  (b_k : Buckets) :
  symbols !! k = Some symbol ->
  batch_loop env step 0 (take k symbols) no_buckets st0 = (Ok b_k, st_k) ->
  fst (step symbol (log_analyzing (Z.of_nat k) symbol st_k)) = Panic ->
  batch_loop env step 0 symbols no_buckets st0
  = (Panic, snd (step symbol (log_analyzing (Z.of_nat k) symbol st_k))).
Proof.
  intros Hk Hpre Hp.
  rewrite <- (take_drop (S k) symbols), batch_loop_app.
  rewrite (take_S_r _ _ _ Hk), batch_loop_app, Hpre.
  assert (len (take k symbols) = Z.of_nat k) as ->.
  { unfold len. rewrite length_take. apply lookup_lt_Some in Hk. lia. }
  rewrite Z.add_0_l. simpl.
  destruct (step symbol (log_analyzing (Z.of_nat k) symbol st_k))
    as [[signal|err|] st1]; simpl in Hp; try discriminate.
  reflexivity.
Qed.

Lemma batch_loop_prefix_fetched
  (step : string -> State -> result TradingSignal * State)
  (Hstep : analysis step)
  (symbols : list string) (k : nat) (symbol : string) (st0 st_k : State)
  (b_k : Buckets) :
  symbols !! k = Some symbol ->
  batch_loop env step 0 (take k symbols) no_buckets st0 = (Ok b_k, st_k) ->
  fetched (trace (world (snd (step symbol
                                (log_analyzing (Z.of_nat k) symbol st_k)))))
  = fetched (trace (world st0)) ++ take (S k) symbols.
Proof.
  intros Hk Hpre.
  apply (batch_loop_completed env step Hstep) in Hpre as (_ & Hf & _).
  rewrite (step_fetched _ Hstep). unfold_world. observe.
  rewrite Hf, (take_S_r _ _ _ Hk), <- app_assoc. reflexivity.
Qed.

(** X7. One malformed answer ends the whole run.  When the analysis of the
    [k]-th symbol panics, the run ends in that panic: no quote is requested
    for a later symbol and no summary is sent (the summary variant has sent
    its "request received" note by then, and nothing after it). *)
Theorem panic_stops_the_run
  (st st_k : State) (k : nat) (symbol : string) (b_k : Buckets) :
  let symbols := StockSymbols (config (service st)) in
  let chat := chatID (telegramService (service st)) in
  let N := len symbols in
  symbols !! k = Some symbol ->
  (analyze_from env 0 (take k symbols) no_buckets (started st) = (Ok b_k, st_k) ->
   fst (GenerateSignal env symbol (log_analyzing (Z.of_nat k) symbol st_k))
   = Panic ->
   let run := GenerateAllSignals env st in
   fst run = Panic
   /\ fetched (trace (world (snd run)))
      = fetched (trace (world st)) ++ take (S k) symbols
   /\ telegrams (trace (world (snd run))) = telegrams (trace (world st)))
  /\ (analyze_summary_from env 0 (take k symbols) no_buckets
        (started_summary env st) = (Ok b_k, st_k) ->
      fst (summary_step env symbol (log_analyzing (Z.of_nat k) symbol st_k))
      = Panic ->
      let run := GenerateAllSignalsSummary env st in
      fst run = Panic
      /\ fetched (trace (world (snd run)))
         = fetched (trace (world st)) ++ take (S k) symbols
      /\ telegrams (trace (world (snd run)))
         = telegrams (trace (world st))
           ++ [(chat, [RequestReceived N (Z.quot (N * 3) 60 + 1)
                         (clock (world st))])]).
Proof.
  cbv zeta. intros Hk. split.
  - intros Hpre Hp. rewrite analyze_from_batch_loop in Hpre.
    assert (fst (signal_step env symbol
                   (log_analyzing (Z.of_nat k) symbol st_k)) = Panic) as Hp'.
    { unfold signal_step.
      destruct (GenerateSignal env symbol _) as [[s|e|] st1];
        simpl in *; congruence. }
    rewrite GenerateAllSignals_unfold,
      (batch_loop_panic_turn _ _ _ _ _ _ _ Hk Hpre Hp').
    cbn [fst snd]. split; [reflexivity|]. split.
    + rewrite (batch_loop_prefix_fetched _ (signal_step_analysis env)
                 _ _ _ _ _ _ Hk Hpre).
      destruct (started_observed st) as (_ & -> & _). reflexivity.
    + pose proof (batch_loop_quiet env _ (signal_step_quiet env)
                    (StockSymbols (config (service st))) 0 no_buckets
                    (started st)) as Hq.
      rewrite (batch_loop_panic_turn _ _ _ _ _ _ _ Hk Hpre Hp') in Hq.
      cbn [fst snd] in Hq. rewrite Hq.
      unfold started. unfold_world. observe_telegrams. reflexivity.
  - intros Hpre Hp. rewrite analyze_summary_from_batch_loop in Hpre.
    rewrite GenerateAllSignalsSummary_unfold,
      (batch_loop_panic_turn _ _ _ _ _ _ _ Hk Hpre Hp).
    cbn [fst snd]. split; [reflexivity|]. split.
    + rewrite (batch_loop_prefix_fetched _ (summary_step_analysis env)
                 _ _ _ _ _ _ Hk Hpre).
      destruct (started_summary_observed env st) as (_ & ->). reflexivity.
    + pose proof (batch_loop_quiet env _ (summary_step_quiet env)
                    (StockSymbols (config (service st))) 0 no_buckets
                    (started_summary env st)) as Hq.
      rewrite (batch_loop_panic_turn _ _ _ _ _ _ _ Hk Hpre Hp) in Hq.
      cbn [fst snd] in Hq. rewrite Hq. apply started_summary_telegrams.
Qed.

End Abort.

Section Order.

Variable env : Env.

Lemma categorize_symbols (signal : TradingSignal) (b : Buckets) :
  exists xb xs xh,
    map StockSymbol (buySignals (categorize env signal b))
    = map StockSymbol (buySignals b) ++ xb
    /\ map StockSymbol (sellSignals (categorize env signal b))
       = map StockSymbol (sellSignals b) ++ xs
    /\ map StockSymbol (holdSignals (categorize env signal b))
       = map StockSymbol (holdSignals b) ++ xh
    /\ xb `sublist_of` [StockSymbol signal]
    /\ xs `sublist_of` [StockSymbol signal]
    /\ xh `sublist_of` [StockSymbol signal].
Proof.
  unfold categorize, add_buy, add_sell, add_hold.
  repeat case_match; simpl; rewrite map_app; simpl.
  - exists [StockSymbol signal], [], []. rewrite !app_nil_r.
    repeat split; auto using sublist_nil_l.
  - exists [], [StockSymbol signal], []. rewrite !app_nil_r.
    repeat split; auto using sublist_nil_l.
  - exists [], [], [StockSymbol signal]. rewrite !app_nil_r.
    repeat split; auto using sublist_nil_l.
  - exists [], [], [StockSymbol signal]. rewrite !app_nil_r.
    repeat split; auto using sublist_nil_l.
Qed.

Lemma batch_loop_ordered
  (step : string -> State -> result TradingSignal * State)
  (Hstep : analysis step) (symbols : list string) :
  forall i b st b' st',
    batch_loop env step i symbols b st = (Ok b', st') ->
    exists xb xs xh xf,
      map StockSymbol (buySignals b') = map StockSymbol (buySignals b) ++ xb
      /\ map StockSymbol (sellSignals b') = map StockSymbol (sellSignals b) ++ xs
      /\ map StockSymbol (holdSignals b') = map StockSymbol (holdSignals b) ++ xh
      /\ failedSignals b' = failedSignals b ++ xf
      /\ xb `sublist_of` symbols /\ xs `sublist_of` symbols
      /\ xh `sublist_of` symbols /\ xf `sublist_of` symbols.
Proof.
  induction symbols as [|symbol rest IH]; intros i b st b' st' Hrun;
    simpl in Hrun.
  - simplify_eq. exists [], [], [], []. rewrite !app_nil_r.
    repeat split; auto.
  - pose proof (step_stamped _ Hstep symbol (log_analyzing i symbol st)) as Hk.
    destruct (step symbol (log_analyzing i symbol st)) as [[signal|err|] st1];
      simpl in Hk; [| |discriminate].
    + apply IH in Hrun
        as (xb & xs & xh & xf & Eb & Es & Eh & Ef & Sb & Ss & Sh & Sf).
      destruct (categorize_symbols signal b)
        as (yb & ys & yh & Cb & Cs & Ch & Tb & Ts & Th).
      rewrite (Hk signal eq_refl) in Tb, Ts, Th.
      rewrite failed_categorize in Ef.
      exists (yb ++ xb), (ys ++ xs), (yh ++ xh), xf.
      rewrite Eb, Es, Eh, Cb, Cs, Ch, <- !app_assoc.
      repeat split; auto.
      all: try (change (symbol :: rest) with ([symbol] ++ rest);
                apply sublist_app; assumption).
      apply sublist_cons. assumption.
    + apply IH in Hrun
        as (xb & xs & xh & xf & Eb & Es & Eh & Ef & Sb & Ss & Sh & Sf).
      simpl in *. exists xb, xs, xh, (symbol :: xf).
      rewrite Eb, Es, Eh, Ef, <- app_assoc. simpl.
      repeat split; auto using sublist_cons, sublist_skip.
Qed.

(** X8. The buckets keep the configured order: the symbols of each bucket of a
    completed run appear in it in the order in which they are configured. *)
Theorem buckets_keep_configured_order
  (st st' : State) (summary : SignalSummary) :
  completed env st summary st' ->
  let symbols := StockSymbols (config (service st)) in
  map StockSymbol (BuySignals summary) `sublist_of` symbols
  /\ map StockSymbol (SellSignals summary) `sublist_of` symbols
  /\ map StockSymbol (HoldSignals summary) `sublist_of` symbols
  /\ FailedSignals summary `sublist_of` symbols.
Proof.
  intros Hrun. cbv zeta.
  assert (exists step b st0 st1,
             analysis step
             /\ batch_loop env step 0 (StockSymbols (config (service st)))
                  no_buckets st0 = (Ok b, st1)
             /\ buckets_of summary = b) as (step & b & st0 & st1 & Ha & Hl & Hb).
  { destruct Hrun as [Hrun|Hrun].
    - apply GenerateAllSignals_completed in Hrun as (b & st1 & Hloop & Hrep).
      rewrite analyze_from_batch_loop in Hloop.
      pose proof (report_observed env b st1) as (Hb & _).
      rewrite Hrep in Hb. simpl in Hb.
      eauto 10 using signal_step_analysis.
    - apply GenerateAllSignalsSummary_completed in Hrun
        as (b & st1 & Hloop & Hrep).
      rewrite analyze_summary_from_batch_loop in Hloop.
      pose proof (report_observed env b st1) as (Hb & _).
      rewrite Hrep in Hb. simpl in Hb.
      eauto 10 using summary_step_analysis. }
  apply (batch_loop_ordered step Ha) in Hl
    as (xb & xs & xh & xf & Eb & Es & Eh & Ef & Sb & Ss & Sh & Sf).
  subst b. simpl in *. subst. auto.
Qed.

End Order.

Section Window.

Variable env : Env.

Lemma signals_of_categorize (P : TradingSignal -> Prop)
  (signal : TradingSignal) (b : Buckets) :
  P signal -> Forall P (signals_of b) ->
  Forall P (signals_of (categorize env signal b)).
Proof.
  intros Hs Hb. unfold signals_of in *.
  apply Forall_app in Hb as [Hbuy Hb]. apply Forall_app in Hb as [Hsell Hhold].
  unfold categorize, add_buy, add_sell, add_hold.
  repeat case_match; simpl; rewrite !Forall_app;
    repeat split; auto; apply Forall_singleton; exact Hs.
Qed.

Lemma pause_unless_last_clock (i : Z) (st : State) :
  clock (world st) <= clock (world (pause_unless_last i st)).
Proof. apply pause_unless_last_observed. Qed.

Lemma batch_loop_window
  (step : string -> State -> result TradingSignal * State)
  (Hstep : analysis step)
  (Htime : forall symbol st signal,
      fst (step symbol st) = Ok signal ->
      GeneratedAt signal = clock (world (snd (step symbol st))))
  (lo : Z) (symbols : list string) :
  forall i b st b' st',
    batch_loop env step i symbols b st = (Ok b', st') ->
    lo <= clock (world st) ->
    Forall (fun s => lo <= GeneratedAt s <= clock (world st)) (signals_of b) ->
    clock (world st) <= clock (world st')
    /\ Forall (fun s => lo <= GeneratedAt s <= clock (world st'))
         (signals_of b').
Proof.
  induction symbols as [|symbol rest IH]; intros i b st b' st' Hrun Hlo Hb;
    simpl in Hrun.
  - simplify_eq. split; [lia|assumption].
  - pose proof (step_clock _ Hstep symbol (log_analyzing i symbol st)) as Hc.
    pose proof (Htime symbol (log_analyzing i symbol st)) as Ht.
    destruct (step symbol (log_analyzing i symbol st)) as [[signal|err|] st1];
      simpl in Hc, Ht; [| |discriminate]; unfold_world.
    + pose proof (pause_unless_last_clock i st1) as Hp.
      apply IH in Hrun as [Hc' Hb']; [split; [lia|exact Hb']|lia|].
      apply signals_of_categorize.
      * rewrite (Ht signal eq_refl). lia.
      * eapply Forall_impl; [exact Hb|]. simpl. intros s Hs. lia.
    + apply IH in Hrun as [Hc' Hb']; [split; [lia|exact Hb']|lia|].
      unfold signals_of in *. simpl.
      eapply Forall_impl; [exact Hb|]. simpl. intros s Hs. lia.
Qed.

Lemma signal_step_time (symbol : string) (st : State) (signal : TradingSignal) :
  fst (signal_step env symbol st) = Ok signal ->
  GeneratedAt signal = clock (world (snd (signal_step env symbol st))).
Proof.
  unfold signal_step.
  pose proof (GenerateSignal_stamped env symbol st signal) as Hs.
  destruct (GenerateSignal env symbol st) as [[s|e|] st1]; simpl in *;
    intros H; simplify_eq. apply Hs. reflexivity.
Qed.

Lemma summary_step_time (symbol : string) (st : State) (signal : TradingSignal) :
  fst (summary_step env symbol st) = Ok signal ->
  GeneratedAt signal = clock (world (snd (summary_step env symbol st))).
Proof.
  unfold summary_step, yahoo_FetchOHLCData.
  destruct (answer (FetchOHLCData env (world st) symbol)) as [e0|bars0]; simpl;
    [discriminate|].
  destruct (len bars0 =? 0); simpl; [discriminate|].
  destruct (GenerateTradingSignal env symbol bars0 _) as [g w'] eqn:Hg.
  destruct g; simpl; intros H; simplify_eq.
  apply (GenerateTradingSignal_stamped _ _ _ _ _ _ Hg).
Qed.

(** X9. Every signal in the summary of a completed run was produced during
    that run: not before the run started and not after the summary was
    stamped. *)
Theorem signals_stamped_within_the_run
  (st st' : State) (summary : SignalSummary) :
  completed env st summary st' ->
  Forall (fun s => clock (world st) <= GeneratedAt s
                   /\ GeneratedAt s <= SummaryGeneratedAt summary)
    (BuySignals summary ++ SellSignals summary ++ HoldSignals summary)
  /\ SummaryGeneratedAt summary <= clock (world st').
Proof.
  intros Hrun.
  assert (exists step b st0 st1,
             analysis step
             /\ (forall symbol st signal,
                    fst (step symbol st) = Ok signal ->
                    GeneratedAt signal = clock (world (snd (step symbol st))))
             /\ clock (world st) <= clock (world st0)
             /\ batch_loop env step 0 (StockSymbols (config (service st)))
                  no_buckets st0 = (Ok b, st1)
             /\ report env b st1 = (summary, st'))
    as (step & b & st0 & st1 & Ha & Ht & Hc0 & Hl & Hrep).
  { destruct Hrun as [Hrun|Hrun].
    - apply GenerateAllSignals_completed in Hrun as (b & st1 & Hloop & Hrep).
      rewrite analyze_from_batch_loop in Hloop.
      exists (signal_step env), b, (started st), st1.
      destruct (started_paced st) as (_ & Hc).
      split; [apply signal_step_analysis|]. split; [apply signal_step_time|].
      split; [lia|]. split; assumption.
    - apply GenerateAllSignalsSummary_completed in Hrun
        as (b & st1 & Hloop & Hrep).
      rewrite analyze_summary_from_batch_loop in Hloop.
      exists (summary_step env), b, (started_summary env st), st1.
      destruct (started_summary_paced env st) as (_ & Hc).
      split; [apply summary_step_analysis|].
      split; [apply summary_step_time|].
      split; [lia|]. split; assumption. }
  apply (batch_loop_window step Ha Ht (clock (world st))) in Hl as [Hc1 Hb];
    [|exact Hc0|unfold signals_of; simpl; constructor].
  pose proof (report_observed env b st1) as (Hbk & _).
  pose proof (report_paced env b st1) as (_ & Hc2).
  rewrite Hrep in Hbk, Hc2. simpl in Hbk, Hc2.
  assert (SummaryGeneratedAt (fst (report env b st1)) = clock (world st1))
    as Hg.
  { unfold report. destruct (SendSignalSummary env _ _ _) as [sent w].
    reflexivity. }
  rewrite Hrep in Hg. simpl in Hg. rewrite Hg. split; [|exact Hc2].
  subst b. unfold signals_of in Hb. simpl in Hb.
  eapply Forall_impl; [exact Hb|]. simpl. intros s Hs. lia.
Qed.

End Window.

Lemma listed_app (a b : Message) : listed (a ++ b) = listed a ++ listed b.
Proof.
  induction a as [|c a IH]; simpl; [reflexivity|].
  destruct c; simpl; rewrite ?IH; reflexivity.
Qed.

Lemma listed_section {A : Type} (heading : Chunk)
  (line : A -> Chunk * list LogLine) (name : A -> string) (l : list A) :
  listed [heading] = [] ->
  (forall x, listed [fst (line x)] = [name x]) ->
  listed (fst (section heading line l)) = map name l.
Proof.
  intros Hh Hl.
  assert (listed (map (fun y => fst (line y)) l) = map name l) as Hlines.
  { induction l as [|y r IH]; [reflexivity|].
    simpl map. change (fst (line y) :: map (fun y => fst (line y)) r)
      with ([fst (line y)] ++ map (fun y => fst (line y)) r).
    rewrite listed_app, Hl, IH. reflexivity. }
  unfold section.
  destruct (0 <? len l) eqn:E; cbn [fst].
  - change (heading :: map (fun y => fst (line y)) l)
      with ([heading] ++ map (fun y => fst (line y)) l).
    rewrite listed_app, Hh. exact Hlines.
  - destruct l; [reflexivity|].
    apply Z.ltb_ge in E. unfold len in E. simpl length in E. lia.
Qed.

Lemma formatSummaryMessage_listed (summary : SignalSummary) :
  listed (fst (formatSummaryMessage summary)) = accounted (buckets_of summary).
Proof.
  unfold formatSummaryMessage, accounted. cbn [fst buckets_of buySignals
    sellSignals holdSignals failedSignals].
  change (listed (?h :: ?t)) with (listed ([h] ++ t)).
  rewrite !listed_app. simpl (listed [_]). rewrite app_nil_r. simpl app.
  rewrite (listed_section BuyHeading buy_line StockSymbol),
    (listed_section SellHeading sell_line StockSymbol),
    (listed_section HoldHeading _ StockSymbol),
    (listed_section FailedHeading _ (fun s => s)); try reflexivity.
  - rewrite map_id. reflexivity.
  - intros x. unfold sell_line.
    destruct (calculateRiskRewardRatio x) as [[[[? ?] ?] ?] ?]. reflexivity.
  - intros x. unfold buy_line.
    destruct (calculateRiskRewardRatio x) as [[[[? ?] ?] ?] ?]. reflexivity.
Qed.

Section SummaryText.

Variable env : Env.

(** X10. The summary a completed run sends names every configured symbol exactly
    once, and its header carries the number of configured symbols and the
    sizes of the four buckets. *)
Theorem summary_text_names_every_symbol
  (st st' : State) (summary : SignalSummary) :
  completed env st summary st' ->
  let text := fst (formatSummaryMessage summary) in
  let symbols := StockSymbols (config (service st)) in
  listed text ≡ₚ symbols
  /\ head text
     = Some (SummaryHeader (len symbols) (len (BuySignals summary))
               (len (SellSignals summary)) (len (HoldSignals summary))
               (len (FailedSignals summary)) (SummaryGeneratedAt summary)).
Proof.
  intros Hrun. cbv zeta.
  pose proof (completed_facts env st st' summary Hrun) as (Ht & Hp & _).
  split.
  - rewrite formatSummaryMessage_listed. exact Hp.
  - unfold formatSummaryMessage. cbn [fst head]. rewrite Ht. reflexivity.
Qed.

End SummaryText.

(** X11. [calculateRiskRewardRatio] is all or nothing: either it returns three
    zeros, or the direction is exactly ["BUY"] or ["SELL"], neither level
    failed the positivity test, the levels are the differences of the
    signal's prices, the ratio is their quotient and nothing is logged.  The
    error it returns is [nil] either way. *)
Theorem risk_reward_is_all_or_nothing (signal : TradingSignal) :
  let out := fst (calculateRiskRewardRatio signal) in
  let risk := fst (fst (fst out)) in
  let reward := snd (fst (fst out)) in
  let ratio := snd (fst out) in
  snd out = None
  /\ ((risk, reward, ratio) = (0%float, 0%float, 0%float)
      \/ ((risk <=? 0)%float = false
          /\ (reward <=? 0)%float = false
          /\ ratio = (reward / risk)%float
          /\ snd (calculateRiskRewardRatio signal) = []
          /\ ((Signal signal = "BUY"
               /\ risk = (BuyPrice signal - StopLoss signal)%float
               /\ reward = (TargetPrice signal - BuyPrice signal)%float)
              \/ (Signal signal = "SELL"
                  /\ risk = (StopLoss signal - BuyPrice signal)%float
                  /\ reward = (BuyPrice signal - TargetPrice signal)%float)))).
Proof.
  cbv zeta. unfold calculateRiskRewardRatio, no_ratio.
  destruct (String.eqb_spec (Signal signal) "WAIT") as [Hw|Hw];
    [simpl; auto|].
  destruct (String.eqb_spec (Signal signal) "BUY") as [Hb|Hb].
  - destruct ((BuyPrice signal - StopLoss signal <=? 0)%float) eqn:Hr;
      [simpl; auto|].
    destruct ((TargetPrice signal - BuyPrice signal <=? 0)%float) eqn:Hd;
      [simpl; auto|].
    simpl. split; [reflexivity|]. right. auto 10.
  - destruct (String.eqb_spec (Signal signal) "SELL") as [Hs|Hs];
      [|simpl; auto].
    destruct ((StopLoss signal - BuyPrice signal <=? 0)%float) eqn:Hr;
      [simpl; auto|].
    destruct ((BuyPrice signal - TargetPrice signal <=? 0)%float) eqn:Hd;
      [simpl; auto|].
    simpl. split; [reflexivity|]. right. auto 10.
Qed.

(** ** More on the cooldown cache *)

(** X12. Recording one symbol leaves every other symbol as it was, never
    forgets a symbol, and changes neither the configuration nor the
    world. *)
Theorem updateSignalCache_touches_one_symbol (symbol : string) (st : State) :
  let st' := updateSignalCache symbol st in
  (forall other, other <> symbol ->
     signalCache (service st') !! other = signalCache (service st) !! other
     /\ canGenerateSignal other st' = canGenerateSignal other st)
  /\ (forall known, is_Some (signalCache (service st) !! known) ->
        is_Some (signalCache (service st') !! known))
  /\ config (service st') = config (service st)
  /\ world st' = world st.
Proof.
  cbv zeta. unfold updateSignalCache. split; [|split; [|split; reflexivity]].
  - intros other Hne. unfold canGenerateSignal. simpl.
    rewrite lookup_insert_ne by congruence. auto.
  - intros known Hk. simpl.
    destruct (decide (symbol = known)) as [->|Hne].
    + rewrite lookup_insert_eq. eauto.
    + rewrite lookup_insert_ne by assumption. exact Hk.
Qed.

(** X13. For a cooldown of [m] minutes, [1 <= m <= 153722867], and a symbol
    recorded at an instant that is not in the future, a new signal may be
    generated exactly when [m] minutes have passed. *)
Theorem cooldown_counts_minutes (symbol : string) (st : State)
  (m : Z) (last : time.Time) :
  SignalCooldownMins (config (service st)) = m ->
  0 < m <= 153722867 ->
  signalCache (service st) !! symbol = Some last ->
  last <= time_Now (world st) ->
  (canGenerateSignal symbol st = true
   <-> last + m * (60 * time.Second) <= time_Now (world st)).
Proof.
  intros Hm Hrange Hc Hlast. unfold canGenerateSignal. rewrite Hc, Hm.
  destruct (cooldown_minutes_exact m Hrange) as [-> _].
  unfold time_Since, time.Sub, time.minDuration, time.maxDuration,
    time.Second.
  rewrite Z.leb_le. repeat case_match; lia.
Qed.

(** X14. A cooldown of zero or of a negative number of minutes (down to
    [-153722867]) blocks nothing. *)
Theorem nonpositive_cooldown_never_blocks (symbol : string) (st : State) :
  -153722867 <= SignalCooldownMins (config (service st)) <= 0 ->
  (forall last, signalCache (service st) !! symbol = Some last ->
                last <= time_Now (world st)) ->
  canGenerateSignal symbol st = true.
Proof.
  intros Hm Hpast. unfold canGenerateSignal.
  destruct (signalCache (service st) !! symbol) as [last|] eqn:Hc;
    [|reflexivity].
  specialize (Hpast last eq_refl). apply Z.leb_le.
  assert (time.mul (SignalCooldownMins (config (service st))) time.Minute <= 0)
    as Hw.
  { unfold time.mul, time.wrap64, time.Minute, time.Second.
    replace (60 * 1000000000) with 60000000000 by reflexivity.
    rewrite Z.mod_small by lia. lia. }
  unfold time_Since, time.Sub, time.minDuration, time.maxDuration.
  repeat case_match; lia.
Qed.

(** ** More on the scheduler *)

Section SchedulerInfo.

Variable ParseStandard : string -> error + (time.Time -> time.Time).

Lemma Start_fields (cs : CronScheduler) (w : World) :
  scheduleTimes (snd (fst (Start ParseStandard cs w))) = scheduleTimes cs
  /\ timezone (snd (fst (Start ParseStandard cs w))) = timezone cs.
Proof. unfold Start. destruct (fold_left _ _ _). split; reflexivity. Qed.

Lemma Start_specs (cs : CronScheduler) (w : World) :
  map Spec (cron_Entries (cron (snd (fst (Start ParseStandard cs w)))))
  = map Spec (cron_Entries (cron cs))
    ++ List.filter (accepted ParseStandard)
         (omap cron_spec_of (scheduleTimes cs)).
Proof.
  unfold Start, cron_Entries.
  match goal with
  | |- context [fold_left ?f ?l ?s] =>
      pose proof (schedule_loop_entries ParseStandard (scheduleTimes cs)
                    (cron cs) (snd s)) as He;
      destruct (fold_left f l s) as [c1 w1] eqn:Hfold
  end.
  simpl in He. rewrite Hfold in He. simpl in *.
  rewrite cron_Start_specs. exact He.
Qed.

Lemma length_omap_le {A B : Type} (f : A -> option B) (l : list A) :
  (length (omap f l) <= length l)%nat.
Proof.
  induction l as [|x l IH]; [simpl; lia|].
  cbn [omap list_omap length]. destruct (f x); cbn [length]; lia.
Qed.

(** X15. What the status query shows after a new scheduler has started: the
    configured strings as they were given, dropped ones included; the zone
    the scheduler was built with; one next run per active job; and never
    more active jobs than configured strings. *)
Theorem schedule_info_after_start (wib_loaded : bool) (times : list string)
  (w : World) :
  let cs := snd (fst (Start ParseStandard (NewCronScheduler wib_loaded times) w)) in
  let info := GetScheduleInfo cs in
  configured_times info = times
  /\ info_timezone info = (if wib_loaded then "Asia/Jakarta" else "UTC")
  /\ 0 <= active_jobs info <= len times
  /\ len (next_runs info) = active_jobs info
  /\ active_jobs info
     = len (List.filter (accepted ParseStandard) (omap cron_spec_of times)).
Proof.
  cbv zeta. unfold GetScheduleInfo, GetNextRuns. cbn [configured_times
    info_timezone active_jobs next_runs].
  destruct (Start_fields (NewCronScheduler wib_loaded times) w) as [Ht Hz].
  pose proof (Start_specs (NewCronScheduler wib_loaded times) w) as Hs.
  simpl in Hs.
  assert (len (cron_Entries
                 (cron (snd (fst (Start ParseStandard
                                    (NewCronScheduler wib_loaded times) w)))))
          = len (List.filter (accepted ParseStandard)
                   (omap cron_spec_of times))) as Hn.
  { unfold len. rewrite <- (length_map Spec), Hs. reflexivity. }
  rewrite Ht, Hz, Hn. split; [reflexivity|]. split; [reflexivity|].
  split; [|split; [|reflexivity]].
  - unfold len.
    pose proof (filter_length_le (accepted ParseStandard)
                  (omap cron_spec_of times)).
    pose proof (length_omap_le cron_spec_of times). lia.
  - rewrite <- Hn. unfold len. rewrite length_map. reflexivity.
Qed.

End SchedulerInfo.

(** ** The list of configured stocks *)

Lemma stock_rows_from_spec (stockSymbols : list string) :
  forall (fuel : nat) (i : Z),
    0 <= i ->
    len stockSymbols - i <= Z.of_nat fuel ->
    let rows := stock_rows_from fuel i stockSymbols in
    concat rows = drop (Z.to_nat i) stockSymbols
    /\ Forall (fun row => (1 <= length row <= 5)%nat) rows
    /\ (forall j row, rows !! j = Some row -> (S j < length rows)%nat ->
                      length row = 5%nat).
Proof.
  induction fuel as [|fuel IH]; intros i Hi Hfuel; cbv zeta.
  - simpl. rewrite drop_ge by (unfold len in Hfuel; lia).
    repeat split; auto. intros j row Hj. discriminate.
  - simpl stock_rows_from.
    destruct (i <? len stockSymbols) eqn:Hlt.
    2:{ apply Z.ltb_ge in Hlt. rewrite drop_ge by (unfold len in Hlt; lia).
        repeat split; auto. intros j row Hj. discriminate. }
    apply Z.ltb_lt in Hlt.
    destruct (IH (i + 5) ltac:(lia) ltac:(lia)) as (Hc & Hf & Hfull).
    set (end_ := if len stockSymbols <? i + 5 then len stockSymbols else i + 5).
    assert (i < end_ <= i + 5 /\ end_ <= len stockSymbols
            /\ (end_ < i + 5 -> end_ = len stockSymbols)) as (He1 & He2 & He3).
    { unfold end_. destruct (len stockSymbols <? i + 5) eqn:E;
        [apply Z.ltb_lt in E|apply Z.ltb_ge in E]; lia. }
    assert (length (list_slice stockSymbols i end_) = Z.to_nat (end_ - i))
      as Hlen.
    { unfold list_slice. rewrite length_take, length_drop.
      unfold len in *. lia. }
    split; [|split].
    + simpl concat. rewrite Hc. unfold list_slice.
      rewrite <- (take_drop (Z.to_nat (end_ - i))
                    (drop (Z.to_nat i) stockSymbols)) at 2.
      f_equal. rewrite drop_drop.
      destruct (Z.eq_dec end_ (i + 5)) as [E|E].
      * f_equal. lia.
      * rewrite !drop_ge; [reflexivity| |]; unfold len in *; lia.
    + constructor; [|exact Hf]. rewrite Hlen. lia.
    + intros [|j] row Hj Hlast; simpl in Hj.
      * simplify_eq. rewrite Hlen.
        destruct (Z.eq_dec end_ (i + 5)) as [E|E]; [lia|].
        exfalso. simpl in Hlast.
        destruct fuel as [|fuel']; simpl in Hlast; [lia|].
        assert ((i + 5 <? len stockSymbols) = false) as Hge
          by (apply Z.ltb_ge; lia).
        rewrite Hge in Hlast. simpl in Hlast. lia.
      * apply (Hfull j row Hj). simpl in Hlast. lia.
Qed.

(** X16. The list of stocks is cut into rows of five: the rows put end to end
    are the configured symbols, no row is empty or longer than five, and
    every row but the last has exactly five symbols. *)
Theorem stock_rows_partition (stockSymbols : list string) :
  let rows := stock_rows stockSymbols in
  concat rows = stockSymbols
  /\ Forall (fun row => (1 <= length row <= 5)%nat) rows
  /\ (forall j row, rows !! j = Some row -> (S j < length rows)%nat ->
                    length row = 5%nat).
Proof.
  cbv zeta. unfold stock_rows.
  destruct (stock_rows_from_spec stockSymbols (length stockSymbols) 0
              ltac:(lia) ltac:(unfold len; lia)) as (Hc & Hf & Hfull).
  simpl in Hc. auto.
Qed.

(** ** The command handlers *)

Section Handlers.

Variable env : Env.
Variable time_Format : time.Time -> string.

Lemma sendMessageToChat_observed (t : TelegramService) (chat_id : string)
  (m : Message) (w : World) :
  let w' := snd (sendMessageToChat env t chat_id m w) in
  telegrams (trace w') = telegrams (trace w) ++ [(chat_id, m)]
  /\ fetched (trace w') = fetched (trace w)
  /\ clock w <= clock w'.
Proof.
  unfold sendMessageToChat. unfold_world. observe. observe_telegrams.
  repeat split; auto. lia.
Qed.

Lemma log_all_observed (ls : list LogLine) (w : World) :
  telegrams (trace (log_all ls w)) = telegrams (trace w)
  /\ fetched (trace (log_all ls w)) = fetched (trace w).
Proof.
  rewrite log_all_trace, telegrams_app, fetched_app, telegrams_logs,
    fetched_logs, !app_nil_r. auto.
Qed.

Lemma GenerateSignal_quiet (symbol : string) (st : State) :
  telegrams (trace (world (snd (GenerateSignal env symbol st))))
  = telegrams (trace (world st)).
Proof.
  pose proof (signal_step_quiet env symbol st) as Hq.
  unfold signal_step in Hq.
  destruct (GenerateSignal env symbol st) as [[s|e|] st1]; simpl in *; auto.
  revert Hq. unfold_world. observe_telegrams. auto.
Qed.

(** X17. A bare symbol sent to the bot is answered in the chat it came from:
    first the "analyzing" note, then the signal or the reason why there is
    none.  One quote is requested, and the service object, its cooldown
    cache included, is left as it was. *)
Theorem handleStockSymbolRequest_dialogue (chatID symbol : string) (st : State) :
  let t := telegramService (service st) in
  let noted :=
    set_world
      (snd (SendMessageToChat env t chatID (analyzing_text symbol) (world st)))
      st in
  let analysis := GenerateSignal env symbol noted in
  let run := handleStockSymbolRequest env chatID symbol st in
  service (snd run) = service st
  /\ fetched (trace (world (snd run))) = fetched (trace (world st)) ++ [symbol]
  /\ exists rest,
       telegrams (trace (world (snd run)))
       = telegrams (trace (world st))
         ++ (chatID, [Plain (analyzing_text symbol)]) :: rest
       /\ Forall (fun sent => fst sent = chatID) rest
       /\ match fst analysis with
          | Err err =>
              fst run = Ok tt
              /\ rest = [(chatID, [Plain (failed_to_analyze_text symbol err)])]
          | Panic => fst run = Panic /\ rest = []
          | Ok signal =>
              fst run = Ok tt
              /\ exists more,
                   rest = (chatID, fst (formatSignalMessage env signal)) :: more
                   /\ (length more <= 1)%nat
          end.
Proof.
  cbv zeta. unfold handleStockSymbolRequest, SendMessageToChat.
  set (t := telegramService (service st)).
  destruct (sendMessageToChat_observed t chatID
              [Plain (analyzing_text symbol)] (world st)) as (Ht0 & Hf0 & _).
  destruct (sendMessageToChat env t chatID [Plain (analyzing_text symbol)]
              (world st)) as [sent0 w0] eqn:H0. simpl in Ht0, Hf0.
  cbn [snd].
  pose proof (GenerateSignal_service env symbol (set_world w0 st)) as Hs.
  pose proof (GenerateSignal_observed env symbol (set_world w0 st)) as (Hf & _).
  pose proof (GenerateSignal_quiet symbol (set_world w0 st)) as Hq.
  destruct (GenerateSignal env symbol (set_world w0 st))
    as [[signal|err|] st1] eqn:Hg;
    simpl in Hs, Hf, Hq; cbn [fst snd].
  - unfold SendTradingSignalToChat.
    destruct (formatSignalMessage env signal) as [message logged] eqn:Hm.
    destruct (sendMessageToChat_observed t chatID message
                (log_all logged (world st1))) as (Ht1 & Hf1 & _).
    destruct (sendMessageToChat env t chatID message
                (log_all logged (world st1))) as [sent1 w1] eqn:H1.
    simpl in Ht1, Hf1.
    destruct (log_all_observed logged (world st1)) as [Lt Lf].
    rewrite Lt in Ht1. rewrite Lf in Hf1.
    destruct sent1 as [err1|].
    + change (world (set_world w1 st1)) with w1.
      destruct (sendMessageToChat_observed t chatID
                  [Plain (failed_to_send_text symbol err1)] w1)
        as (Ht2 & Hf2 & _).
      destruct (sendMessageToChat env t chatID
                  [Plain (failed_to_send_text symbol err1)] w1)
        as [sent2 w2] eqn:H2. simpl in Ht2, Hf2.
      cbn [fst snd set_world world service].
      split; [exact Hs|]. split; [rewrite Hf2, Hf1, Hf, Hf0; reflexivity|].
      eexists. split.
      * rewrite Ht2, Ht1, Hq, Ht0, <- !app_assoc. reflexivity.
      * split; [repeat constructor|]. split; [reflexivity|].
        eexists. split; [reflexivity|]. simpl. lia.
    + cbn [fst snd set_world world service].
      split; [exact Hs|]. split; [rewrite Hf1, Hf, Hf0; reflexivity|].
      eexists. split.
      * rewrite Ht1, Hq, Ht0, <- !app_assoc. reflexivity.
      * split; [repeat constructor|]. split; [reflexivity|].
        eexists. split; [reflexivity|]. simpl. lia.
  - destruct (sendMessageToChat_observed t chatID
                [Plain (failed_to_analyze_text symbol err)] (world st1))
      as (Ht1 & Hf1 & _).
    destruct (sendMessageToChat env t chatID
                [Plain (failed_to_analyze_text symbol err)] (world st1))
      as [sent1 w1] eqn:H1. simpl in Ht1, Hf1.
    cbn [fst snd set_world world service].
    split; [exact Hs|]. split; [rewrite Hf1, Hf, Hf0; reflexivity|].
    eexists. split.
    + rewrite Ht1, Hq, Ht0, <- !app_assoc. reflexivity.
    + split; [repeat constructor|]. split; reflexivity.
  - split; [exact Hs|]. split; [rewrite Hf, Hf0; reflexivity|].
    exists []. split; [rewrite Hq; exact Ht0|].
    split; [constructor|]. split; reflexivity.
Qed.

Lemma reply_or_fail_observed (t : TelegramService) (c : string) (m : Message)
  (fail : string) (task : option Task) (st : State) :
  let out := reply_or_fail (sendMessageToChat env t c m (world st)) fail task st in
  let status := fst (fst (fst out)) in
  let response := snd (fst (fst out)) in
  let st' := snd out in
  snd (fst out) = task
  /\ (status = 200 \/ status = 500)
  /\ (status = 200 <-> RSuccess response = true)
  /\ service st' = service st
  /\ fetched (trace (world st')) = fetched (trace (world st))
  /\ telegrams (trace (world st')) = telegrams (trace (world st)) ++ [(c, m)].
Proof.
  cbv zeta. unfold reply_or_fail.
  destruct (sendMessageToChat_observed t c m (world st)) as (Ht & Hf & _).
  destruct (sendMessageToChat env t c m (world st)) as [[err|] w];
    simpl in *; repeat split; auto; try discriminate; intros; lia.
Qed.

(** One [case] of the [switch] that answers with a note. *)
Ltac by_note :=
  match goal with
  | |- context [reply_or_fail (sendMessageToChat ?e ?t ?c ?m (world ?st))
                  ?fail ?task ?st] =>
      destruct (reply_or_fail_observed t c m fail task st)
        as (Htask & Hst & Hok & Hsv & Hf & Ht);
      destruct (reply_or_fail (sendMessageToChat e t c m (world st))
                  fail task st) as [[[status response] task'] st'];
      cbn [fst snd] in *; subst task';
      exists status, response, task, st', [(c, m)]
  end.

(** X18. How a Telegram text is dispatched.  After trimming, ["/bulk"] and
    ["/summary"] start the two batch runs and nothing else does; a text that
    is not empty and does not begin with a slash starts the analysis of that
    text as a symbol, for the chat it came from, and is the only kind of text
    answered without a note; every other text gets exactly one note.  Notes
    go to the sender's chat.  The status is 200 or 500; the handler itself
    requests no quote, that is left to the task it starts; and the service
    object is left alone. *)
Theorem TelegramWebhook_dispatch (chat : TelegramChat) (text : string)
  (st : State) :
  let command := strings.TrimSpace text in
  let chatID := Sprintf_d (ChatID chat) in
  let update :=
    inr {| UpdateMessage := Some {| MessageChat := Some chat; MessageText := text |} |} in
  let bare := negb (String.eqb command "") && negb (String.prefix "/" command) in
  exists status response task st' notes,
    TelegramWebhook env time_Format update st
    = (Ok (status, response, task), st')
    /\ (task = Some RunGenerateAllSignals <-> command = "/bulk")
    /\ (task = Some RunGenerateAllSignalsSummary <-> command = "/summary")
    /\ (forall c s, task = Some (RunStockSymbolRequest c s)
                    <-> c = chatID /\ s = command /\ bare = true)
    /\ (status = 200 \/ status = 500)
    /\ (status = 200 <-> RSuccess response = true)
    /\ service st' = service st
    /\ fetched (trace (world st')) = fetched (trace (world st))
    /\ telegrams (trace (world st')) = telegrams (trace (world st)) ++ notes
    /\ Forall (fun sent => fst sent = chatID) notes
    /\ length notes = (if bare then 0 else 1)%nat.
Proof.
  cbv zeta. unfold TelegramWebhook. cbn [UpdateMessage MessageChat MessageText].
  set (command := strings.TrimSpace text).
  set (chatID := Sprintf_d (ChatID chat)).
  unfold SendWelcomeMessage, SendHelpMessage, SendMessageToChat,
    SendStocksListMessage.
  destruct (String.eqb_spec command "/start") as [E1|E1].
  { by_note. rewrite E1. cbn.
    repeat split; auto; try discriminate; try (intros (_ & _ & ?); discriminate);
      try (destruct Hok; auto; fail). }
  destruct (String.eqb_spec command "/help") as [E2|E2].
  { by_note. rewrite E2. cbn.
    repeat split; auto; try discriminate; try (intros (_ & _ & ?); discriminate);
      try (destruct Hok; auto; fail). }
  destruct (String.eqb_spec command "/bulk") as [E3|E3].
  { by_note. rewrite E3. cbn.
    repeat split; auto; try discriminate; try (intros (_ & _ & ?); discriminate);
      try (destruct Hok; auto; fail). }
  destruct (String.eqb_spec command "/summary") as [E4|E4].
  { by_note. rewrite E4. cbn.
    repeat split; auto; try discriminate; try (intros (_ & _ & ?); discriminate);
      try (destruct Hok; auto; fail). }
  destruct (String.eqb_spec command "/stocks") as [E5|E5].
  { by_note. rewrite E5. cbn.
    repeat split; auto; try discriminate; try (intros (_ & _ & ?); discriminate);
      try (destruct Hok; auto; fail). }
  destruct (negb (String.eqb command "") && negb (String.prefix "/" command))
    eqn:Hbare.
  - exists 200, (success "Webhook processed successfully" None),
      (Some (RunStockSymbolRequest chatID command)), st, [].
    rewrite app_nil_r. cbn.
    repeat split; auto; try discriminate; try congruence.
    intros (-> & -> & _). reflexivity.
  - by_note.
    repeat split; auto; try discriminate; try congruence;
      try (intros (_ & _ & ?); discriminate);
      try (destruct Hok; auto; fail).
Qed.

Lemma respond_with_signal_spec (symbol : string) (st st' : State)
  (status : Z) (response : APIResponse) :
  let asked := if String.eqb symbol "" then "INDY.JK" else symbol in
  respond_with_signal env symbol st = (Ok (status, response), st') ->
  service st' = service st
  /\ fetched (trace (world st')) = fetched (trace (world st)) ++ [asked]
  /\ telegrams (trace (world st')) = telegrams (trace (world st))
  /\ ((status = 200 /\ RSuccess response = true
       /\ exists signal,
            RData response = Some (SignalData signal)
            /\ StockSymbol signal = asked
            /\ GeneratedAt signal = time_Now (world st'))
      \/ (status = 500 /\ RSuccess response = false
          /\ RData response = None
          /\ fst (GenerateSignal env asked st) = Err (RError response))).
Proof.
  cbv zeta. unfold respond_with_signal.
  set (asked := if String.eqb symbol "" then "INDY.JK" else symbol).
  pose proof (GenerateSignal_service env asked st) as Hs.
  pose proof (GenerateSignal_observed env asked st) as (Hf & _).
  pose proof (GenerateSignal_quiet asked st) as Hq.
  pose proof (GenerateSignal_stamped env asked st) as Hk.
  destruct (GenerateSignal env asked st) as [[signal|err|] st1];
    simpl in *; intros H; simplify_eq.
  - repeat split; auto. left. repeat split; auto.
    exists signal. destruct (Hk signal eq_refl). auto.
  - repeat split; auto.
Qed.

(** X19. The answer of the HTTP API to a request for one signal.  The GET
    handler analyses the symbol of the query, or ["INDY.JK"] when there is
    none, exactly once: status 200 comes with a signal stamped with that
    symbol and the current time, status 500 with the error of the analysis;
    nothing is sent to Telegram and the service object is left alone.  The
    POST handler answers a body it cannot bind with status 400 and analyses
    nothing; otherwise it does with the symbol of the body what the GET
    handler does with the symbol of the query.  A signal that the analysis
    produces is always answered with status 200. *)
Theorem GetSignal_response (symbol : string) (body : error + SignalRequest)
  (st st' : State) (status : Z) (response : APIResponse) :
  let default symbol := if String.eqb symbol "" then "INDY.JK" else symbol in
  let answered asked :=
    service st' = service st
    /\ fetched (trace (world st')) = fetched (trace (world st)) ++ [asked]
    /\ telegrams (trace (world st')) = telegrams (trace (world st))
    /\ ((status = 200 /\ RSuccess response = true
         /\ exists signal,
              RData response = Some (SignalData signal)
              /\ StockSymbol signal = asked
              /\ GeneratedAt signal = time_Now (world st'))
        \/ (status = 500 /\ RSuccess response = false
            /\ RData response = None
            /\ fst (GenerateSignal env asked st) = Err (RError response))) in
  (GetSignal env symbol st = (Ok (status, response), st') ->
   answered (default symbol))
  /\ (SignalHandler.GenerateSignal env body st = (Ok (status, response), st') ->
      match body with
      | inl _ =>
          status = 400 /\ response = failure "Invalid request format"
          /\ st' = st
      | inr req => answered (default (RequestSymbol req))
      end)
  /\ (forall signal,
        fst (GenerateSignal env (default symbol) st) = Ok signal ->
        fst (GetSignal env symbol st)
        = Ok (200,
              success "Trading signal generated successfully"
                (Some (SignalData signal)))).
Proof.
  cbv zeta. split; [|split].
  - apply respond_with_signal_spec.
  - unfold SignalHandler.GenerateSignal. destruct body as [e|req].
    + intros H. injection H as <- <- <-. auto.
    + apply respond_with_signal_spec.
  - intros signal Hok. unfold GetSignal, respond_with_signal.
    destruct (GenerateSignal env _ st) as [[g|e|] st1]; simpl in *;
      simplify_eq. reflexivity.
Qed.

Lemma run_task_never_err (task : Task) (st : State) (e : error) :
  fst (run_task env task st) <> Err e.
Proof.
  destruct task as [| |c symbol]; simpl.
  - pose proof (GenerateAllSignals_never_err env st) as Hn.
    destruct (GenerateAllSignals env st) as [[s|e'|] st1]; simpl in *;
      [discriminate| |discriminate].
    exfalso. apply (Hn e'). reflexivity.
  - pose proof (GenerateAllSignalsSummary_never_err env st) as Hn.
    destruct (GenerateAllSignalsSummary env st) as [[s|e'|] st1]; simpl in *;
      [discriminate| |discriminate].
    exfalso. apply (Hn e'). reflexivity.
  - unfold handleStockSymbolRequest.
    repeat (case_match; simpl in *; simplify_eq); discriminate.
Qed.

(** X20. The two bulk endpoints answer before the run has begun: always
    status 200 with the fixed "started" body, with nothing requested,
    nothing sent and no time passed.  The run is left to the task they
    start.  That task never ends in an error; when it reaches its end, a
    quote was requested for every configured symbol, and the configured
    chat has received one text, the summary, after [GetSignalAll], and two,
    the "request received" note and the summary, after
    [GetSignalAllSummary]. *)
Theorem bulk_endpoints_answer_before_the_run (st : State) :
  let symbols := StockSymbols (config (service st)) in
  let chat := chatID (telegramService (service st)) in
  let N := len symbols in
  GetSignalAll st
  = (Ok (200, bulk_started_response, Some RunGenerateAllSignals), st)
  /\ GetSignalAllSummary st
     = (Ok (200, summary_started_response,
            Some RunGenerateAllSignalsSummary), st)
  /\ (forall task e, fst (run_task env task st) <> Err e)
  /\ (forall st',
        run_task env RunGenerateAllSignals st = (Ok tt, st') ->
        fetched (trace (world st')) = fetched (trace (world st)) ++ symbols
        /\ exists summary,
             GenerateAllSignals env st = (Ok summary, st')
             /\ telegrams (trace (world st'))
                = telegrams (trace (world st))
                  ++ [(chat, fst (formatSummaryMessage summary))])
  /\ (forall st',
        run_task env RunGenerateAllSignalsSummary st = (Ok tt, st') ->
        fetched (trace (world st')) = fetched (trace (world st)) ++ symbols
        /\ exists summary,
             GenerateAllSignalsSummary env st = (Ok summary, st')
             /\ telegrams (trace (world st'))
                = telegrams (trace (world st))
                  ++ [(chat, [RequestReceived N (Z.quot (N * 3) 60 + 1)
                                (clock (world st))]);
                      (chat, fst (formatSummaryMessage summary))]).
Proof.
  cbv zeta. split; [reflexivity|]. split; [reflexivity|].
  split; [intros task e; apply run_task_never_err|]. split.
  - intros st'. simpl.
    destruct (GenerateAllSignals env st) as [[summary|e|] st1] eqn:Hrun;
      intros H; simplify_eq.
    destruct (completed_facts env st st' summary (or_introl Hrun))
      as (_ & _ & Hf & _).
    split; [exact Hf|]. exists summary. split; [reflexivity|].
    apply (GenerateAllSignals_telegrams env _ _ _ Hrun).
  - intros st'. simpl.
    destruct (GenerateAllSignalsSummary env st) as [[summary|e|] st1] eqn:Hrun;
      intros H; simplify_eq.
    destruct (completed_facts env st st' summary (or_intror Hrun))
      as (_ & _ & Hf & _).
    split; [exact Hf|]. exists summary. split; [reflexivity|].
    apply (GenerateAllSignalsSummary_telegrams env _ _ _ Hrun).
Qed.

(** X21. The scheduled job writes its two log lines one after the other,
    at the same instant: when "completed" is logged, nothing has been
    requested or sent yet, and the service object is as before.  The work
    is left to the task it starts, the summary variant of the run: when
    that reaches its end, a quote was requested for every configured symbol
    and the configured chat has received the "request received" note and
    the summary. *)
Theorem scheduled_job_logs_completion_first (st : State) :
  let symbols := StockSymbols (config (service st)) in
  let chat := chatID (telegramService (service st)) in
  let N := len symbols in
  let now := ArgStr (time_Format (time_Now (world st))) in
  let out := executeTradingSignal time_Format st in
  fst out = Some RunGenerateAllSignalsSummary
  /\ service (snd out) = service st
  /\ clock (world (snd out)) = clock (world st)
  /\ trace (world (snd out))
     = trace (world st)
       ++ [EvLog {| format := cron_executing; args := [now] |};
           EvLog {| format := cron_completed; args := [now] |}]
  /\ (forall st',
        run_task env RunGenerateAllSignalsSummary (snd out) = (Ok tt, st') ->
        fetched (trace (world st')) = fetched (trace (world st)) ++ symbols
        /\ exists summary,
             telegrams (trace (world st'))
             = telegrams (trace (world st))
               ++ [(chat, [RequestReceived N (Z.quot (N * 3) 60 + 1)
                             (clock (world st))]);
                   (chat, fst (formatSummaryMessage summary))]).
Proof.
  cbv zeta. unfold executeTradingSignal. cbn [fst snd].
  split; [reflexivity|]. split; [reflexivity|].
  split; [unfold logf; unfold_world; simpl; lia|].
  split.
  { unfold logf. unfold_world. simpl. rewrite Z.add_0_r, <- app_assoc.
    reflexivity. }
  intros st'. simpl.
  set (st1 := logf cron_completed _ (logf cron_executing _ st)).
  destruct (GenerateAllSignalsSummary env st1) as [[summary|e|] st2] eqn:Hrun;
    intros H; simplify_eq.
  destruct (completed_facts env st1 st' summary (or_intror Hrun))
    as (_ & _ & Hf & _).
  pose proof (GenerateAllSignalsSummary_telegrams env _ _ _ Hrun) as Ht.
  cbv zeta in Ht. subst st1. unfold logf in Hf, Ht. unfold_world.
  simpl in Hf, Ht.
  rewrite !fetched_app in Hf. simpl in Hf. rewrite !app_nil_r in Hf.
  rewrite !telegrams_app in Ht. simpl in Ht. rewrite !app_nil_r in Ht.
  rewrite !Z.add_0_r in Ht.
  split; [exact Hf|]. exists summary. exact Ht.
Qed.

End Handlers.

(** ** The Yahoo Finance client *)

Lemma candle_at_row (result : ChartResult) (quote : Quote) (i : nat)
  (timestamp : Z) (data : OHLCData) :
  ResultTimestamp result !! i = Some timestamp ->
  candle_at quote i timestamp = Some data ->
  row_of result quote data i /\ priced data.
Proof.
  intros Ht. unfold candle_at, row_of, priced.
  destruct (QuoteOpen quote !! i) as [o|]; [|discriminate].
  destruct (QuoteHigh quote !! i) as [h|]; [|discriminate].
  destruct (QuoteLow quote !! i) as [l|]; [|discriminate].
  destruct (QuoteClose quote !! i) as [c|]; [|discriminate].
  destruct (QuoteVolume quote !! i) as [v|]; [|discriminate].
  destruct (is_zero o) eqn:Ho; [discriminate|].
  destruct (is_zero h) eqn:Hh; [discriminate|].
  destruct (is_zero l) eqn:Hl; [discriminate|].
  destruct (is_zero c) eqn:Hc; [discriminate|].
  simpl. intros H. injection H as <-. simpl.
  split; [split; [exists timestamp; split; [assumption|reflexivity]|]|];
    repeat split; assumption || reflexivity.
Qed.

Lemma candle_at_valid (result : ChartResult) (quote : Quote) (i : nat)
  (timestamp : Z) :
  ResultTimestamp result !! i = Some timestamp ->
  is_Some (candle_at quote i timestamp) <-> valid_row result quote i = true.
Proof.
  intros Ht. unfold candle_at, valid_row. rewrite Ht.
  destruct (QuoteOpen quote !! i) as [o|];
    [|split; [intros [? ?]|]; discriminate].
  destruct (QuoteHigh quote !! i) as [h|];
    [|split; [intros [? ?]|]; discriminate].
  destruct (QuoteLow quote !! i) as [l|];
    [|split; [intros [? ?]|]; discriminate].
  destruct (QuoteClose quote !! i) as [c|];
    [|split; [intros [? ?]|]; discriminate].
  destruct (QuoteVolume quote !! i) as [v|];
    [|split; [intros [? ?]|]; discriminate].
  destruct (is_zero o || is_zero h || is_zero l || is_zero c); simpl.
  - split; [intros [? ?]|]; discriminate.
  - split; [reflexivity|]. intros _. eexists. reflexivity.
Qed.

Lemma valid_row_in_range (result : ChartResult) (quote : Quote) (i : nat) :
  valid_row result quote i = true ->
  (i < length (ResultTimestamp result))%nat.
Proof.
  unfold valid_row. intros H.
  destruct (ResultTimestamp result !! i) as [t|] eqn:Ht; [|discriminate].
  apply lookup_lt_Some in Ht. exact Ht.
Qed.

(** The loop from index [i] on: what it appends are the valid rows from
    [i] on, in order. *)
Lemma collect_candles_spec (result : ChartResult) (quote : Quote)
  (timestamps : list Z) :
  forall (i : nat) (acc : list OHLCData),
    timestamps = drop i (ResultTimestamp result) ->
    exists new rows,
      collect_candles quote i timestamps acc = acc ++ new
      /\ Forall2 (row_of result quote) new rows
      /\ Forall priced new
      /\ StronglySorted lt rows
      /\ (forall j, j ∈ rows
                    <-> (i <= j)%nat /\ valid_row result quote j = true).
Proof.
  induction timestamps as [|timestamp rest IH]; intros i acc Hts; simpl.
  - exists [], []. rewrite app_nil_r.
    split; [reflexivity|]. split; [constructor|]. split; [constructor|].
    split; [constructor|]. intros j. split.
    + intros Hj. apply elem_of_nil in Hj. contradiction.
    + intros [Hle Hv]. exfalso. apply valid_row_in_range in Hv.
      assert (length (drop i (ResultTimestamp result)) = 0%nat) as Hlen
        by (rewrite <- Hts; reflexivity).
      rewrite length_drop in Hlen. lia.
  - assert (ResultTimestamp result !! i = Some timestamp) as H0.
    { rewrite <- (Nat.add_0_r i), <- lookup_drop, <- Hts. reflexivity. }
    assert (rest = drop (S i) (ResultTimestamp result)) as Hrest.
    { rewrite (drop_S _ _ _ H0) in Hts. congruence. }
    pose proof (candle_at_valid result quote i timestamp H0) as Hvalid.
    destruct (candle_at quote i timestamp) as [data|] eqn:Hc.
    + destruct (IH (S i) (acc ++ [data]) Hrest)
        as (new & rows & -> & Hrows & Hp & Hs & Hmem).
      destruct (candle_at_row result quote i timestamp data H0 Hc) as [Hr Hd].
      assert (valid_row result quote i = true) as Hvi
        by (apply Hvalid; eexists; reflexivity).
      exists (data :: new), (i :: rows). rewrite <- app_assoc.
      split; [reflexivity|]. split; [constructor; assumption|].
      split; [constructor; assumption|]. split.
      * constructor; [exact Hs|]. apply Forall_forall. intros j Hj.
        apply Hmem in Hj as [Hj _]. lia.
      * intros j. rewrite elem_of_cons, Hmem. split.
        -- intros [->|[Hle Hv]]; [split; [lia|exact Hvi]|split; [lia|exact Hv]].
        -- intros [Hle Hv]. destruct (decide (j = i)) as [->|Hne];
             [left; reflexivity|right; split; [lia|exact Hv]].
    + destruct (IH (S i) acc Hrest) as (new & rows & -> & Hrows & Hp & Hs & Hmem).
      assert (valid_row result quote i = false) as Hvi.
      { destruct (valid_row result quote i) eqn:Hv; [|reflexivity].
        destruct (proj2 Hvalid eq_refl) as [? Hx]. discriminate. }
      exists new, rows. split; [reflexivity|]. split; [assumption|].
      split; [assumption|]. split; [assumption|].
      intros j. rewrite Hmem. split.
      * intros [Hle Hv]. split; [lia|exact Hv].
      * intros [Hle Hv]. split; [|exact Hv].
        destruct (decide (j = i)) as [->|Hne]; [congruence|lia].
Qed.

Section Yahoo.

Variable web : Web.

Lemma fetch_answer (w : World) (symbol : string) (bars : list OHLCData) :
  answer (YahooFinanceService_FetchOHLCData web w symbol) = inr bars ->
  exists resp body text yahooResp result quote rows,
    http_NewRequest web (chart_url symbol) = None
    /\ answer (client_Do web w (chart_url symbol)) = inr resp
    /\ StatusCode resp = 200
    /\ ResponseBody resp = inr body
    /\ plain_body web resp body = inr text
    /\ yahoo_Unmarshal web text = inr yahooResp
    /\ head (ChartResults yahooResp) = Some result
    /\ head (ResultQuote result) = Some quote
    /\ bars <> []
    /\ Forall priced bars
    /\ Forall2 (row_of result quote) bars rows
    /\ StronglySorted lt rows
    /\ (forall i, i ∈ rows <-> valid_row result quote i = true).
Proof.
  unfold YahooFinanceService_FetchOHLCData.
  destruct (http_NewRequest web (chart_url symbol)) eqn:Hreq; [discriminate|].
  cbn [answer].
  destruct (answer (client_Do web w (chart_url symbol))) as [e|resp] eqn:Hdo;
    [discriminate|].
  unfold read_response.
  destruct (StatusCode resp =? 200) eqn:Hstatus; [|discriminate].
  apply Z.eqb_eq in Hstatus. cbn [negb].
  destruct (ResponseBody resp) as [e|body] eqn:Hbody; [discriminate|].
  destruct (plain_body web resp body) as [e|text] eqn:Hplain; [discriminate|].
  destruct (yahoo_Unmarshal web text) as [e|yahooResp] eqn:Hjson;
    [discriminate|].
  unfold candles_of.
  destruct (ChartResults yahooResp) as [|result results] eqn:Hr;
    [discriminate|].
  destruct (ResultQuote result) as [|quote quotes] eqn:Hq; [discriminate|].
  destruct (collect_candles_spec result quote (ResultTimestamp result) 0 []
              eq_refl)
    as (new & rows & Hc & Hrows & Hp & Hs & Hmem).
  rewrite Hc. simpl app.
  destruct (len new =? 0) eqn:Hl; [discriminate|].
  intros H. injection H as <-.
  exists resp, body, text, yahooResp, result, quote, rows.
  rewrite Hr, Hq. simpl.
  repeat (split; [assumption || reflexivity|]).
  split; [intros ->; discriminate|].
  split; [exact Hp|]. split; [exact Hrows|]. split; [exact Hs|].
  intros i. rewrite Hmem. split; [intros [_ H]; exact H|].
  intros H. split; [lia|exact H].
Qed.

(** X22. A successful fetch never comes back empty, and what it returns is
    read off the response of the server: the status was 200, the body,
    unzipped when the response says gzip, was decoded, and the candles are
    the valid rows of the first quote of the first chart result, all of
    them and in order.  A row is valid when the timestamps and the five
    columns all reach it and none of its four prices is zero; its candle
    carries the timestamp and the five values of that row. *)
Theorem FetchOHLCData_candles (w : World) (symbol : string)
  (bars : list OHLCData) :
  answer (YahooFinanceService_FetchOHLCData web w symbol) = inr bars ->
  bars <> []
  /\ Forall priced bars
  /\ exists resp body text yahooResp result quote rows,
       answer (client_Do web w (chart_url symbol)) = inr resp
       /\ StatusCode resp = 200
       /\ ResponseBody resp = inr body
       /\ plain_body web resp body = inr text
       /\ yahoo_Unmarshal web text = inr yahooResp
       /\ head (ChartResults yahooResp) = Some result
       /\ head (ResultQuote result) = Some quote
       /\ Forall2 (row_of result quote) bars rows
       /\ StronglySorted lt rows
       /\ (forall i, i ∈ rows <-> valid_row result quote i = true).
Proof.
  intros H.
  destruct (fetch_answer w symbol bars H)
    as (resp & body & text & yahooResp & result & quote & rows & _ & Hdo
        & Hst & Hbody & Hplain & Hjson & Hr & Hq & Hne & Hp & Hrows & Hs
        & Hmem).
  split; [exact Hne|]. split; [exact Hp|].
  exists resp, body, text, yahooResp, result, quote, rows. auto 12.
Qed.

(** X23. With this client as the quote source, [GenerateSignal] has only two
    kinds of error, a failed fetch and a failed inference: its own check for
    an empty series never fires. *)
Theorem GenerateSignal_errors_with_yahoo (env : Env) (symbol : string)
  (st : State) (err : error) :
  fst (GenerateSignal (with_yahoo web env) symbol st) = Err err ->
  (exists cause, err = wrap_error "failed to fetch OHLC data" cause)
  \/ (exists cause, err = wrap_error "failed to generate AI signal" cause).
Proof.
  unfold GenerateSignal, yahoo_FetchOHLCData.
  destruct (answer (FetchOHLCData (with_yahoo web env) _ symbol))
    as [e|bars] eqn:Ha; simpl.
  - intros H. simplify_eq. eauto.
  - destruct (fetch_answer _ _ _ Ha)
      as (? & ? & ? & ? & ? & ? & ? & _ & _ & _ & _ & _ & _ & _ & _ & Hne & _).
    destruct bars as [|b bars]; [contradiction|].
    assert ((len (b :: bars) =? 0) = false) as ->
      by (apply Z.eqb_neq; unfold len; simpl length; lia).
    destruct (GenerateTradingSignal _ symbol (b :: bars) _) as [[s|e|] w'];
      simpl; intros H; simplify_eq. eauto.
Qed.

End Yahoo.

(** ** The loading of the configuration *)

Lemma chars_inj (s t : string) : chars s = chars t -> s = t.
Proof.
  revert t. induction s as [|c s IH]; intros [|d t]; simpl; try discriminate.
  - reflexivity.
  - intros H. injection H as -> H. f_equal. auto.
Qed.

Lemma chars_rev_onto (s acc : string) :
  chars (strings.rev_onto s acc) = rev_append (chars s) (chars acc).
Proof.
  revert acc. induction s as [|c s IH]; intros acc; simpl; [reflexivity|].
  rewrite IH. reflexivity.
Qed.

Lemma chars_reverse (s : string) :
  chars (strings.reverse s) = rev (chars s).
Proof.
  unfold strings.reverse. rewrite chars_rev_onto. simpl.
  rewrite rev_append_rev, app_nil_r. reflexivity.
Qed.

Lemma reverse_involutive (s : string) :
  strings.reverse (strings.reverse s) = s.
Proof.
  apply chars_inj. rewrite !chars_reverse. apply rev_involutive.
Qed.

(** What is left of a string after [TrimLeftSpace]: a suffix that does not
    begin with white space. *)
Lemma TrimLeftSpace_spec (s : string) :
  starts_with_space (strings.TrimLeftSpace s) = false
  /\ exists pre, chars s = pre ++ chars (strings.TrimLeftSpace s).
Proof.
  remember (String.length s) as n eqn:Hn.
  assert (String.length s <= n)%nat as Hle by lia. clear Hn.
  revert s Hle. induction n as [|n IH]; intros s Hle.
  - destruct s; [|cbn [String.length] in Hle; lia]. split; [reflexivity|]. exists []. auto.
  - destruct s as [|c r]; [split; [reflexivity|]; exists []; auto|].
    cbn [String.length] in Hle. cbn [strings.TrimLeftSpace].
    destruct (strings.is_space c) eqn:Hc.
    { destruct (IH r ltac:(lia)) as (Hs & pre & Hp). split; [exact Hs|].
      exists (c :: pre). cbn [chars app]. rewrite Hp at 1. reflexivity. }
    destruct r as [|d r2].
    { split; [unfold starts_with_space; rewrite Hc; reflexivity|]. exists []. reflexivity. }
    cbn [String.length] in Hle. destruct (strings.is_space2 c d) eqn:Hd.
    { destruct (IH r2 ltac:(lia)) as (Hs & pre & Hp). split; [exact Hs|].
      exists (c :: d :: pre). cbn [chars app]. rewrite Hp at 1. reflexivity. }
    destruct r2 as [|e r3].
    { split; [unfold starts_with_space; rewrite Hc, Hd; reflexivity|]. exists []. reflexivity. }
    cbn [String.length] in Hle. destruct (strings.is_space3 c d e) eqn:He.
    { destruct (IH r3 ltac:(lia)) as (Hs & pre & Hp). split; [exact Hs|].
      exists (c :: d :: e :: pre). cbn [chars app]. rewrite Hp at 1. reflexivity. }
    split; [unfold starts_with_space; rewrite Hc, Hd, He; reflexivity|]. exists []. reflexivity.
Qed.

Lemma TrimLeftSpace_fixed (s : string) :
  starts_with_space s = false -> strings.TrimLeftSpace s = s.
Proof.
  destruct s as [|c [|d [|e r]]]; unfold starts_with_space; intros H;
    cbn [strings.TrimLeftSpace]; try reflexivity;
    (destruct (strings.is_space c); [discriminate H|]);
    try (destruct (strings.is_space2 c d); [discriminate H|]);
    try (destruct (strings.is_space3 c d e); [discriminate H|]);
    reflexivity.
Qed.

Lemma TrimLeftSpace_reversed_spec (s : string) :
  starts_with_space_reversed (strings.TrimLeftSpace_reversed s) = false
  /\ exists pre, chars s = pre ++ chars (strings.TrimLeftSpace_reversed s).
Proof.
  remember (String.length s) as n eqn:Hn.
  assert (String.length s <= n)%nat as Hle by lia. clear Hn.
  revert s Hle. induction n as [|n IH]; intros s Hle.
  - destruct s; [|cbn [String.length] in Hle; lia]. split; [reflexivity|]. exists []. auto.
  - destruct s as [|c r]; [split; [reflexivity|]; exists []; auto|].
    cbn [String.length] in Hle. cbn [strings.TrimLeftSpace_reversed].
    destruct (strings.is_space c) eqn:Hc.
    { destruct (IH r ltac:(lia)) as (Hs & pre & Hp). split; [exact Hs|].
      exists (c :: pre). cbn [chars app]. rewrite Hp at 1. reflexivity. }
    destruct r as [|d r2].
    { split; [unfold starts_with_space_reversed; rewrite Hc; reflexivity|]. exists []. reflexivity. }
    cbn [String.length] in Hle. destruct (strings.is_space2 d c) eqn:Hd.
    { destruct (IH r2 ltac:(lia)) as (Hs & pre & Hp). split; [exact Hs|].
      exists (c :: d :: pre). cbn [chars app]. rewrite Hp at 1. reflexivity. }
    destruct r2 as [|e r3].
    { split; [unfold starts_with_space_reversed; rewrite Hc, Hd; reflexivity|]. exists []. reflexivity. }
    cbn [String.length] in Hle. destruct (strings.is_space3 e d c) eqn:He.
    { destruct (IH r3 ltac:(lia)) as (Hs & pre & Hp). split; [exact Hs|].
      exists (c :: d :: e :: pre). cbn [chars app]. rewrite Hp at 1. reflexivity. }
    split; [unfold starts_with_space_reversed; rewrite Hc, Hd, He; reflexivity|]. exists []. reflexivity.
Qed.

Lemma TrimLeftSpace_reversed_fixed (s : string) :
  starts_with_space_reversed s = false -> strings.TrimLeftSpace_reversed s = s.
Proof.
  destruct s as [|c [|d [|e r]]]; unfold starts_with_space_reversed;
    intros H; cbn [strings.TrimLeftSpace_reversed]; try reflexivity;
    (destruct (strings.is_space c); [discriminate H|]);
    try (destruct (strings.is_space2 d c); [discriminate H|]);
    try (destruct (strings.is_space3 e d c); [discriminate H|]);
    reflexivity.
Qed.

(** A string that begins with white space still does when more follows. *)
Lemma starts_with_space_prefix (x a : string) (rest : list ascii) :
  chars a = chars x ++ rest ->
  starts_with_space x = true -> starts_with_space a = true.
Proof.
  unfold starts_with_space. intros Ha Hx.
  destruct x as [|c [|d [|e x]]]; [discriminate| | |].
  - rewrite orb_false_r in Hx.
    destruct a as [|c' a]; [discriminate|]. cbn [chars app] in Ha.
    injection Ha as -> _. rewrite Hx. reflexivity.
  - rewrite !orb_false_r in Hx.
    destruct a as [|c' [|d' a]]; try discriminate. cbn [chars app] in Ha.
    injection Ha as -> -> _.
    apply orb_true_iff in Hx as [Hx | Hx]; rewrite Hx; [reflexivity|].
    rewrite orb_true_r. reflexivity.
  - destruct a as [|c' [|d' [|e' a]]]; try discriminate.
    cbn [chars app] in Ha. injection Ha as -> -> -> _. exact Hx.
Qed.

(** What [TrimSpace] returns neither begins nor ends with white space. *)
Lemma TrimSpace_edges (s : string) :
  starts_with_space (strings.TrimSpace s) = false
  /\ ends_with_space (strings.TrimSpace s) = false.
Proof.
  unfold strings.TrimSpace, strings.TrimRightSpace, ends_with_space.
  set (a := strings.TrimLeftSpace s).
  set (b := strings.reverse a).
  set (c := strings.TrimLeftSpace_reversed b).
  destruct (TrimLeftSpace_spec s) as (Ha & _). fold a in Ha.
  destruct (TrimLeftSpace_reversed_spec b) as (Hc & pre & Hb). fold c in Hc, Hb.
  rewrite reverse_involutive. split; [|exact Hc].
  destruct (starts_with_space (strings.reverse c)) eqn:Hr; [|reflexivity].
  rewrite <- Ha. symmetry.
  apply (starts_with_space_prefix (strings.reverse c) a (rev pre)); [|exact Hr].
  rewrite <- (reverse_involutive a). fold b.
  rewrite !chars_reverse, Hb, rev_app_distr. reflexivity.
Qed.

Lemma TrimSpace_idempotent (s : string) :
  strings.TrimSpace (strings.TrimSpace s) = strings.TrimSpace s.
Proof.
  destruct (TrimSpace_edges s) as [Hl Hr].
  unfold strings.TrimSpace at 1. rewrite (TrimLeftSpace_fixed _ Hl).
  unfold strings.TrimRightSpace. unfold ends_with_space in Hr.
  rewrite (TrimLeftSpace_reversed_fixed _ Hr). apply reverse_involutive.
Qed.

Lemma occurs_chars (c : ascii) (s : string) :
  occurs c s = false <-> Forall (fun x => Ascii.eqb x c = false) (chars s).
Proof.
  induction s as [|x s IH]; simpl.
  - split; [constructor|reflexivity].
  - destruct (Ascii.eqb x c) eqn:Hx.
    + split; [discriminate|]. intros H. inversion H; congruence.
    + rewrite IH. split; [intros; constructor; assumption|].
      intros H. inversion H; assumption.
Qed.

Lemma occurs_reverse (c : ascii) (s : string) :
  occurs c (strings.reverse s) = occurs c s.
Proof.
  destruct (occurs c s) eqn:H.
  - apply not_false_iff_true. intros Hr. apply occurs_chars in Hr.
    rewrite chars_reverse in Hr. apply Forall_rev in Hr.
    rewrite rev_involutive in Hr. apply occurs_chars in Hr. congruence.
  - apply occurs_chars. rewrite chars_reverse. apply Forall_rev.
    apply occurs_chars. exact H.
Qed.

Lemma occurs_TrimLeftSpace (c : ascii) (s : string) :
  occurs c s = false -> occurs c (strings.TrimLeftSpace s) = false.
Proof.
  intros H. apply occurs_chars in H. apply occurs_chars.
  destruct (TrimLeftSpace_spec s) as (_ & pre & Hs). rewrite Hs in H.
  apply Forall_app in H. apply H.
Qed.

Lemma occurs_TrimLeftSpace_reversed (c : ascii) (s : string) :
  occurs c s = false -> occurs c (strings.TrimLeftSpace_reversed s) = false.
Proof.
  intros H. apply occurs_chars in H. apply occurs_chars.
  destruct (TrimLeftSpace_reversed_spec s) as (_ & pre & Hs). rewrite Hs in H.
  apply Forall_app in H. apply H.
Qed.

Lemma occurs_TrimSpace (c : ascii) (s : string) :
  occurs c s = false -> occurs c (strings.TrimSpace s) = false.
Proof.
  intros H. unfold strings.TrimSpace, strings.TrimRightSpace.
  rewrite occurs_reverse.
  apply occurs_TrimLeftSpace_reversed. rewrite occurs_reverse.
  apply occurs_TrimLeftSpace. exact H.
Qed.

Lemma Split_pieces (s : string) (sep : ascii) :
  Forall (fun piece => occurs sep piece = false) (strings.Split s sep).
Proof.
  induction s as [|c s IH]; simpl.
  - constructor; [reflexivity|constructor].
  - destruct (Ascii.eqb c sep) eqn:Hc.
    + constructor; [reflexivity|exact IH].
    + destruct (strings.Split s sep) as [|h t].
      * constructor; [simpl; rewrite Hc; reflexivity|constructor].
      * inversion IH; subst. constructor; [simpl; rewrite Hc; assumption|].
        assumption.
Qed.

Lemma add_symbols (pieces acc : list string) :
  fold_left config.add_symbol pieces acc
  = acc ++ filter (fun s => s <> "") (map strings.TrimSpace pieces).
Proof.
  revert acc. induction pieces as [|p pieces IH]; intros acc; simpl.
  - rewrite app_nil_r. reflexivity.
  - rewrite IH. unfold config.add_symbol at 1.
    destruct (String.eqb_spec (strings.TrimSpace p) "") as [He|He]; simpl.
    + rewrite filter_cons_False by (intros H; apply H; exact He).
      reflexivity.
    + rewrite filter_cons_True by exact He. rewrite <- app_assoc.
      reflexivity.
Qed.

Lemma parse_symbols_pieces (str : string) :
  config.parse_symbols str
  = filter (fun s => s <> "")
      (map strings.TrimSpace (strings.Split str ","%char)).
Proof.
  unfold config.parse_symbols.
  destruct (String.eqb_spec str "") as [->|Hne]; simpl.
  - reflexivity.
  - apply add_symbols.
Qed.

Lemma getEnv_value (environ : config.Environ) (key d : string) (w : World) :
  fst (config.getEnv environ key d w)
  = if String.eqb (config.os_Getenv environ key) "" then d
    else config.os_Getenv environ key.
Proof.
  unfold config.getEnv.
  destruct (String.eqb (config.os_Getenv environ key) ""); reflexivity.
Qed.

Lemma getEnv_given (environ : config.Environ) (key : string) (w : World) :
  fst (config.getEnv environ key "" w) = config.os_Getenv environ key.
Proof.
  rewrite getEnv_value.
  destruct (String.eqb_spec (config.os_Getenv environ key) ""); congruence.
Qed.

Lemma getEnv_default (environ : config.Environ) (key d : string) (w : World) :
  d <> "" -> fst (config.getEnv environ key d w) <> "".
Proof.
  intros Hd. rewrite getEnv_value.
  destruct (String.eqb_spec (config.os_Getenv environ key) ""); congruence.
Qed.

Lemma getEnv_world (environ : config.Environ) (key d : string) (w w' : World) :
  fst (config.getEnv environ key d w) = fst (config.getEnv environ key d w').
Proof. rewrite !getEnv_value. reflexivity. Qed.

Section LoadConfig.

Variable godotenv_Load : config.Environ -> option error * config.Environ.
Variable Atoi : string -> error + Z.

Let LoadConfig := config.LoadConfig godotenv_Load Atoi.

(** The fields [LoadConfig] reads straight from the environment that
    [godotenv.Load] leaves behind. *)
Lemma LoadConfig_fields (environ : config.Environ) (w : World) :
  let env' := snd (godotenv_Load environ) in
  let pieces := config.parse_symbols (config.os_Getenv env' "STOCK_SYMBOLS") in
  exists cfg rest w1 before,
    LoadConfig environ w = config.validate cfg w1
    /\ logged (trace w1)
       = before
         ++ [{| format := "%v";
                args := ArgStr (GeminiAPIKey cfg)
                        :: ArgStr (TelegramBotToken cfg) :: rest |}]
    /\ GeminiAPIKey cfg = config.os_Getenv env' "GEMINI_API_KEY"
    /\ TelegramBotToken cfg = config.os_Getenv env' "TELEGRAM_BOT_TOKEN"
    /\ TelegramChatID cfg = config.os_Getenv env' "TELEGRAM_CHAT_ID"
    /\ DefaultStockSymbol cfg <> ""
    /\ StockSymbols cfg
       = if len pieces =? 0 then [DefaultStockSymbol cfg] else pieces.
Proof.
  intros env' pieces. subst LoadConfig. unfold config.LoadConfig.
  subst pieces env'. destruct (godotenv_Load environ) as [err env'].
  cbn [snd].
  set (w0 := match err with Some _ => _ | None => w end).
  destruct (config.getEnv env' "STOCK_SYMBOLS" "" w0) as [str w1] eqn:H1.
  apply (f_equal fst) in H1. rewrite getEnv_given in H1. cbn [fst] in H1.
  subst str.
  set (pieces := config.parse_symbols (config.os_Getenv env' "STOCK_SYMBOLS")).
  set (chosen := if len pieces =? 0 then _ else _).
  assert (exists w2,
            chosen
            = (if len pieces =? 0
               then [fst (config.getEnv env' "DEFAULT_STOCK_SYMBOL" "INDY.JK"
                            w1)]
               else pieces, w2)) as [w2 ->].
  { subst chosen. destruct (len pieces =? 0); [|eauto].
    destruct (config.getEnv env' "DEFAULT_STOCK_SYMBOL" "INDY.JK" w1); eauto. }
  destruct (config.getEnv env' "GEMINI_API_KEY" "" w2) as [k w3] eqn:H3.
  apply (f_equal fst) in H3. rewrite getEnv_given in H3. cbn [fst] in H3.
  destruct (config.getEnv env' "TELEGRAM_BOT_TOKEN" "" w3) as [t w4] eqn:H4.
  apply (f_equal fst) in H4. rewrite getEnv_given in H4. cbn [fst] in H4.
  destruct (config.getEnv env' "TELEGRAM_CHAT_ID" "" w4) as [c w5] eqn:H5.
  apply (f_equal fst) in H5. rewrite getEnv_given in H5. cbn [fst] in H5.
  destruct (config.getEnv env' "PORT" "8080" w5) as [p w6].
  destruct (config.getEnv env' "ENVIRONMENT" "development" w6) as [e w7].
  destruct (config.getEnv env' "DEFAULT_STOCK_SYMBOL" "INDY.JK" w7)
    as [d w8] eqn:H8.
  apply (f_equal fst) in H8. cbn [fst] in H8.
  destruct (config.getEnvAsInt Atoi env' "SIGNAL_COOLDOWN_MINUTES" 15 w8)
    as [m w9].
  destruct (config.getEnvAsInt Atoi env' "MIN_CONFIDENCE_LEVEL" 70 w9)
    as [l w10].
  destruct (config.getEnv env' "WEBHOOK_URL" "" w10) as [u w11].
  eexists _, _, _, _. split; [reflexivity|].
  split.
  { unfold config.log_config, log_Printf, record. cbn [trace].
    rewrite logged_app. reflexivity. }
  cbn. split; [auto|]. split; [auto|]. split; [auto|]. split.
  - rewrite <- H8. apply getEnv_default. discriminate.
  - rewrite (getEnv_world _ _ _ w1 w7), H8. reflexivity.
Qed.

(** X24. A loaded configuration always names at least one symbol and no empty
    one.  The symbols are the pieces of [STOCK_SYMBOLS] between commas,
    trimmed, in their order, without those that are blank; each one is
    free of commas and of white space at either end.  When no piece is
    left, the default symbol stands alone. *)
Theorem LoadConfig_symbols (environ : config.Environ) (w : World)
  (cfg : Config) :
  fst (LoadConfig environ w) = config.Configured cfg ->
  let pieces :=
    filter (fun s => s <> "")
      (map strings.TrimSpace
         (strings.Split
            (config.os_Getenv (snd (godotenv_Load environ)) "STOCK_SYMBOLS")
            ","%char)) in
  StockSymbols cfg <> []
  /\ Forall (fun symbol => symbol <> "") (StockSymbols cfg)
  /\ (pieces <> [] ->
      StockSymbols cfg = pieces
      /\ Forall (fun symbol => strings.TrimSpace symbol = symbol
                               /\ occurs ","%char symbol = false)
           (StockSymbols cfg))
  /\ (pieces = [] -> StockSymbols cfg = [DefaultStockSymbol cfg]).
Proof.
  intros Hc pieces.
  destruct (LoadConfig_fields environ w)
    as (cfg' & rest & w1 & before & Hv & _ & _ & _ & _ & Hd & Hs).
  rewrite Hv in Hc. unfold config.validate, config.log_Fatal in Hc.
  assert (cfg' = cfg) as ->.
  { destruct (String.eqb (GeminiAPIKey cfg') ""); [discriminate|].
    destruct (String.eqb (TelegramBotToken cfg') ""); [discriminate|].
    destruct (String.eqb (TelegramChatID cfg') ""); [discriminate|].
    simpl in Hc. congruence. }
  rewrite parse_symbols_pieces in Hs. fold pieces in Hs.
  assert (Forall (fun symbol => symbol <> ""
                                /\ strings.TrimSpace symbol = symbol
                                /\ occurs ","%char symbol = false) pieces)
    as Hp.
  { subst pieces. apply Forall_forall. intros s Hin.
    apply list_elem_of_filter in Hin as [Hne Hin].
    apply list_elem_of_fmap in Hin as (piece & -> & Hin).
    split; [exact Hne|]. split; [apply TrimSpace_idempotent|].
    apply occurs_TrimSpace.
    pose proof (Split_pieces
                  (config.os_Getenv (snd (godotenv_Load environ))
                     "STOCK_SYMBOLS") ","%char) as Hall.
    rewrite Forall_forall in Hall. apply Hall. exact Hin. }
  destruct pieces as [|p pieces'] eqn:Hpieces.
  - simpl in Hs. rewrite Hs. split; [discriminate|].
    split; [constructor; [exact Hd|constructor]|].
    split; [intros H; contradiction|]. reflexivity.
  - assert ((len (p :: pieces') =? 0) = false) as Hl
      by (apply Z.eqb_neq; unfold len; simpl length; lia).
    rewrite Hl in Hs. rewrite Hs. split; [discriminate|].
    split; [eapply Forall_impl; [exact Hp|]; simpl; tauto|].
    split; [|discriminate]. intros _. split; [reflexivity|].
    eapply Forall_impl; [exact Hp|]. simpl. tauto.
Qed.

(** X25. [LoadConfig] ends the process unless the API key, the bot token and
    the chat id are all given, and names the first one missing; what it
    returns otherwise carries the three as given.  Either way it has logged
    the configuration, with the API key and the bot token in clear: that
    line is the last of the log when the configuration is returned, and the
    last but one, before the fatal message, when the process ends. *)
Theorem LoadConfig_requires_credentials (environ : config.Environ)
  (w : World) :
  let env' := snd (godotenv_Load environ) in
  let key := config.os_Getenv env' "GEMINI_API_KEY" in
  let token := config.os_Getenv env' "TELEGRAM_BOT_TOKEN" in
  let chat := config.os_Getenv env' "TELEGRAM_CHAT_ID" in
  let log := logged (trace (snd (LoadConfig environ w))) in
  exists rest before,
    let shown :=
      {| format := "%v"; args := ArgStr key :: ArgStr token :: rest |} in
    match fst (LoadConfig environ w) with
    | config.Configured cfg =>
        key <> "" /\ token <> "" /\ chat <> ""
        /\ GeminiAPIKey cfg = key /\ TelegramBotToken cfg = token
        /\ TelegramChatID cfg = chat
        /\ log = before ++ [shown]
    | config.Fatal message =>
        ((key = "" /\ message = "GEMINI_API_KEY is required")
         \/ (key <> "" /\ token = ""
             /\ message = "TELEGRAM_BOT_TOKEN is required")
         \/ (key <> "" /\ token <> "" /\ chat = ""
             /\ message = "TELEGRAM_CHAT_ID is required"))
        /\ log = before ++ [shown; {| format := message; args := [] |}]
    end.
Proof.
  intros env' key token chat log.
  destruct (LoadConfig_fields environ w)
    as (cfg & rest & w1 & before & Hv & Hlog & Hk & Ht & Hc & _ & _).
  fold env' in Hk, Ht, Hc. fold key in Hk. fold token in Ht. fold chat in Hc.
  exists rest, before. cbv zeta. subst log. rewrite Hv.
  unfold config.validate, config.log_Fatal. rewrite Hk, Ht, Hc.
  rewrite Hk, Ht in Hlog.
  assert (forall m,
             logged (trace (log_Printf m [] w1))
             = before
               ++ [{| format := "%v";
                      args := ArgStr key :: ArgStr token :: rest |};
                   {| format := m; args := [] |}]) as Hfatal.
  { intros m. unfold log_Printf, record. cbn [trace].
    rewrite logged_app, Hlog, <- app_assoc. reflexivity. }
  destruct (String.eqb_spec key "") as [Hke|Hke];
    [cbn [fst snd]; split; [auto|apply Hfatal]|].
  destruct (String.eqb_spec token "") as [Hte|Hte];
    [cbn [fst snd]; split; [auto|apply Hfatal]|].
  destruct (String.eqb_spec chat "") as [Hce|Hce];
    [cbn [fst snd]; split; [auto 8|apply Hfatal]|].
  cbn [fst snd]. auto 8.
Qed.

End LoadConfig.

(** ** The further properties at work on the scenario *)

(** Text before and after the braces is ignored. *)
Lemma parseSignalResponse_extracts_witness :
  occurs "{"%char "Here it is: " = false
  /\ occurs "}"%char " Good luck." = false
  /\ parseSignalResponse Scenario.env "Here it is: {signal:BUY} Good luck."
     = Ok (Scenario.decoded "BUY" 1000%float 1100%float 950%float).
Proof.
  split; [reflexivity|]. split; [reflexivity|].
  exact (parseSignalResponse_extracts Scenario.env "Here it is: " "signal:BUY"
           " Good luck." eq_refl eq_refl).
Defined.

(** Braces the wrong way round. *)
Lemma parseSignalResponse_outcomes_witness :
  occurs "{"%char "} {" = true
  /\ occurs "}"%char "} {" = true
  /\ strings.LastIndex "} {" "}"%char + 1 < strings.Index "} {" "{"%char
  /\ parseSignalResponse Scenario.env "} {" = Panic.
Proof.
  assert (strings.LastIndex "} {" "}"%char + 1 < strings.Index "} {" "{"%char)
    as Hlt by (vm_compute; reflexivity).
  split; [reflexivity|]. split; [reflexivity|]. split; [exact Hlt|].
  destruct (parseSignalResponse_outcomes Scenario.env "} {") as (_ & H).
  destruct (H eq_refl eq_refl) as (Hpanic & _).
  exact (Hpanic Hlt).
Defined.

(** The bulk run over ["A"; "B"; "C"] sends one text. *)
Lemma batch_run_telegrams_witness :
  let st := Scenario.st_ABC in
  let summary := Scenario.summary_of Scenario.bulk_ABC in
  GenerateAllSignals Scenario.env st = (Ok summary, snd Scenario.bulk_ABC)
  /\ telegrams (trace (world (snd Scenario.bulk_ABC)))
     = telegrams (trace (world st))
       ++ [("42", fst (formatSummaryMessage summary))].
Proof.
  cbv zeta.
  assert (GenerateAllSignals Scenario.env Scenario.st_ABC
          = (Ok (Scenario.summary_of Scenario.bulk_ABC),
             snd Scenario.bulk_ABC)) as Hrun by (vm_compute; reflexivity).
  split; [exact Hrun|].
  destruct (batch_run_telegrams Scenario.env Scenario.st_ABC
              (snd Scenario.bulk_ABC)
              (Scenario.summary_of Scenario.bulk_ABC)) as (H & _).
  exact (H Hrun).
Defined.

(** ["G"], the second of three symbols, gets a garbled answer: ["C"] is
    never looked at. *)
Lemma panic_stops_the_run_witness :
  let st := Examples.st_AGC in
  let run := GenerateAllSignals Examples.garbled_env st in
  StockSymbols (config (service st)) !! 1%nat = Some "G"
  /\ fst run = Panic
  /\ fetched (trace (world (snd run))) = ["A"; "G"]
  /\ telegrams (trace (world (snd run))) = [].
Proof.
  cbv zeta. split; [reflexivity|].
  destruct (panic_stops_the_run Examples.garbled_env Examples.st_AGC
              (snd Examples.before_G) 1 "G"
              (Scenario.buckets_in Examples.before_G) eq_refl) as (H & _).
  apply H; vm_compute; reflexivity.
Defined.

(** The buckets of the bulk run over ["A"; "B"; "C"]. *)
Lemma buckets_keep_configured_order_witness :
  let st := Scenario.st_ABC in
  let summary := Scenario.summary_of Scenario.bulk_ABC in
  completed Scenario.env st summary (snd Scenario.bulk_ABC)
  /\ map StockSymbol (BuySignals summary) `sublist_of` ["A"; "B"; "C"]
  /\ map StockSymbol (SellSignals summary) `sublist_of` ["A"; "B"; "C"]
  /\ map StockSymbol (HoldSignals summary) `sublist_of` ["A"; "B"; "C"]
  /\ FailedSignals summary `sublist_of` ["A"; "B"; "C"].
Proof.
  cbv zeta.
  assert (completed Scenario.env Scenario.st_ABC
            (Scenario.summary_of Scenario.bulk_ABC) (snd Scenario.bulk_ABC))
    as Hrun by (left; vm_compute; reflexivity).
  split; [exact Hrun|].
  exact (buckets_keep_configured_order Scenario.env _ _ _ Hrun).
Defined.

(** The summary run over ["A"; "B"; "C"], started at instant 1000. *)
Lemma signals_stamped_within_the_run_witness :
  let st := Scenario.st_ABC in
  let summary := Scenario.summary_of Scenario.summary_run_ABC in
  completed Scenario.env st summary (snd Scenario.summary_run_ABC)
  /\ Forall (fun s => 1000 <= GeneratedAt s
                      /\ GeneratedAt s <= SummaryGeneratedAt summary)
       (BuySignals summary ++ SellSignals summary ++ HoldSignals summary)
  /\ SummaryGeneratedAt summary
     <= clock (world (snd Scenario.summary_run_ABC)).
Proof.
  cbv zeta.
  assert (completed Scenario.env Scenario.st_ABC
            (Scenario.summary_of Scenario.summary_run_ABC)
            (snd Scenario.summary_run_ABC))
    as Hrun by (right; vm_compute; reflexivity).
  split; [exact Hrun|].
  exact (signals_stamped_within_the_run Scenario.env _ _ _ Hrun).
Defined.

(** The text of the summary of the bulk run over ["A"; "B"; "C"]. *)
Lemma summary_text_names_every_symbol_witness :
  let st := Scenario.st_ABC in
  let summary := Scenario.summary_of Scenario.bulk_ABC in
  let text := fst (formatSummaryMessage summary) in
  completed Scenario.env st summary (snd Scenario.bulk_ABC)
  /\ listed text ≡ₚ ["A"; "B"; "C"]
  /\ head text
     = Some (SummaryHeader 3 (len (BuySignals summary))
               (len (SellSignals summary)) (len (HoldSignals summary))
               (len (FailedSignals summary)) (SummaryGeneratedAt summary)).
Proof.
  cbv zeta.
  assert (completed Scenario.env Scenario.st_ABC
            (Scenario.summary_of Scenario.bulk_ABC) (snd Scenario.bulk_ABC))
    as Hrun by (left; vm_compute; reflexivity).
  split; [exact Hrun|].
  exact (summary_text_names_every_symbol Scenario.env _ _ _ Hrun).
Defined.

(** Recording ["A"] does not touch ["C"]. *)
Lemma updateSignalCache_touches_one_symbol_witness :
  let st := Examples.recorded 15 2000 in
  let st' := updateSignalCache "C" st in
  "A" <> "C"
  /\ is_Some (signalCache (service st) !! "A")
  /\ signalCache (service st') !! "A" = signalCache (service st) !! "A"
  /\ canGenerateSignal "A" st' = canGenerateSignal "A" st
  /\ is_Some (signalCache (service st') !! "A").
Proof.
  cbv zeta.
  assert ("A" <> "C") as Hne by discriminate.
  assert (is_Some (signalCache (service (Examples.recorded 15 2000)) !! "A"))
    as Hk by (exists 1000; vm_compute; reflexivity).
  destruct (updateSignalCache_touches_one_symbol "C"
              (Examples.recorded 15 2000)) as (Hother & Hkeep & _).
  destruct (Hother "A" Hne) as [Hc Hg].
  split; [exact Hne|]. split; [exact Hk|]. split; [exact Hc|].
  split; [exact Hg|]. exact (Hkeep "A" Hk).
Defined.

(** Fifteen minutes to the nanosecond. *)
Lemma cooldown_counts_minutes_witness :
  let due := 1000 + 15 * (60 * time.Second) in
  canGenerateSignal "A" (Examples.recorded 15 (due - 1)) = false
  /\ canGenerateSignal "A" (Examples.recorded 15 due) = true.
Proof.
  cbv zeta.
  pose proof (cooldown_counts_minutes "A"
                (Examples.recorded 15 (1000 + 15 * (60 * time.Second) - 1))
                15 1000 eq_refl ltac:(lia) ltac:(vm_compute; reflexivity)
                ltac:(vm_compute; discriminate)) as Hearly.
  pose proof (cooldown_counts_minutes "A"
                (Examples.recorded 15 (1000 + 15 * (60 * time.Second)))
                15 1000 eq_refl ltac:(lia) ltac:(vm_compute; reflexivity)
                ltac:(vm_compute; discriminate)) as Hdue.
  split.
  - apply not_true_is_false. intros H. apply Hearly in H.
    vm_compute in H. apply H. reflexivity.
  - apply Hdue. vm_compute. discriminate.
Defined.

(** A cooldown of zero minutes. *)
Lemma nonpositive_cooldown_never_blocks_witness :
  let st := Examples.recorded 0 1000 in
  signalCache (service st) !! "A" = Some 1000
  /\ canGenerateSignal "A" st = true.
Proof.
  cbv zeta. split; [vm_compute; reflexivity|].
  apply nonpositive_cooldown_never_blocks.
  - vm_compute. split; discriminate.
  - intros last H. vm_compute in H. injection H as <-.
    vm_compute. discriminate.
Defined.

(** Seven symbols make a row of five and a row of two. *)
Lemma stock_rows_partition_witness :
  let symbols := ["A"; "B"; "C"; "D"; "E"; "F"; "G"] in
  stock_rows symbols !! 0%nat = Some ["A"; "B"; "C"; "D"; "E"]
  /\ (1 < length (stock_rows symbols))%nat
  /\ length ["A"; "B"; "C"; "D"; "E"] = 5%nat
  /\ concat (stock_rows symbols) = symbols.
Proof.
  cbv zeta.
  destruct (stock_rows_partition ["A"; "B"; "C"; "D"; "E"; "F"; "G"])
    as (Hcat & _ & Hfull).
  assert (stock_rows ["A"; "B"; "C"; "D"; "E"; "F"; "G"] !! 0%nat
          = Some ["A"; "B"; "C"; "D"; "E"]) as Hrow by reflexivity.
  assert (1 < length (stock_rows ["A"; "B"; "C"; "D"; "E"; "F"; "G"]))%nat
    as Hlen by (vm_compute; lia).
  split; [exact Hrow|]. split; [exact Hlen|].
  split; [exact (Hfull 0%nat _ Hrow Hlen)|exact Hcat].
Defined.

(** A GET request for ["A"] is answered with its signal; one without
    symbol asks for ["INDY.JK"], for which the scenario's inference has no
    signal; a POST request whose body cannot be bound is turned away. *)
Lemma GetSignal_response_witness :
  let st := Scenario.state ["A"] 15 1000 in
  let buy :=
    stamp (Scenario.decoded "BUY" 1000%float 1100%float 950%float) "A" 1000 in
  let found := GetSignal Scenario.env "A" st in
  let missing := GetSignal Scenario.env "" st in
  let unbound := SignalHandler.GenerateSignal Scenario.env (inl "EOF") st in
  fst found
  = Ok (200,
        success "Trading signal generated successfully"
          (Some (SignalData buy)))
  /\ missing
     = (Ok (500,
            failure
              "failed to generate AI signal: failed to parse signal response: no JSON found in response"),
        snd missing)
  /\ fetched (trace (world (snd missing))) = ["INDY.JK"]
  /\ telegrams (trace (world (snd missing))) = []
  /\ unbound = (Ok (400, failure "Invalid request format"), st).
Proof.
  cbv zeta.
  set (st := Scenario.state ["A"] 15 1000).
  assert (GetSignal Scenario.env "" st
          = (Ok (500,
                 failure
                   "failed to generate AI signal: failed to parse signal response: no JSON found in response"),
             snd (GetSignal Scenario.env "" st)))
    as Hmissing by (vm_compute; reflexivity).
  assert (SignalHandler.GenerateSignal Scenario.env (inl "EOF") st
          = (Ok (400, failure "Invalid request format"), st))
    as Hunbound by reflexivity.
  destruct (GetSignal_response Scenario.env "A" (inl "EOF") st st 400
              (failure "Invalid request format")) as (_ & Hpost & Hfound).
  destruct (GetSignal_response Scenario.env "" (inl "EOF") st
              (snd (GetSignal Scenario.env "" st)) 500
              (failure
                 "failed to generate AI signal: failed to parse signal response: no JSON found in response"))
    as (Hget & _ & _).
  destruct (Hget Hmissing) as (_ & Hf & Ht & _).
  destruct (Hpost Hunbound) as (_ & _ & _).
  split; [apply Hfound; vm_compute; reflexivity|].
  split; [exact Hmissing|]. split; [exact Hf|]. split; [exact Ht|].
  exact Hunbound.
Defined.

(** The bulk endpoint over ["A"; "B"; "C"], and the task it starts. *)
Lemma bulk_endpoints_answer_before_the_run_witness :
  let st := Scenario.st_ABC in
  let run := run_task Scenario.env RunGenerateAllSignals st in
  fst (GetSignalAll st)
  = Ok (200, bulk_started_response, Some RunGenerateAllSignals)
  /\ run = (Ok tt, snd run)
  /\ fetched (trace (world (snd run))) = ["A"; "B"; "C"]
  /\ length (telegrams (trace (world (snd run)))) = 1%nat.
Proof.
  cbv zeta.
  assert (run_task Scenario.env RunGenerateAllSignals Scenario.st_ABC
          = (Ok tt,
             snd (run_task Scenario.env RunGenerateAllSignals
                    Scenario.st_ABC)))
    as Hrun by (vm_compute; reflexivity).
  destruct (bulk_endpoints_answer_before_the_run Scenario.env Scenario.st_ABC)
    as (Hget & _ & _ & Hbulk & _).
  destruct (Hbulk _ Hrun) as (Hf & summary & _ & Ht).
  split; [rewrite Hget; reflexivity|]. split; [exact Hrun|].
  split; [exact Hf|]. rewrite Ht. reflexivity.
Defined.

(** The scheduled job over ["A"; "B"; "C"], and the task it starts. *)
Lemma scheduled_job_logs_completion_first_witness :
  let st := Scenario.st_ABC in
  let out := executeTradingSignal Examples.time_Format st in
  let run := run_task Scenario.env RunGenerateAllSignalsSummary (snd out) in
  run = (Ok tt, snd run)
  /\ last (logged (trace (world (snd out))))
     = Some {| format := cron_completed;
               args := [ArgStr "2006-01-02 15:04:05"] |}
  /\ fetched (trace (world (snd out))) = []
  /\ fetched (trace (world (snd run))) = ["A"; "B"; "C"]
  /\ length (telegrams (trace (world (snd run)))) = 2%nat.
Proof.
  cbv zeta.
  set (out := executeTradingSignal Examples.time_Format Scenario.st_ABC).
  assert (run_task Scenario.env RunGenerateAllSignalsSummary (snd out)
          = (Ok tt,
             snd (run_task Scenario.env RunGenerateAllSignalsSummary
                    (snd out))))
    as Hrun by (vm_compute; reflexivity).
  destruct (scheduled_job_logs_completion_first Scenario.env
              Examples.time_Format Scenario.st_ABC)
    as (_ & _ & _ & Htrace & Htask).
  destruct (Htask _ Hrun) as (Hf & summary & Ht).
  split; [exact Hrun|].
  split; [fold out in Htrace; rewrite Htrace; reflexivity|].
  split; [fold out in Htrace; rewrite Htrace; reflexivity|].
  split; [exact Hf|]. rewrite Ht. reflexivity.
Defined.

(** Of the four rows of the chart, the first and the third are valid, and
    they are the candles. *)
Lemma FetchOHLCData_candles_witness :
  let reply :=
    YahooFinanceService_FetchOHLCData Examples.web
      {| clock := 0; trace := [] |} "A" in
  answer reply = inr (Examples.candles reply)
  /\ map Timestamp (Examples.candles reply)
     = [time_Unix 1700000000; time_Unix 1700000600]
  /\ map Open (Examples.candles reply) = [1000; 1010]%float
  /\ map Volume (Examples.candles reply) = [100000; 90000]
  /\ Forall priced (Examples.candles reply)
  /\ exists yahooResp result quote rows,
       yahoo_Unmarshal Examples.web "chart" = inr yahooResp
       /\ head (ChartResults yahooResp) = Some result
       /\ head (ResultQuote result) = Some quote
       /\ Forall2 (row_of result quote) (Examples.candles reply) rows
       /\ (forall i, i ∈ rows <-> valid_row result quote i = true).
Proof.
  cbv zeta.
  assert (answer (YahooFinanceService_FetchOHLCData Examples.web
                    {| clock := 0; trace := [] |} "A")
          = inr (Examples.candles
                   (YahooFinanceService_FetchOHLCData Examples.web
                      {| clock := 0; trace := [] |} "A")))
    as Hrun by (vm_compute; reflexivity).
  split; [exact Hrun|]. split; [vm_compute; reflexivity|].
  split; [vm_compute; reflexivity|]. split; [vm_compute; reflexivity|].
  destruct (FetchOHLCData_candles Examples.web _ _ _ Hrun)
    as (_ & Hp & resp & body & text & yahooResp & result & quote & rows
        & Hdo & _ & Hbody & Hplain & Hjson & Hr & Hq & Hrows & _ & Hmem).
  split; [exact Hp|].
  exists yahooResp, result, quote, rows.
  assert (text = "chart") as ->.
  { vm_compute in Hdo. injection Hdo as <-. vm_compute in Hbody.
    injection Hbody as <-. vm_compute in Hplain. congruence. }
  auto.
Defined.

(** The server does not know ["B"]. *)
Lemma GenerateSignal_errors_with_yahoo_witness :
  let env := with_yahoo Examples.web Scenario.env in
  let err :=
    wrap_error "failed to fetch OHLC data"
      "Yahoo Finance API returned status: 404" in
  fst (GenerateSignal env "B" Scenario.st_ABC) = Err err
  /\ ((exists cause, err = wrap_error "failed to fetch OHLC data" cause)
      \/ (exists cause, err = wrap_error "failed to generate AI signal" cause)).
Proof.
  cbv zeta.
  assert (fst (GenerateSignal (with_yahoo Examples.web Scenario.env) "B"
                 Scenario.st_ABC)
          = Err (wrap_error "failed to fetch OHLC data"
                   "Yahoo Finance API returned status: 404"))
    as Hrun by (vm_compute; reflexivity).
  split; [exact Hrun|].
  exact (GenerateSignal_errors_with_yahoo Examples.web Scenario.env _ _ _ Hrun).
Defined.

(** [STOCK_SYMBOLS=" BBCA, ,TLKM ,"] configures two symbols. *)
Lemma LoadConfig_symbols_witness :
  let cfg := Examples.config_of (fst Examples.loaded) in
  fst Examples.loaded = config.Configured cfg
  /\ StockSymbols cfg = ["BBCA"; "TLKM"]
  /\ Forall (fun symbol => symbol <> "") (StockSymbols cfg).
Proof.
  cbv zeta.
  assert (fst Examples.loaded
          = config.Configured (Examples.config_of (fst Examples.loaded)))
    as Hrun by (vm_compute; reflexivity).
  split; [exact Hrun|]. split; [vm_compute; reflexivity|].
  destruct (LoadConfig_symbols Examples.godotenv_Load Examples.Atoi
              Examples.environ {| clock := 0; trace := [] |} _ Hrun)
    as (_ & H & _).
  exact H.
Defined.

(** The scenario's inference never panics, so its runs over
    ["A"; "B"; "C"] reach their end. *)
Lemma batch_runs_reach_their_end_witness :
  never_panics Scenario.env
  /\ (exists summary st',
        GenerateAllSignals Scenario.env Scenario.st_ABC = (Ok summary, st'))
  /\ (exists summary st',
        GenerateAllSignalsSummary Scenario.env Scenario.st_ABC
        = (Ok summary, st')).
Proof.
  split; [exact scenario_never_panics|].
  exact (batch_runs_reach_their_end Scenario.env Scenario.st_ABC
           scenario_never_panics).
Defined.

(** Three symbols, none failing: two pauses of three seconds. *)
Lemma unfailing_run_is_paced_witness :
  let st := Scenario.state ["A"; "C"; "D"] 15 1000 in
  let run := GenerateAllSignals Scenario.env st in
  let summary := Scenario.summary_of run in
  completed Scenario.env st summary (snd run)
  /\ FailedSignals summary = []
  /\ slept (trace (world (snd run))) = [3 * time.Second; 3 * time.Second]
  /\ 1000 + 3 * time.Second * 2 <= clock (world (snd run)).
Proof.
  cbv zeta.
  assert (completed Scenario.env (Scenario.state ["A"; "C"; "D"] 15 1000)
            (Scenario.summary_of
               (GenerateAllSignals Scenario.env
                  (Scenario.state ["A"; "C"; "D"] 15 1000)))
            (snd (GenerateAllSignals Scenario.env
                    (Scenario.state ["A"; "C"; "D"] 15 1000))))
    as Hrun by (left; vm_compute; reflexivity).
  assert (FailedSignals
            (Scenario.summary_of
               (GenerateAllSignals Scenario.env
                  (Scenario.state ["A"; "C"; "D"] 15 1000))) = [])
    as Hnone by (vm_compute; reflexivity).
  split; [exact Hrun|]. split; [exact Hnone|].
  exact (unfailing_run_is_paced Scenario.env _ _ _ Hrun Hnone).
Defined.

(** Without a chat id the process ends, and the log ends with the
    configuration followed by the fatal message. *)
Lemma LoadConfig_requires_credentials_witness :
  let log := logged (trace (snd Examples.loaded_without_chat)) in
  fst Examples.loaded_without_chat
  = config.Fatal "TELEGRAM_CHAT_ID is required"
  /\ last log = Some {| format := "TELEGRAM_CHAT_ID is required"; args := [] |}
  /\ exists rest before,
       log = before
             ++ [{| format := "%v";
                    args := ArgStr "key" :: ArgStr "token" :: rest |};
                 {| format := "TELEGRAM_CHAT_ID is required"; args := [] |}].
Proof.
  cbv zeta.
  assert (fst Examples.loaded_without_chat
          = config.Fatal "TELEGRAM_CHAT_ID is required") as Hrun
    by (vm_compute; reflexivity).
  destruct (LoadConfig_requires_credentials Examples.godotenv_Load
              Examples.Atoi Examples.environ_without_chat
              {| clock := 0; trace := [] |}) as (rest & before & H).
  cbv zeta in H. fold Examples.loaded_without_chat in H.
  rewrite Hrun in H. destruct H as [_ Hlog].
  split; [exact Hrun|]. split.
  - rewrite Hlog, last_app. reflexivity.
  - exists rest, before. exact Hlog.
Defined.

(** A command with a no-break space in front and a space behind. *)
Lemma TelegramWebhook_dispatch_witness :
  let text := String.append Examples.nbsp "/bulk " in
  let update :=
    inr {| UpdateMessage :=
             Some {| MessageChat := Some {| ChatID := 7 |};
                     MessageText := text |} |} in
  strings.TrimSpace text = "/bulk"
  /\ exists status response st',
       TelegramWebhook Scenario.env Examples.time_Format update
         Scenario.st_ABC
       = (Ok (status, response, Some RunGenerateAllSignals), st').
Proof.
  cbv zeta.
  assert (strings.TrimSpace (String.append Examples.nbsp "/bulk ") = "/bulk")
    as Hcommand by (vm_compute; reflexivity).
  split; [exact Hcommand|].
  destruct (TelegramWebhook_dispatch Scenario.env Examples.time_Format
              {| ChatID := 7 |} (String.append Examples.nbsp "/bulk ")
              Scenario.st_ABC)
    as (status & response & task & st' & notes & Hrun & Hbulk & _).
  exists status, response, st'. rewrite Hrun.
  rewrite (proj2 Hbulk Hcommand). reflexivity.
Defined.
